(** * vm_manager: a shallow embedding of [src/vm_manager.py]

    The tool is glue code around external processes, the file system and a
    small SQLite table.  The embedding keeps that shape:

    - Python [str] values are sequences of Unicode code points ([list N]);
      the string methods the program calls ([strip], [splitlines], [split],
      [in], [startswith], [join], [lower], [textwrap.dedent]) are written
      out.
    - Everything outside the program (external tools, the clock, the
      temporary-directory, random-name and identifier generators, the JSON
      and tar codecs) is a field of the record [Oracle]; the program is
      written over an arbitrary oracle.
    - Effects are threaded through a state-and-exception monad over a
      [World]: file system, Path Store table, the list of commands that were
      executed, printed lines and the oracle's state.  The state survives a
      raised exception, as it does in Python.
    - Operations on files fail as they do in Python: making a directory
      where a file is in the way, writing where no directory is, text that
      UTF-8 cannot encode.  Exceptions are named by class; [OSError] stands
      for that class and its subclasses ([FileNotFoundError],
      [FileExistsError], [NotADirectoryError], [IsADirectoryError]).
    - A path is the text [pathlib] prints for it, and the file system maps
      such texts to files and directories.  The model follows the system
      on path texts ([path_text]): texts that can be encoded, without NUL
      and without a component [..]; permissions, links and the current
      directory are not modelled.
    - The table of the Path Store is a component of the world; the bytes
      of its database file are not modelled.

    The file has three parts: the program, the notions used to state its
    properties, and the properties C1 to C10 with the lemmas they need,
    followed by further properties of the program (X1 and following). *)

From Stdlib Require Import String Ascii DecimalString.
From Stdlib Require Import ZArith NArith Bool Lia List Permutation Sorted.
Import ListNotations.

Set Implicit Arguments.

(* ================================================================== *)
(** * Python strings *)
(* ================================================================== *)

Module PyStr.

Definition char := N.
Definition str := list char.

(** A string literal of the source, for ASCII text. *)
Definition lit (x : string) : str :=
  List.map N_of_ascii (list_ascii_of_string x).

Definition NL : char := 10%N.

Definition char_eqb (a b : char) : bool := N.eqb a b.

Fixpoint str_eqb (a b : str) : bool :=
  match a, b with
  | [], [] => true
  | x :: a', y :: b' => char_eqb x y && str_eqb a' b'
  | _, _ => false
  end.

(** [s.startswith(p)] *)
Fixpoint startswith (p s : str) : bool :=
  match p, s with
  | [], _ => true
  | x :: p', y :: s' => char_eqb x y && startswith p' s'
  | _ :: _, [] => false
  end.

(** [s.endswith(p)] *)
Definition endswith (p s : str) : bool := startswith (rev p) (rev s).

(** [needle in hay] *)
Fixpoint contains (needle hay : str) : bool :=
  match hay with
  | [] => startswith needle []
  | _ :: t => startswith needle hay || contains needle t
  end.

(** Number of positions at which [needle] occurs in [hay]. *)
Fixpoint occurrences (needle hay : str) : nat :=
  match hay with
  | [] => if startswith needle [] then 1 else 0
  | _ :: t => (if startswith needle hay then 1 else 0) + occurrences needle t
  end.

(** [s.split(sep, 1)] when [sep] occurs in [s]: the text before the first
    occurrence and the text after it; [None] when [sep] does not occur
    (Python then returns the one-element list [[s]]). *)
Fixpoint cut (sep s : str) : option (str * str) :=
  match s with
  | [] => if startswith sep [] then Some ([], []) else None
  | c :: t =>
      if startswith sep s then Some ([], skipn (length sep) s)
      else match cut sep t with
           | Some (a, b) => Some (c :: a, b)
           | None => None
           end
  end.

(** [s.split(sep)[0]] and [s.split(sep, 1)[0]] *)
Definition before (sep s : str) : str :=
  match cut sep s with Some (a, _) => a | None => s end.

(** [s.split(sep, 1)[1]]; Python raises IndexError when [sep] is absent. *)
Definition after (sep s : str) : option str :=
  match cut sep s with Some (_, b) => Some b | None => None end.

(** [str.isspace] on one code point. *)
Definition is_space (c : char) : bool :=
  ((9 <=? c) && (c <=? 13) || (28 <=? c) && (c <=? 32)
   || (c =? 133) || (c =? 160) || (c =? 5760)
   || (8192 <=? c) && (c <=? 8202)
   || (c =? 8232) || (c =? 8233) || (c =? 8239) || (c =? 8287)
   || (c =? 12288))%N.

Fixpoint lstrip (s : str) : str :=
  match s with
  | [] => []
  | c :: t => if is_space c then lstrip t else s
  end.

Definition rstrip (s : str) : str := rev (lstrip (rev s)).

(** [s.strip()] *)
Definition strip (s : str) : str := rstrip (lstrip s).

(** The line boundaries of [str.splitlines]. *)
Definition is_linebreak (c : char) : bool :=
  ((10 <=? c) && (c <=? 13) || (28 <=? c) && (c <=? 30)
   || (c =? 133) || (c =? 8232) || (c =? 8233))%N.

(** After a carriage return a directly following line feed belongs to the
    same boundary. *)
Definition after_break (c : char) (t : str) : str :=
  match t with
  | d :: t' => if ((c =? 13) && (d =? 10))%N then t' else t
  | [] => t
  end.

Definition cons_head (c : char) (ls : list str) : list str :=
  match ls with
  | [] => [[c]]
  | l :: ls' => (c :: l) :: ls'
  end.

Fixpoint splitlines_fuel (n : nat) (s : str) : list str :=
  match n with
  | O => []
  | S n' =>
      match s with
      | [] => []
      | c :: t =>
          if is_linebreak c then [] :: splitlines_fuel n' (after_break c t)
          else cons_head c (splitlines_fuel n' t)
      end
  end.

(** [s.splitlines()]; the recursion consumes at least one character per
    step, so the length of [s] is fuel enough. *)
Definition splitlines (s : str) : list str := splitlines_fuel (length s) s.

(** [s.split(d)] for a one-character separator [d]. *)
Fixpoint split_char (d : char) (s : str) : list str :=
  match s with
  | [] => [[]]
  | c :: t =>
      if (c =? d)%N then [] :: split_char d t
      else match split_char d t with
           | [] => [[c]]
           | l :: ls => (c :: l) :: ls
           end
  end.

(** [s.split("\n")] *)
Definition split_nl (s : str) : list str := split_char NL s.

(** [sep.join(parts)] *)
Fixpoint join (sep : str) (parts : list str) : str :=
  match parts with
  | [] => []
  | [p] => p
  | p :: rest => p ++ sep ++ join sep rest
  end.

(** [s.lower()] on the ASCII letters.  (Python lowers every cased code
    point; the program only searches the result for the ASCII word
    "running".) *)
Definition lower_char (c : char) : char :=
  if ((65 <=? c) && (c <=? 90))%N then (c + 32)%N else c.

Definition lower (s : str) : str := List.map lower_char s.

(** Text that UTF-8 can encode: no lone surrogate.  (Python refuses to
    write or to bind any other text.) *)
Definition is_surrogate (c : char) : bool := ((55296 <=? c) && (c <=? 57343))%N.

Definition encodable (s : str) : bool := forallb (fun c => negb (is_surrogate c)) s.

(** What reading in text mode makes of the stored characters: a carriage
    return, with the line feed that may follow it, becomes a line feed. *)
Fixpoint universal_newlines (s : str) : str :=
  match s with
  | [] => []
  | c :: t =>
      if (c =? 13)%N
      then NL :: match t with
                 | d :: t' => if (d =? 10)%N then universal_newlines t'
                              else universal_newlines t
                 | [] => []
                 end
      else c :: universal_newlines t
  end.

(** [s.lstrip("/")] *)
Fixpoint lstrip_slashes (s : str) : str :=
  match s with
  | c :: t => if (c =? 47)%N then lstrip_slashes t else s
  | [] => []
  end.

(** [str(n)] and [f"{n}"] for an [int]. *)
Definition str_of_Z (z : Z) : str :=
  lit (NilZero.string_of_int (Z.to_int z)).

(** ** [textwrap.dedent] (CPython 3.8 to 3.13) *)

Definition is_sp_tab (c : char) : bool := ((c =? 32) || (c =? 9))%N.

Fixpoint take_indent (l : str) : str :=
  match l with
  | c :: t => if is_sp_tab c then c :: take_indent t else []
  | [] => []
  end.

(** A line made only of blanks and tabs; [_whitespace_only_re] empties it. *)
Definition blank_line (l : str) : bool := forallb is_sp_tab l.

Fixpoint common_prefix (a b : str) : str :=
  match a, b with
  | x :: a', y :: b' => if char_eqb x y then x :: common_prefix a' b' else []
  | _, _ => []
  end.

(** The margin: the longest common leading blank run of the lines that
    hold something else than blanks. *)
Fixpoint margin_of (acc : option str) (ls : list str) : option str :=
  match ls with
  | [] => acc
  | l :: rest =>
      if blank_line l then margin_of acc rest
      else let i := take_indent l in
           margin_of (Some (match acc with
                            | None => i
                            | Some m => common_prefix m i
                            end)) rest
  end.

Definition remove_margin (m l : str) : str :=
  if startswith m l then skipn (length m) l else l.

Definition dedent_lines (ls : list str) : list str :=
  let ls1 := List.map (fun l => if blank_line l then [] else l) ls in
  match margin_of None ls1 with
  | Some (c :: m) => List.map (remove_margin (c :: m)) ls1
  | _ => ls1
  end.

Definition dedent (text : str) : str :=
  join [NL] (dedent_lines (split_nl text)).

End PyStr.
Export PyStr.

(* ================================================================== *)
(** * The world outside the program *)
(* ================================================================== *)

(** ** File system

    A path is its text; two paths name the same object when they are the
    same text (no links, no [..] resolution).  The text of a [Path] is taken
    in the normal form [pathlib] gives it (no doubled or final slash, no
    [.] component).  A text file holds its characters, a binary file its
    bytes.  The root and the current directory are always there.
    Permissions and full disks are outside the model; what is modelled of
    failure is what follows from the entries themselves: a file where a
    directory is needed, a directory where a file is needed, a missing
    directory. *)

Inductive node := File (data : str) | Dir.

Definition FS := list (str * node).

Fixpoint fs_lookup (p : str) (fs : FS) : option node :=
  match fs with
  | [] => None
  | (q, n) :: rest => if str_eqb p q then Some n else fs_lookup p rest
  end.

(** [Path.exists()] *)
Definition fs_exists (p : str) (fs : FS) : bool :=
  match fs_lookup p fs with Some _ => true | None => false end.

Definition fs_read (p : str) (fs : FS) : option str :=
  match fs_lookup p fs with Some (File d) => Some d | _ => None end.

(** The entry [p] becomes the file [d]: what a write that succeeds does. *)
Fixpoint fs_put (p : str) (d : str) (fs : FS) : FS :=
  match fs with
  | [] => [(p, File d)]
  | (q, n) :: rest =>
      if str_eqb p q then (q, File d) :: rest else (q, n) :: fs_put p d rest
  end.

(** A directory entry is added at [p] unless something is there: what
    [mkdtemp] does with the fresh name it picked. *)
Definition fs_add_dir (p : str) (fs : FS) : FS :=
  if fs_exists p fs then fs else fs ++ [(p, Dir)].

Definition SLASH : char := 47%N.

(** The text of a [Path] as the model takes it: it can be encoded and
    holds no NUL character (the calls of the operating system raise
    [ValueError] for the others); it is [/], [.], or names separated by
    single slashes behind at most one leading slash, as [Path] writes
    them; and no name is [..], which the system resolves against the
    directories there are and the model does not. *)
Definition name_component (c : str) : bool :=
  negb (str_eqb c []) && negb (str_eqb c (lit "."))
  && negb (str_eqb c (lit "..")).

Definition path_text (p : str) : bool :=
  encodable p
  && negb (existsb (N.eqb 0) p)
  && (str_eqb p [SLASH] || str_eqb p (lit ".")
      || match split_char SLASH p with
         | [] => false
         | [c] => name_component c
         | c :: cs => (str_eqb c [] || name_component c)
                      && forallb name_component cs
         end).

(** The proper ancestors of a path that are named by a non-empty prefix,
    outermost first: [a], [a/b] for [a/b/c]. *)
Fixpoint ancestors_from (seen todo : str) : list str :=
  match todo with
  | [] => []
  | c :: t =>
      (if (c =? SLASH)%N && negb (str_eqb seen []) then [seen] else [])
      ++ ancestors_from (seen ++ [c]) t
  end.

Definition ancestors (p : str) : list str := ancestors_from [] p.

(** [a / b] of [pathlib], for the text [a] of a path and a text [b] that
    [Path] would keep as it is: an absolute right operand replaces the
    left, the current directory [.] as left operand disappears, and no
    slash is put behind a root. *)
Definition path_join (a b : str) : str :=
  match b with
  | c :: _ =>
      if (c =? SLASH)%N then b
      else if str_eqb a (lit ".") then b
      else if endswith [SLASH] a then a ++ b
      else a ++ [SLASH] ++ b
  | [] => a
  end.

(** [p.parent] *)
Definition parent (p : str) : str :=
  match rev (ancestors p) with
  | d :: _ => d
  | [] => match p with
          | c :: _ => if (c =? SLASH)%N then [SLASH] else lit "."
          | [] => lit "."
          end
  end.

(** [Path.is_dir()] *)
Definition is_dir (d : str) (fs : FS) : bool :=
  str_eqb d [SLASH] || str_eqb d (lit ".")
  || match fs_lookup d fs with Some Dir => true | _ => false end.

(** Whether [open(p, "w")] and [open(p, "a")] succeed: a file that is
    there can be opened, a new file needs its directory, a directory
    cannot be opened. *)
Definition can_open_for_writing (p : str) (fs : FS) : bool :=
  match fs_lookup p fs with
  | Some Dir => false
  | Some (File _) => true
  | None => is_dir (parent p) fs
  end.

(** [p.mkdir(parents=True, exist_ok=True)], on [p] and then its ancestors,
    innermost first, as [pathlib] goes: a directory that is there ends the
    climb; a file in the way is an error ([None]: FileExistsError for [p]
    itself, NotADirectoryError for an ancestor); what is missing is made
    on the way back, outermost first. *)
Fixpoint mkdir_chain (chain : list str) (fs : FS) : option FS :=
  match chain with
  | [] => Some fs
  | d :: up =>
      if is_dir d fs then Some fs
      else match fs_lookup d fs with
           | Some _ => None
           | None =>
               match mkdir_chain up fs with
               | Some fs' => Some (fs' ++ [(d, Dir)])
               | None => None
               end
           end
  end.

Definition mkdir_p (p : str) (fs : FS) : option FS :=
  mkdir_chain (p :: rev (ancestors p)) fs.

Definition is_under (dir p : str) : bool := startswith (dir ++ [SLASH]) p.

(** What the clean-up of a [TemporaryDirectory] removes. *)
Definition rmtree (dir : str) (fs : FS) : FS :=
  filter (fun e => negb (str_eqb (fst e) dir || is_under dir (fst e))) fs.

(** The names of the entries directly inside [dir], in the order of their
    creation. *)
Fixpoint listdir (dir : str) (fs : FS) : list str :=
  match fs with
  | [] => []
  | (p, _) :: rest =>
      (if is_under dir p then
         let name := skipn (S (length dir)) p in
         if negb (str_eqb name []) && negb (contains [SLASH] name)
         then [name] else []
       else [])
      ++ listdir dir rest
  end.

(** The order in which the operating system lists a directory is not
    specified: the entries come by a rank that the environment gives to
    each path, entries of equal rank in the order of their creation. *)
Fixpoint insert_by_rank (rank : str -> N) (x : str) (sorted : list str)
  : list str :=
  match sorted with
  | [] => [x]
  | y :: rest =>
      if (rank x <=? rank y)%N then x :: sorted
      else y :: insert_by_rank rank x rest
  end.

Definition scan_order (rank : str -> N) (paths : list str) : list str :=
  fold_right (insert_by_rank rank) [] paths.

(** [dir.glob("*" + suffix)] *)
Definition glob_suffix (rank : str -> N) (dir suffix : str) (fs : FS)
  : list str :=
  scan_order rank
    (List.map (path_join dir)
              (filter (fun n => endswith suffix n) (listdir dir fs))).

(** ** External processes, JSON, oracles *)

Record Completed := {
  returncode : Z;
  proc_stdout : str;
  proc_stderr : str
}.

(** A float of a JSON text, through what [int()] makes of it. *)
Inductive float_value :=
| Finite (truncated : Z)
| NaN
| Infinite.

#[local] Unset Elimination Schemes.
Inductive json :=
| JNull
| JBool (b : bool)
| JInt (z : Z)
| JFloat (f : float_value)
| JStr (s : str)
| JArr (items : list json)
| JObj (fields : list (str * json)).
#[local] Set Elimination Schemes.

(** What the program cannot compute by itself.  [E] is the state of the
    environment. *)
Record Oracle (E : Type) := {
  (** run an executable: exit status and output, effect on the files *)
  exec : list str -> FS -> E -> Completed * FS * E;
  (** SQLite's [CURRENT_TIMESTAMP] *)
  current_timestamp : E -> Z * E;
  (** the name [tempfile] picks for a new directory *)
  mkdtemp : E -> str * E;
  (** [secrets.token_hex(3)] *)
  token_hex : E -> str * E;
  (** [str(uuid.uuid4())] *)
  uuid4 : E -> str * E;
  (** [json.loads]; [None] when the text is not JSON *)
  json_loads : str -> option json;
  (** [int(s)] for a string; [None] when Python raises ValueError *)
  int_of_str : str -> option Z;
  (** the tar codec *)
  tar_pack : list (str * str) -> str;
  tar_unpack : str -> option (list (str * str));
  (** [Path.resolve()] *)
  resolve : str -> str;
  (** the place of a path in the order in which its directory is listed *)
  scan_rank : str -> N;
  (** [Path.home()] *)
  home : str
}.

(* ================================================================== *)
(** * Path Store (class [PathStore]) *)
(* ================================================================== *)

(** One row of the table [paths]; [updated_at] is the time in seconds
    since 1970, which sorts like the text SQLite stores for it. *)
Record Row := { key : str; value : str; updated_at : Z }.

(** The text of [CURRENT_TIMESTAMP] for a time: [YYYY-MM-DD HH:MM:SS] in
    UTC (for the years 0 to 9999). *)
Definition pad2 (n : Z) : str :=
  (if (n <? 10)%Z then lit "0" else []) ++ str_of_Z n.

Definition pad4 (n : Z) : str :=
  (if (n <? 10)%Z then lit "000"
   else if (n <? 100)%Z then lit "00"
        else if (n <? 1000)%Z then lit "0" else []) ++ str_of_Z n.

(** Year, month and day of a day count since 1970-01-01. *)
Definition civil_from_days (days : Z) : Z * Z * Z :=
  let z := (days + 719468)%Z in
  let era := (z / 146097)%Z in
  let doe := (z - era * 146097)%Z in
  let yoe := ((doe - doe / 1460 + doe / 36524 - doe / 146096) / 365)%Z in
  let doy := (doe - (365 * yoe + yoe / 4 - yoe / 100))%Z in
  let mp := ((5 * doy + 2) / 153)%Z in
  let d := (doy - (153 * mp + 2) / 5 + 1)%Z in
  let m := (if (mp <? 10)%Z then mp + 3 else mp - 9)%Z in
  let y := (yoe + era * 400 + (if (m <=? 2)%Z then 1 else 0))%Z in
  (y, m, d).

Definition sqlite_datetime (t : Z) : str :=
  let '(y, m, d) := civil_from_days (t / 86400) in
  let secs := (t mod 86400)%Z in
  pad4 y ++ lit "-" ++ pad2 m ++ lit "-" ++ pad2 d ++ lit " "
  ++ pad2 (secs / 3600) ++ lit ":" ++ pad2 (secs mod 3600 / 60) ++ lit ":"
  ++ pad2 (secs mod 60).

(** What SQLite accepts as a database.  The bytes of a database are not
    modelled: the rows of its table are the component [w_db] of the world,
    and its file is shown with empty content; a file of other content
    stands for one that SQLite rejects. *)
Definition is_database (content : str) : bool :=
  match content with [] => true | _ => false end.

(** The rows in rowid order. *)
Definition Table := list Row.

(** [INSERT ... ON CONFLICT(key) DO UPDATE SET value=..., updated_at=...] *)
Fixpoint upsert (now : Z) (k v : str) (t : Table) : Table :=
  match t with
  | [] => [{| key := k; value := v; updated_at := now |}]
  | r :: rest =>
      if str_eqb (key r) k
      then {| key := k; value := v; updated_at := now |} :: rest
      else r :: upsert now k v rest
  end.

(** [SELECT value FROM paths WHERE key=?] then [fetchone()] *)
Fixpoint select_value (k : str) (t : Table) : option str :=
  match t with
  | [] => None
  | r :: rest => if str_eqb (key r) k then Some (value r) else select_value k rest
  end.

(** [ORDER BY updated_at DESC]: rows of equal time keep their rowid order. *)
Fixpoint insert_desc (r : Row) (sorted : list Row) : list Row :=
  match sorted with
  | [] => [r]
  | x :: rest =>
      if (updated_at x <=? updated_at r)%Z then r :: sorted
      else x :: insert_desc r rest
  end.

Definition order_by_updated_desc (t : Table) : list Row :=
  fold_right insert_desc [] t.

(* ================================================================== *)
(** * The program *)
(* ================================================================== *)

(** [CommandError] is the one exception the program raises and catches;
    every other exception is an [OtherError] with the name of its class. *)
Inductive exn := CommandError (msg : str) | OtherError (class : str).

Inductive outcome (A : Type) := Ret (a : A) | Raise (e : exn).
Arguments Ret {A} a.
Arguments Raise {A} e.

(** [CommandResult] *)
Record CommandResult := { stdout : str; stderr : str }.

(** An ordered [dict] from strings to strings. *)
Definition dict := list (str * str).

Fixpoint dict_set (k v : str) (d : dict) : dict :=
  match d with
  | [] => [(k, v)]
  | (k', v') :: rest =>
      if str_eqb k' k then (k', v) :: rest else (k', v') :: dict_set k v rest
  end.

Fixpoint dict_get (k : str) (d : dict) : option str :=
  match d with
  | [] => None
  | (k', v') :: rest => if str_eqb k' k then Some v' else dict_get k rest
  end.

(** [d.get(k, default)] *)
Definition dict_get_default (k default : str) (d : dict) : str :=
  match dict_get k d with Some v => v | None => default end.

(** The records [list_vms] returns. *)
Record VMSummary := { vm_name : str; vm_state : str; vm_os_type : str }.

(** The double quote, and a quoted piece of text. *)
Definition DQ : char := 34%N.
Definition quoted (x : str) : str := [DQ] ++ x ++ [DQ].

(** [n] blanks of indentation in a template. *)
Definition sp (n : nat) : str := repeat 32%N n.

(** [x or y] on strings *)
Definition str_or (x y : str) : str :=
  match x with [] => y | _ => x end.

(** [not x] for an optional string: [None] and the empty string. *)
Definition falsy (x : option str) : bool :=
  match x with None => true | Some [] => true | Some _ => false end.

Definition opt_str (x : option str) : str :=
  match x with Some v => v | None => [] end.

(** The parsed command line ([argparse] is not modelled). *)
Inductive Args :=
| ArgsList
| ArgsDelete (name : str) (remove_storage : bool)
| ArgsOs (name : str)
| ArgsValidate (name : str)
| ArgsOvaToQcow2 (ova out : option str)
| ArgsQcow2ToOva (qcow2 out : option str) (name : str)
| ArgsNetworkCompat (distro mode : str) (index : Z)
                    (ip_cidr gateway dns : option str)
| ArgsPaths.

Section Manager.

Variable E : Type.
Variable O : Oracle E.

Record World := {
  w_fs : FS;                     (* files and directories *)
  w_db : Table;                  (* the table [paths] *)
  w_trace : list (list str);     (* the command lines executed so far *)
  w_out : list str;              (* the lines printed so far *)
  w_env : E
}.

Definition set_fs (fs : FS) (w : World) : World :=
  {| w_fs := fs; w_db := w_db w; w_trace := w_trace w; w_out := w_out w;
     w_env := w_env w |}.

Definition set_env (e : E) (w : World) : World :=
  {| w_fs := w_fs w; w_db := w_db w; w_trace := w_trace w; w_out := w_out w;
     w_env := e |}.

Definition set_db (t : Table) (w : World) : World :=
  {| w_fs := w_fs w; w_db := t; w_trace := w_trace w; w_out := w_out w;
     w_env := w_env w |}.

(** ** The monad *)

Definition M (A : Type) := World -> outcome A * World.

Definition ret {A} (a : A) : M A := fun w => (Ret a, w).

Definition raise {A} (e : exn) : M A := fun w => (Raise e, w).

Definition bind {A B} (c : M A) (k : A -> M B) : M B :=
  fun w => match c w with
           | (Ret a, w') => k a w'
           | (Raise e, w') => (Raise e, w')
           end.

Notation "x <- c ;; k" := (bind c (fun x => k))
  (at level 61, c at next level, right associativity).
Notation "c ;;; k" := (bind c (fun _ => k))
  (at level 61, right associativity).

(** [try: body except CommandError: pass] *)
Definition except_CommandError_pass (body : M unit) : M unit :=
  fun w => match body w with
           | (Raise (CommandError _), w') => (Ret tt, w')
           | r => r
           end.

Definition get_fs : M FS := fun w => (Ret (w_fs w), w).

Definition modify_fs (f : FS -> FS) : M unit :=
  fun w => (Ret tt, set_fs (f (w_fs w)) w).

Definition print (line : str) : M unit :=
  fun w => (Ret tt,
            {| w_fs := w_fs w; w_db := w_db w; w_trace := w_trace w;
               w_out := w_out w ++ [line]; w_env := w_env w |}).

Definition ask {A} (f : E -> A * E) : M A :=
  fun w => let (a, e) := f (w_env w) in (Ret a, set_env e w).

(** [with tempfile.TemporaryDirectory() as tmpdir: body]: the directory is
    created, and removed with all it holds however the body ends. *)
Definition with_TemporaryDirectory {A} (body : str -> M A) : M A :=
  fun w =>
    let (tmp, e) := mkdtemp O (w_env w) in
    let w1 := set_fs (fs_add_dir tmp (w_fs w)) (set_env e w) in
    let (r, w2) := body tmp w1 in
    (r, set_fs (rmtree tmp (w_fs w2)) w2).

(** [subprocess.run(command, capture_output=True, text=True, check=False)] *)
Definition subprocess_run (command : list str) : M Completed :=
  fun w =>
    let '(p, fs, e) := exec O command (w_fs w) (w_env w) in
    (Ret p, {| w_fs := fs; w_db := w_db w;
               w_trace := w_trace w ++ [command];
               w_out := w_out w; w_env := e |}).

(** Reading the bytes of a file; a missing file (or a directory) is an
    OSError. *)
Definition read_file (p : str) : M str :=
  fun w => match fs_read p (w_fs w) with
           | Some d => (Ret d, w)
           | None => (Raise (OtherError (lit "OSError")), w)
           end.

(** [p.mkdir(parents=True, exist_ok=True)] *)
Definition mkdir_parents (p : str) : M unit :=
  fun w => match mkdir_p p (w_fs w) with
           | Some fs => (Ret tt, set_fs fs w)
           | None => (Raise (OtherError (lit "OSError")), w)
           end.

(** [open(p, "wb")] and what is written until the file is closed. *)
Definition write_bytes (p data : str) : M unit :=
  fun w => if can_open_for_writing p (w_fs w)
           then (Ret tt, set_fs (fs_put p data (w_fs w)) w)
           else (Raise (OtherError (lit "OSError")), w).

(** [p.write_text(text, encoding="utf-8")]: the file is opened, which
    empties it, before the text is encoded. *)
Definition write_text (p text : str) : M unit :=
  fun w => if can_open_for_writing p (w_fs w)
           then if encodable text
                then (Ret tt, set_fs (fs_put p text (w_fs w)) w)
                else (Raise (OtherError (lit "UnicodeEncodeError")),
                      set_fs (fs_put p [] (w_fs w)) w)
           else (Raise (OtherError (lit "OSError")), w).

(** ** [PathStore] *)

Definition APP_DIR : str :=
  path_join (path_join (path_join (home O) (lit ".local")) (lit "share"))
            (lit "vm_manager").

Definition DB_PATH : str := path_join APP_DIR (lit "paths.db").

(** [PathStore.__init__] with [_init_schema]: the directory is made, the
    database is opened and the table created if it is not there.  A
    database file that is missing is created, with an empty table; a
    directory in its place cannot be opened ([sqlite3.OperationalError]),
    a file that is no database is rejected by the first statement
    ([sqlite3.DatabaseError]). *)
Definition PathStore_init : M unit :=
  mkdir_parents APP_DIR ;;;
  fun w => match fs_lookup DB_PATH (w_fs w) with
           | Some Dir => (Raise (OtherError (lit "OperationalError")), w)
           | Some (File content) =>
               if is_database content then (Ret tt, w)
               else (Raise (OtherError (lit "DatabaseError")), w)
           | None => (Ret tt, set_db [] (set_fs (fs_put DB_PATH [] (w_fs w)) w))
           end.

(** [PathStore.set]: SQLite takes no text that UTF-8 cannot encode. *)
Definition PathStore_set (k v : str) : M unit :=
  if encodable k && encodable v
  then now <- ask (current_timestamp O) ;;
       fun w => (Ret tt, set_db (upsert now k v (w_db w)) w)
  else raise (OtherError (lit "UnicodeEncodeError")).

(** [PathStore.get] *)
Definition PathStore_get (k : str) : M (option str) :=
  if encodable k
  then fun w => (Ret (select_value k (w_db w)), w)
  else raise (OtherError (lit "UnicodeEncodeError")).

(** The tuple [all()] returns for a row. *)
Definition row_tuple (r : Row) : str * str * str :=
  (key r, value r, sqlite_datetime (updated_at r)).

(** [PathStore.all] *)
Definition PathStore_all : M (list (str * str * str)) :=
  fun w => (Ret (List.map row_tuple (order_by_updated_desc (w_db w))), w).

(** ** [VMManager] *)

(** The message of the [CommandError] that [_run] raises. *)
Definition run_error_message (command : list str) (p : Completed) : str :=
  lit "Comando fall" ++ [243%N] ++ lit ": " ++ join (lit " ") command
  ++ [NL] ++ str_or (strip (proc_stderr p)) (strip (proc_stdout p)).

(** [VMManager._run] *)
Definition _run (command : list str) : M CommandResult :=
  proc <- subprocess_run command ;;
  if (returncode proc =? 0)%Z
  then ret {| stdout := proc_stdout proc; stderr := proc_stderr proc |}
  else raise (CommandError (run_error_message command proc)).

(** The loop over [Key: Value] lines shared by [list_vms] and
    [os_details]: lines without a colon are skipped, a later line with the
    same key replaces the earlier value. *)
Fixpoint parse_info (lines : list str) (d : dict) : dict :=
  match lines with
  | [] => d
  | line :: rest =>
      parse_info rest
        (match cut (lit ":") line with
         | Some (k, v) => dict_set (strip k) (strip v) d
         | None => d
         end)
  end.

Definition desconocido : str := lit "desconocido".

(** The body of the loop of [list_vms] for one name. *)
Definition vm_summary (name : str) : M VMSummary :=
  r <- _run [lit "virsh"; lit "dominfo"; name] ;;
  let info_dict := parse_info (splitlines (stdout r)) [] in
  let os_type := dict_get_default (lit "OS Type") desconocido info_dict in
  let state := dict_get_default (lit "State") desconocido info_dict in
  ret {| vm_name := name; vm_state := state; vm_os_type := os_type |}.

Fixpoint for_each {A B} (f : A -> M B) (xs : list A) : M (list B) :=
  match xs with
  | [] => ret []
  | x :: rest => y <- f x ;; ys <- for_each f rest ;; ret (y :: ys)
  end.

(** The non-blank lines of a text, each stripped. *)
Definition stripped_lines (text : str) : list str :=
  List.map strip
    (filter (fun line => negb (str_eqb (strip line) [])) (splitlines text)).

(** [VMManager.list_vms] *)
Definition list_vms : M (list VMSummary) :=
  result <- _run [lit "virsh"; lit "list"; lit "--all"; lit "--name"] ;;
  let vm_names := stripped_lines (stdout result) in
  for_each vm_summary vm_names.

(** [VMManager.delete_vm] *)
Definition delete_vm (name : str) (remove_storage : bool) : M unit :=
  except_CommandError_pass
    (r <- _run [lit "virsh"; lit "domstate"; name] ;;
     let state := lower (strip (stdout r)) in
     if contains (lit "running") state
     then _run [lit "virsh"; lit "destroy"; name] ;;; ret tt
     else ret tt) ;;;
  let cmd := [lit "virsh"; lit "undefine"; name; lit "--nvram"] in
  let cmd := if remove_storage then cmd ++ [lit "--remove-all-storage"] else cmd in
  _run cmd ;;; ret tt.

(** The test [line.startswith("<type") and "</type>" in line]. *)
Definition is_type_line (line : str) : bool :=
  startswith (lit "<type") line && contains (lit "</type>") line.

(** The scan of [os_details] for the first line that, stripped, starts
    with [<type] and holds [</type>]: the guest type and the architecture it
    yields.  The outer [None] is the IndexError of [split(">", 1)[1]]. *)
Fixpoint scan_type (lines : list str) : option (str * str) :=
  match lines with
  | [] => Some (desconocido, desconocido)
  | raw :: rest =>
      let line := strip raw in
      if is_type_line line
      then match after (lit ">") line with
           | None => None
           | Some tail =>
               let os_type := before (lit "</type>") tail in
               let arch :=
                 match after (lit "arch=" ++ [DQ]) line with
                 | Some a => before [DQ] a
                 | None => desconocido
                 end in
               Some (os_type, arch)
           end
      else scan_type rest
  end.

(** [VMManager.os_details] *)
Definition os_details (name : str) : M dict :=
  r1 <- _run [lit "virsh"; lit "dominfo"; name] ;;
  r2 <- _run [lit "virsh"; lit "dumpxml"; name] ;;
  let info := parse_info (splitlines (stdout r1)) [(lit "name", name)] in
  match scan_type (splitlines (stdout r2)) with
  | None => raise (OtherError (lit "IndexError"))
  | Some (os_type, arch) =>
      ret (dict_set (lit "Architecture") arch
             (dict_set (lit "Guest OS") os_type info))
  end.

(** [VMManager.validate_vm_config] *)
Definition validate_vm_config (name : str) : M (list str) :=
  proc <- with_TemporaryDirectory (fun tmpdir =>
            let xml_path := path_join tmpdir (name ++ lit ".xml") in
            r <- _run [lit "virsh"; lit "dumpxml"; name] ;;
            write_text xml_path (stdout r) ;;;
            subprocess_run [lit "virsh"; lit "domxml-validate"; xml_path]) ;;
  if (returncode proc =? 0)%Z then ret []
  else ret (stripped_lines (proc_stderr proc ++ [NL] ++ proc_stdout proc)).

(** [tar.extractall(tmp)]: every member becomes a file below [tmp], its
    directories are made on the way; a member that cannot be written (a
    file where its directory should be, a directory where it should be)
    ends the extraction with an OSError, what was extracted before
    remaining.  Members are regular files with relative names; what the
    extraction filter of [tarfile] does with absolute names and with names
    that climb out of [tmp] is not modelled. *)
Definition extract_member (tmp : str) (m : str * str) (fs : FS) : option FS :=
  let p := tmp ++ [SLASH] ++ fst m in
  match mkdir_p (parent p) fs with
  | Some fs1 =>
      if can_open_for_writing p fs1 then Some (fs_put p (snd m) fs1) else None
  | None => None
  end.

(** The files after the extraction, and whether it went through. *)
Fixpoint extractall (tmp : str) (members : list (str * str)) (fs : FS)
  : FS * bool :=
  match members with
  | [] => (fs, true)
  | m :: rest =>
      match extract_member tmp m fs with
      | Some fs1 => extractall tmp rest fs1
      | None => (fs, false)
      end
  end.

(** [tarfile.open(path, "r")] with [extractall] *)
Definition untar (ova_path tmp : str) : M unit :=
  data <- read_file ova_path ;;
  match tar_unpack O data with
  | None => raise (OtherError (lit "ReadError"))
  | Some members =>
      fun w => let (fs, done) := extractall tmp members (w_fs w) in
               (if done then Ret tt else Raise (OtherError (lit "OSError")),
                set_fs fs w)
  end.

(** The list [candidates] of [ova_to_qcow2]. *)
Definition ova_candidates (tmp : str) (fs : FS) : list str :=
  glob_suffix (scan_rank O) tmp (lit ".vmdk") fs
  ++ glob_suffix (scan_rank O) tmp (lit ".qcow2") fs
  ++ glob_suffix (scan_rank O) tmp (lit ".img") fs.

Definition no_disk_message : str :=
  lit "No se encontr" ++ [243%N] ++ lit " disco compatible dentro del archivo OVA".

(** [VMManager.ova_to_qcow2] *)
Definition ova_to_qcow2 (ova_path output_qcow2 : str) : M unit :=
  with_TemporaryDirectory (fun tmp =>
    untar ova_path tmp ;;;
    fs <- get_fs ;;
    match ova_candidates tmp fs with
    | [] => raise (CommandError no_disk_message)
    | first :: _ =>
        mkdir_parents (parent output_qcow2) ;;;
        _run [lit "qemu-img"; lit "convert"; lit "-O"; lit "qcow2";
              first; output_qcow2] ;;;
        ret tt
    end) ;;;
  PathStore_set (lit "last_ova_input") (resolve O ova_path) ;;;
  PathStore_set (lit "last_qcow2_output") (resolve O output_qcow2).

(** [int(x)] for a decoded JSON value: the integer, or the class of the
    exception Python raises. *)
Definition py_int (x : json) : Z + str :=
  match x with
  | JInt z => inl z
  | JBool b => inl (if b then 1 else 0)%Z
  | JFloat (Finite z) => inl z
  | JFloat NaN => inr (lit "ValueError")
  | JFloat Infinite => inr (lit "OverflowError")
  | JStr s => match int_of_str O s with
              | Some z => inl z
              | None => inr (lit "ValueError")
              end
  | JNull | JArr _ | JObj _ => inr (lit "TypeError")
  end.

(** [info.get(k, default)] on a decoded JSON object: of several fields with
    one name the decoder keeps the last. *)
Fixpoint fields_get (k : str) (default : json) (fields : list (str * json)) : json :=
  match fields with
  | [] => default
  | (k', v) :: rest => if str_eqb k' k then fields_get k v rest else fields_get k default rest
  end.

(** The f-string of [qcow2_to_ova], line by line as in the source. *)
Definition ovf_template (vm_name vmdk_name : str) (size : Z)
           (disk_id : str) (capacity : Z) : str :=
  join [NL]
    [ sp 16 ++ lit "<?xml version=" ++ quoted (lit "1.0") ++ lit " encoding="
        ++ quoted (lit "UTF-8") ++ lit "?>";
      sp 16 ++ lit "<Envelope xmlns="
        ++ quoted (lit "http://schemas.dmtf.org/ovf/envelope/1");
      sp 26 ++ lit "xmlns:ovf="
        ++ quoted (lit "http://schemas.dmtf.org/ovf/envelope/1") ++ lit ">";
      sp 18 ++ lit "<References>";
      sp 20 ++ lit "<File ovf:id=" ++ quoted (lit "file1") ++ lit " ovf:href="
        ++ quoted vmdk_name ++ lit " ovf:size=" ++ quoted (str_of_Z size)
        ++ lit "/>";
      sp 18 ++ lit "</References>";
      sp 18 ++ lit "<DiskSection>";
      sp 20 ++ lit "<Info>Discos virtuales</Info>";
      sp 20 ++ lit "<Disk ovf:diskId=" ++ quoted disk_id ++ lit " ovf:fileRef="
        ++ quoted (lit "file1") ++ lit " ovf:capacity="
        ++ quoted (str_of_Z capacity) ++ lit " ovf:format="
        ++ quoted (lit "http://www.vmware.com/interfaces/specifications/vmdk.html#streamOptimized")
        ++ lit "/>";
      sp 18 ++ lit "</DiskSection>";
      sp 18 ++ lit "<VirtualSystem ovf:id=" ++ quoted vm_name ++ lit ">";
      sp 20 ++ lit "<Info>Maquina virtual exportada</Info>";
      sp 20 ++ lit "<OperatingSystemSection ovf:id=" ++ quoted (lit "1") ++ lit ">";
      sp 22 ++ lit "<Info>Sistema operativo invitado</Info>";
      sp 20 ++ lit "</OperatingSystemSection>";
      sp 18 ++ lit "</VirtualSystem>";
      sp 16 ++ lit "</Envelope>";
      sp 16 ].

(** The descriptor document. *)
Definition ovf_document (vm_name vmdk_name : str) (size : Z)
           (disk_id : str) (capacity : Z) : str :=
  dedent (ovf_template vm_name vmdk_name size disk_id capacity).

(** [p.stat().st_size] of a file.  (What a directory answers is not
    modelled: the model stops there.) *)
Definition stat_size (p : str) : M Z :=
  d <- read_file p ;; ret (Z.of_nat (length d)).

(** [tar.add(src, arcname=...)] on the archive being written at [archive]:
    [tarfile] skips the archive itself; otherwise the file is read and
    appended as a member, named by [arcname] less its leading slashes.
    (Directories are not archived in the model.) *)
Definition tar_add (archive src arcname : str) (members : list (str * str))
  : M (list (str * str)) :=
  if str_eqb src archive then ret members
  else d <- read_file src ;; ret (members ++ [(lstrip_slashes arcname, d)]).

(** [VMManager.qcow2_to_ova] *)
Definition qcow2_to_ova (qcow2_path output_ova vm_name : str) : M unit :=
  with_TemporaryDirectory (fun tmp =>
    let vmdk_name := vm_name ++ lit ".vmdk" in
    let ovf_name := vm_name ++ lit ".ovf" in
    let vmdk_path := path_join tmp vmdk_name in
    let ovf_path := path_join tmp ovf_name in
    _run [lit "qemu-img"; lit "convert"; lit "-O"; lit "vmdk"; lit "-o";
          lit "subformat=streamOptimized"; qcow2_path; vmdk_path] ;;;
    r <- _run [lit "qemu-img"; lit "info"; lit "--output=json"; qcow2_path] ;;
    match json_loads O (stdout r) with
    | None => raise (OtherError (lit "JSONDecodeError"))
    | Some (JObj fields) =>
        match py_int (fields_get (lit "virtual-size") (JInt 0) fields) with
        | inr class => raise (OtherError class)
        | inl capacity =>
            disk_id <- ask (uuid4 O) ;;
            size <- stat_size vmdk_path ;;
            let ovf := ovf_document vm_name vmdk_name size disk_id capacity in
            write_text ovf_path ovf ;;;
            mkdir_parents (parent output_ova) ;;;
            write_bytes output_ova [] ;;;
            m1 <- tar_add output_ova ovf_path ovf_name [] ;;
            m2 <- tar_add output_ova vmdk_path vmdk_name m1 ;;
            modify_fs (fs_put output_ova (tar_pack O m2))
        end
    | Some _ => raise (OtherError (lit "AttributeError"))
    end) ;;;
  PathStore_set (lit "last_qcow2_input") (resolve O qcow2_path) ;;;
  PathStore_set (lit "last_ova_output") (resolve O output_ova).

(** The f-string of the hosts block, line by line as in the source. *)
Definition hosts_template (mode legacy_name interface_name : str) : str :=
  join [NL]
    [ [];
      sp 16 ++ lit "# vm_manager compat (" ++ mode ++ lit ")";
      sp 16 ++ lit "# Compatibilidad OVA/QCOW2: alias " ++ legacy_name
        ++ lit " -> " ++ interface_name;
      sp 16 ++ lit "127.0.1.1 " ++ legacy_name;
      sp 16 ++ lit "127.0.1.1 " ++ interface_name;
      sp 16 ].

Definition interface_name_of (index : Z) : str := lit "ens" ++ str_of_Z index.
Definition legacy_name_of (index : Z) : str := lit "enp0" ++ str_of_Z index.

(** [snippet] of [add_network_compat] *)
Definition hosts_snippet (mode : str) (index : Z) : str :=
  strip (dedent (hosts_template mode (legacy_name_of index)
                                (interface_name_of index))) ++ [NL].

(** The f-string of the netplan document. *)
Definition netplan_template (interface_name interface_yaml legacy_name : str) : str :=
  join [NL]
    [ [];
      sp 12 ++ lit "network:";
      sp 14 ++ lit "version: 2";
      sp 14 ++ lit "renderer: networkd";
      sp 14 ++ lit "ethernets:";
      sp 16 ++ interface_name ++ lit ":";
      sp 18 ++ interface_yaml;
      sp 16 ++ legacy_name ++ lit ":";
      sp 18 ++ lit "dhcp4: true";
      sp 18 ++ lit "optional: true";
      sp 12 ].

Definition netplan_content (index : Z) (interface_yaml : str) : str :=
  strip (dedent (netplan_template (interface_name_of index) interface_yaml
                                  (legacy_name_of index))) ++ [NL].

(** [dns_list] *)
Definition dns_list_of (dns : option str) : list str :=
  List.map strip
    (filter (fun x => negb (str_eqb (strip x) []))
            (split_char 44%N (opt_str dns))).

(** [nameservers_yaml] *)
Definition nameservers_yaml_of (dns_list : list str) : str :=
  match dns_list with
  | [] => []
  | _ => [NL] ++ lit "      nameservers:" ++ [NL] ++ lit "        addresses: ["
         ++ join (lit ", ") dns_list ++ lit "]"
  end.

Definition static_yaml (ip_cidr gateway nameservers_yaml : str) : str :=
  lit "dhcp4: false" ++ [NL] ++ lit "      addresses: [" ++ ip_cidr ++ lit "]"
  ++ [NL] ++ lit "      routes:" ++ [NL]
  ++ lit "        - to: default" ++ [NL] ++ lit "          via: " ++ gateway
  ++ nameservers_yaml.

Definition static_message : str :=
  lit "Para modo static debes indicar --ip-cidr y --gateway".

(** [with p.open("a", encoding="utf-8") as fh: fh.write(text)]: the file
    is opened, which creates it when it is missing, before the text is
    encoded. *)
Definition append_file (p text : str) : M unit :=
  fun w =>
    if can_open_for_writing p (w_fs w)
    then let old := match fs_read p (w_fs w) with Some d => d | None => [] end in
         if encodable text
         then (Ret tt, set_fs (fs_put p (old ++ text) (w_fs w)) w)
         else (Raise (OtherError (lit "UnicodeEncodeError")),
               set_fs (fs_put p old (w_fs w)) w)
    else (Raise (OtherError (lit "OSError")), w).

(** [VMManager.add_network_compat] *)
Definition add_network_compat (distro mode : str) (index : Z)
           (ip_cidr gateway dns : option str)
           (hosts_path netplan_dir : str) : M str :=
  if str_eqb distro (lit "debian") then
    let snippet := hosts_snippet mode index in
    fs <- get_fs ;;
    match fs_lookup hosts_path fs with
    | Some Dir => raise (OtherError (lit "OSError"))
    | present =>
        if match present with
           | Some (File text) => contains snippet (universal_newlines text)
           | _ => false
           end
        then ret hosts_path
        else
          append_file hosts_path ([NL] ++ snippet) ;;;
          PathStore_set (lit "last_hosts_update") hosts_path ;;;
          ret hosts_path
    end
  else
    tok <- ask (token_hex O) ;;
    let random_name := lit "99-vmcompat-" ++ tok ++ lit ".yaml" in
    let out := path_join netplan_dir random_name in
    mkdir_parents netplan_dir ;;;
    let nameservers_yaml := nameservers_yaml_of (dns_list_of dns) in
    interface_yaml <-
      (if str_eqb mode (lit "dhcp") then ret (lit "dhcp4: true")
       else if falsy ip_cidr || falsy gateway
            then raise (CommandError static_message)
            else ret (static_yaml (opt_str ip_cidr) (opt_str gateway)
                                  nameservers_yaml)) ;;
    write_text out (netplan_content index interface_yaml) ;;;
    PathStore_set (lit "last_netplan_file") out ;;;
    ret out.

(** ** The command line *)

Definition no_saved_message (hint : str) : str :=
  lit "No se indic" ++ [243%N] ++ lit " ruta y no hay valor guardado para " ++ hint.

(** [resolve_with_saved]; the text given or saved is taken as the text of
    the [Path] made of it. *)
Definition resolve_with_saved (value : option str) (k hint : str) : M str :=
  if negb (falsy value) then ret (opt_str value)
  else
    saved <- PathStore_get k ;;
    if falsy saved then raise (CommandError (no_saved_message hint))
    else ret (opt_str saved).

Definition conversion_message (src dst : str) : str :=
  lit "Conversi" ++ [243%N] ++ lit "n completada: " ++ src ++ lit " -> " ++ dst.

(** The branches inside the [try] of [main]. *)
Definition dispatch (args : Args) : M unit :=
  match args with
  | ArgsList =>
      vms <- list_vms ;;
      (match vms with
       | [] => print (lit "No hay VMs registradas.")
       | _ => ret tt
       end) ;;;
      for_each (fun vm => print (vm_name vm ++ lit ": estado=" ++ vm_state vm
                                 ++ lit " os=" ++ vm_os_type vm)) vms ;;;
      ret tt
  | ArgsDelete name remove_storage =>
      delete_vm name remove_storage ;;;
      print (lit "VM '" ++ name ++ lit "' eliminada.")
  | ArgsOs name =>
      info <- os_details name ;;
      for_each (fun kv => print (fst kv ++ lit ": " ++ snd kv)) info ;;;
      ret tt
  | ArgsValidate name =>
      issues <- validate_vm_config name ;;
      (match issues with
       | [] => print (lit "Sin errores de configuraci" ++ [243%N]
                      ++ lit "n detectados por virsh domxml-validate.")
       | _ =>
           print (lit "Errores/advertencias detectados:") ;;;
           for_each (fun issue => print (lit "- " ++ issue)) issues ;;;
           ret tt
       end)
  | ArgsOvaToQcow2 ova out =>
      ova_path <- resolve_with_saved ova (lit "last_ova_input") (lit "entrada OVA") ;;
      output_qcow2 <- resolve_with_saved out (lit "last_qcow2_output")
                                         (lit "salida QCOW2") ;;
      ova_to_qcow2 ova_path output_qcow2 ;;;
      print (conversion_message ova_path output_qcow2)
  | ArgsQcow2ToOva qcow2 out name =>
      qcow2_path <- resolve_with_saved qcow2 (lit "last_qcow2_input")
                                       (lit "entrada QCOW2") ;;
      output_ova <- resolve_with_saved out (lit "last_ova_output") (lit "salida OVA") ;;
      qcow2_to_ova qcow2_path output_ova name ;;;
      print (conversion_message qcow2_path output_ova)
  | ArgsNetworkCompat distro mode index ip_cidr gateway dns =>
      changed <- add_network_compat distro mode index ip_cidr gateway dns
                                    (lit "/etc/hosts") (lit "/etc/netplan") ;;
      print (lit "Compatibilidad aplicada en: " ++ changed)
  | ArgsPaths =>
      data <- PathStore_all ;;
      (match data with
       | [] => print (lit "No hay rutas guardadas todav" ++ [237%N] ++ lit "a.")
       | _ => ret tt
       end) ;;;
      for_each (fun r => match r with
                         | (k, v, t) =>
                             print (k ++ lit " = " ++ v ++ lit " (actualizado: "
                                    ++ t ++ lit ")")
                         end) data ;;;
      ret tt
  end.

(** The [try ... except CommandError] of [main] with its two [return]s:
    the exit status. *)
Definition run_command (args : Args) : M Z :=
  fun w => match dispatch args w with
           | (Ret _, w') => (Ret 0%Z, w')
           | (Raise (CommandError msg), w') =>
               (print (lit "ERROR: " ++ msg) ;;; ret 1%Z) w'
           | (Raise e, w') => (Raise e, w')
           end.

(** [main], after [argparse]: the store is opened, then the command runs. *)
Definition main (args : Args) : M Z :=
  PathStore_init ;;; run_command args.

End Manager.

Arguments Ret {A} a.
Arguments Raise {A} e.


Notation "x <- c ;; k" := (bind c (fun x => k))
  (at level 61, c at next level, right associativity).
Notation "c ;;; k" := (bind c (fun _ => k))
  (at level 61, right associativity).
(* ================================================================== *)
(** * Notions used to state the properties *)
(* ================================================================== *)

(** The characters of a decimal number: the digits and the minus sign. *)
Definition decimal_char (c : char) : bool :=
  ((48 <=? c) && (c <=? 57) || (c =? 45))%N.



(** The times SQLite writes with a year of four digits, from
    0000-01-01 00:00:00 to 9999-12-31 23:59:59: those of which
    [sqlite_datetime] is the text. *)
Definition four_digit_year (t : Z) : Prop :=
  (-62167219200 <= t < 253402300800)%Z.

(** The world after a [set] that went through at the time [now]. *)
Definition after_set {E} (O : Oracle E) (k v : str) (w : World E) : World E :=
  set_db (upsert (fst (current_timestamp O (w_env w))) k v (w_db w))
         (set_env (snd (current_timestamp O (w_env w))) w).


(** ** A scripted environment, to run the program on concrete inputs

    Every external call takes the next entry of the script: the result of
    the process and the files it leaves behind. *)

Record TestEnv := {
  script : list (Completed * list (str * str));
  time : Z
}.

Definition test_exec (cmd : list str) (fs : FS) (e : TestEnv)
  : Completed * FS * TestEnv :=
  match script e with
  | [] => ({| returncode := 1; proc_stdout := []; proc_stderr := [] |}, fs, e)
  | (p, writes) :: rest =>
      (p, fold_left (fun acc f => fs_put (fst f) (snd f) acc) writes fs,
       {| script := rest; time := time e |})
  end.

Definition test_json_loads (text : str) : option json :=
  if str_eqb text (lit "{}") then Some (JObj [])
  else if str_eqb text (lit "{" ++ quoted (lit "virtual-size") ++ lit ": 1024}")
       then Some (JObj [(lit "virtual-size", JInt 1024)])
       else None.

Definition test_tar_pack (members : list (str * str)) : str :=
  concat (List.map (fun m => fst m ++ [0%N] ++ snd m ++ [0%N]) members).

Definition test_tar_unpack (data : str) : option (list (str * str)) :=
  if str_eqb data (lit "ova-with-disk")
  then Some [(lit "vm.ovf", lit "<Envelope/>"); (lit "disk.vmdk", lit "DISK")]
  else if str_eqb data (lit "ova-without-disk")
       then Some [(lit "vm.ovf", lit "<Envelope/>")]
       else None.

Definition test_oracle : Oracle TestEnv := {|
  exec := test_exec;
  current_timestamp :=
    fun e => (time e, {| script := script e; time := time e + 1 |});
  mkdtemp := fun e => (lit "/tmp/tmpvm", e);
  token_hex := fun e => (lit "a1b2c3", e);
  uuid4 := fun e => (lit "0f8fad5b-d9cb-469f-a165-70867728950e", e);
  json_loads := test_json_loads;
  int_of_str := fun _ => None;
  tar_pack := test_tar_pack;
  tar_unpack := test_tar_unpack;
  resolve := fun p => p;
  scan_rank := fun _ => 0%N;
  home := lit "/home/user"
|}.

Definition test_world (sc : list (Completed * list (str * str))) (fs : FS)
           (db : Table) : World TestEnv :=
  {| w_fs := fs; w_db := db; w_trace := []; w_out := [];
     w_env := {| script := sc; time := 100 |} |}.

(** A process that ends with status [rc] and the given output. *)
Definition completed (rc : Z) (out err : str) : Completed :=
  {| returncode := rc; proc_stdout := out; proc_stderr := err |}.

(** The command line [delete_vm] builds for the undefine step. *)
Definition undefine_command (name : str) (remove_storage : bool) : list str :=
  [lit "virsh"; lit "undefine"; name; lit "--nvram"]
  ++ (if remove_storage then [lit "--remove-all-storage"] else []).

(** The world after [command] was run in [w], and what the process
    answered. *)
Definition after_exec {E} (O : Oracle E) (command : list str) (w : World E)
  : Completed * World E :=
  let '(p, fs, e) := exec O command (w_fs w) (w_env w) in
  (p, {| w_fs := fs; w_db := w_db w; w_trace := w_trace w ++ [command];
         w_out := w_out w; w_env := e |}).

Definition dominfo_command (name : str) : list str :=
  [lit "virsh"; lit "dominfo"; name].

Definition dumpxml_command (name : str) : list str :=
  [lit "virsh"; lit "dumpxml"; name].

(** The detail mapping [list_vms] parses out of the text of [dominfo]. *)
Definition detail_mapping (text : str) : dict :=
  parse_info (splitlines text) [].

(** The sentence of C7 with the word it names: absent keys, an absent tag
    or an absent attribute give the text [unknown]. *)
Definition C7_as_stated : Prop :=
  forall (E : Type) (O : Oracle E) (w : World E) (name : str),
    let p := fst (after_exec O (dominfo_command name) w) in
    let wa := snd (after_exec O (dominfo_command name) w) in
    let d := detail_mapping (proc_stdout p) in
    returncode p = 0%Z ->
    (exists vm,
        vm_summary O name w = (Ret vm, wa)
        /\ (dict_get (lit "OS Type") d = None -> vm_os_type vm = lit "unknown")
        /\ (dict_get (lit "State") d = None -> vm_state vm = lit "unknown"))
    /\ (let p2 := fst (after_exec O (dumpxml_command name) wa) in
        let wb := snd (after_exec O (dumpxml_command name) wa) in
        let lines := List.map strip (splitlines (proc_stdout p2)) in
        returncode p2 = 0%Z ->
        forallb (fun l => negb (is_type_line l)) lines = true ->
        exists info,
          os_details O name w = (Ret info, wb)
          /\ dict_get (lit "Guest OS") info = Some (lit "unknown")
          /\ dict_get (lit "Architecture") info = Some (lit "unknown")).

(** ** The steps of a [with TemporaryDirectory()] block *)

Definition tmpdir_of {E} (O : Oracle E) (w : World E) : str :=
  fst (mkdtemp O (w_env w)).

(** The world in which the body starts: the directory exists. *)
Definition enter_tmpdir {E} (O : Oracle E) (w : World E) : World E :=
  set_fs (fs_add_dir (tmpdir_of O w) (w_fs w))
         (set_env (snd (mkdtemp O (w_env w))) w).

(** The world after the block: the directory and what it held are gone. *)
Definition leave_tmpdir {E} (tmp : str) (w : World E) : World E :=
  set_fs (rmtree tmp (w_fs w)) w.

(** ** The steps of [validate_vm_config] *)

Definition validate_xml_path {E} (O : Oracle E) (name : str) (w : World E) : str :=
  path_join (tmpdir_of O w) (name ++ lit ".xml").

(** The configuration dump and the world after it. *)
Definition validate_dump {E} (O : Oracle E) (name : str) (w : World E)
  : Completed * World E :=
  after_exec O (dumpxml_command name) (enter_tmpdir O w).

Definition validator_command {E} (O : Oracle E) (name : str) (w : World E)
  : list str :=
  [lit "virsh"; lit "domxml-validate"; validate_xml_path O name w].

(** The run of the schema validator on the written dump. *)
Definition validator_run {E} (O : Oracle E) (name : str) (w : World E)
  : Completed * World E :=
  let dump := validate_dump O name w in
  after_exec O (validator_command O name w)
    (set_fs (fs_put (validate_xml_path O name w) (proc_stdout (fst dump))
                    (w_fs (snd dump)))
            (snd dump)).

(** The sentence of C4 as worded: an empty list exactly on exit code 0. *)
Definition C4_as_stated : Prop :=
  forall (E : Type) (O : Oracle E) (w : World E) (name : str),
    let p := fst (validator_run O name w) in
    returncode (fst (validate_dump O name w)) = 0%Z ->
    exists issues w',
      validate_vm_config O name w = (Ret issues, w')
      /\ (issues = [] <-> returncode p = 0%Z)
      /\ (returncode p <> 0%Z ->
          issues = stripped_lines (proc_stderr p) ++ stripped_lines (proc_stdout p)).

(** ** Missing paths on the command line *)

(** The argument was left out (or is empty) and the store has no (or an
    empty) value under [k]. *)
Definition missing_path {E} (given : option str) (k : str) (w : World E) : Prop :=
  falsy given = true /\ falsy (select_value k (w_db w)) = true.

(** A conversion command one of whose two paths is missing in that way. *)
Definition conversion_path_missing {E} (args : Args) (w : World E) : Prop :=
  match args with
  | ArgsOvaToQcow2 ova out =>
      missing_path ova (lit "last_ova_input") w
      \/ missing_path out (lit "last_qcow2_output") w
  | ArgsQcow2ToOva qcow2 out _ =>
      missing_path qcow2 (lit "last_qcow2_input") w
      \/ missing_path out (lit "last_ova_output") w
  | _ => False
  end.

(** The sentence of C10 as worded, of the command as it is run: it ends
    with status 1, no external tool has been started and the file system
    is as it was. *)
Definition C10_as_stated : Prop :=
  forall (E : Type) (O : Oracle E) (w : World E) (args : Args),
    conversion_path_missing args w ->
    exists w',
      main O args w = (Ret 1%Z, w')
      /\ w_trace w' = w_trace w
      /\ w_fs w' = w_fs w.

(** The world after one more printed line, all else equal. *)
Definition printed {E} (line : str) (w : World E) : World E :=
  {| w_fs := w_fs w; w_db := w_db w; w_trace := w_trace w;
     w_out := w_out w ++ [line]; w_env := w_env w |}.

(** What [resolve_with_saved] answers, as a function of the table. *)
Definition resolved (given : option str) (k hint : str) (db : Table) : outcome str :=
  if negb (falsy given) then Ret (opt_str given)
  else if falsy (select_value k db)
       then Raise (CommandError (no_saved_message hint))
       else Ret (opt_str (select_value k db)).

(** The path the error message names: the first one that cannot be
    resolved. *)
Definition missing_hint (args : Args) (db : Table) : str :=
  match args with
  | ArgsOvaToQcow2 ova _ =>
      match resolved ova (lit "last_ova_input") [] db with
      | Raise _ => lit "entrada OVA"
      | Ret _ => lit "salida QCOW2"
      end
  | ArgsQcow2ToOva qcow2 _ _ =>
      match resolved qcow2 (lit "last_qcow2_input") [] db with
      | Raise _ => lit "entrada QCOW2"
      | Ret _ => lit "salida OVA"
      end
  | _ => []
  end.

(** ** The disk [ova_to_qcow2] picks, in the words of the specification:
    the first [*.vmdk] entry of the extraction directory if there is one,
    else the first [*.qcow2] entry, else the first [*.img] entry. *)
Definition first_match (rank : str -> N) (tmp : str) (fs : FS) : option str :=
  match glob_suffix rank tmp (lit ".vmdk") fs with
  | v :: _ => Some v
  | [] =>
      match glob_suffix rank tmp (lit ".qcow2") fs with
      | q :: _ => Some q
      | [] =>
          match glob_suffix rank tmp (lit ".img") fs with
          | i :: _ => Some i
          | [] => None
          end
      end
  end.



(** ** The documents the templates come to, written out *)

(** The netplan document of DHCP mode for the interface number [d]. *)
Definition netplan_dhcp_document (d : str) : str :=
  lit "network:" ++ [NL]
  ++ lit "  version: 2" ++ [NL]
  ++ lit "  renderer: networkd" ++ [NL]
  ++ lit "  ethernets:" ++ [NL]
  ++ lit "    ens" ++ d ++ lit ":" ++ [NL]
  ++ lit "      dhcp4: true" ++ [NL]
  ++ lit "    enp0" ++ d ++ lit ":" ++ [NL]
  ++ lit "      dhcp4: true" ++ [NL]
  ++ lit "      optional: true" ++ [NL].

(** The four lines of the hosts block for the mode [mode] and the
    interface number [d]. *)
Definition hosts_line1 (mode : str) : str :=
  lit "# vm_manager compat (" ++ mode ++ lit ")".
Definition hosts_line2 (d : str) : str :=
  lit "# Compatibilidad OVA/QCOW2: alias enp0" ++ d ++ lit " -> ens" ++ d.
Definition hosts_line3 (d : str) : str := lit "127.0.1.1 enp0" ++ d.
Definition hosts_line4 (d : str) : str := lit "127.0.1.1 ens" ++ d.

Definition hosts_block (mode d : str) : str :=
  hosts_line1 mode ++ NL :: hosts_line2 d ++ NL :: hosts_line3 d
  ++ NL :: hosts_line4 d ++ [NL].

Definition has_newline (l : str) : bool := existsb (N.eqb NL) l.

(** The carriage return, which reading in text mode turns into a line
    feed. *)
Definition CR : char := 13%N.

Definition has_carriage_return (l : str) : bool := existsb (N.eqb CR) l.

(** A text none of whose proper non-empty prefixes is also a suffix: two
    occurrences of it cannot overlap. *)
Definition border_free (b : str) : Prop :=
  forall u v w, b = u ++ w -> b = w ++ v -> u <> [] -> w = [].

(** The text of the hosts file, empty when there is no such file. *)
Definition hosts_text {E} (hosts_path : str) (w : World E) : str :=
  match fs_read hosts_path (w_fs w) with Some t => t | None => [] end.

(** The sentence of C6 as worded, granted even that the file did not hold
    the block before the first call: after two calls the block is there
    exactly once and the second call changed nothing. *)
Definition C6_as_stated : Prop :=
  forall (E : Type) (O : Oracle E) (w w1 : World E) (mode : str) (index : Z)
         (ip_cidr gateway dns : option str) (hosts_path netplan_dir p : str),
    let call := add_network_compat O (lit "debian") mode index ip_cidr gateway
                                   dns hosts_path netplan_dir in
    contains (hosts_snippet mode index) (hosts_text hosts_path w) = false ->
    call w = (Ret p, w1) ->
    call w1 = (Ret hosts_path, w1)
    /\ occurrences (hosts_snippet mode index) (hosts_text hosts_path w1) = 1.

(** ** The steps of [qcow2_to_ova] *)

Definition export_convert_command (qcow2_path vmdk_path : str) : list str :=
  [lit "qemu-img"; lit "convert"; lit "-O"; lit "vmdk"; lit "-o";
   lit "subformat=streamOptimized"; qcow2_path; vmdk_path].

Definition export_info_command (qcow2_path : str) : list str :=
  [lit "qemu-img"; lit "info"; lit "--output=json"; qcow2_path].

(** The info query and the world after it: it runs after the conversion,
    in the temporary directory. *)
Definition export_info {E} (O : Oracle E) (qcow2_path vm_name : str) (w : World E)
  : Completed * World E :=
  let vmdk_path := path_join (tmpdir_of O w) (vm_name ++ lit ".vmdk") in
  after_exec O (export_info_command qcow2_path)
    (snd (after_exec O (export_convert_command qcow2_path vmdk_path)
                     (enter_tmpdir O w))).

(** The line of the descriptor that declares the disk file and its size,
    and the line that declares the disk and its capacity. *)
Definition ovf_file_line (vmdk_name : str) (size : Z) : str :=
  lit "    <File ovf:id=" ++ quoted (lit "file1") ++ lit " ovf:href="
  ++ quoted vmdk_name ++ lit " ovf:size=" ++ quoted (str_of_Z size)
  ++ lit "/>".

Definition ovf_disk_line (disk_id : str) (capacity : Z) : str :=
  lit "    <Disk ovf:diskId=" ++ quoted disk_id ++ lit " ovf:fileRef="
  ++ quoted (lit "file1") ++ lit " ovf:capacity="
  ++ quoted (str_of_Z capacity) ++ lit " ovf:format="
  ++ quoted (lit "http://www.vmware.com/interfaces/specifications/vmdk.html#streamOptimized")
  ++ lit "/>".

(** The sentence of C1 as worded, on the names of the members: after a
    call that returns, the archive holds two members named [<vm_name>.ovf]
    and [<vm_name>.vmdk]. *)
Definition C1_as_stated : Prop :=
  forall (E : Type) (O : Oracle E) (w w' : World E)
         (qcow2_path output_ova vm_name : str),
    let tmp := tmpdir_of O w in
    output_ova <> path_join tmp (vm_name ++ lit ".vmdk") ->
    output_ova <> path_join tmp (vm_name ++ lit ".ovf") ->
    output_ova <> tmp ->
    is_under tmp output_ova = false ->
    qcow2_to_ova O qcow2_path output_ova vm_name w = (Ret tt, w') ->
    exists descriptor vmdk,
      fs_read output_ova (w_fs w')
      = Some (tar_pack O [(vm_name ++ lit ".ovf", descriptor);
                          (vm_name ++ lit ".vmdk", vmdk)]).
(** ** The command lines of the inspection and deletion commands *)

Definition list_command : list str :=
  [lit "virsh"; lit "list"; lit "--all"; lit "--name"].

Definition domstate_command (name : str) : list str :=
  [lit "virsh"; lit "domstate"; name].

Definition destroy_command (name : str) : list str :=
  [lit "virsh"; lit "destroy"; name].

(** The state query of [delete_vm] succeeded and its answer, lowered, holds
    the word [running]. *)
Definition reported_running {E} (O : Oracle E) (name : str) (w : World E) : bool :=
  let q := fst (after_exec O (domstate_command name) w) in
  (returncode q =? 0)%Z
  && contains (lit "running") (lower (strip (proc_stdout q))).

(** The key a line of [dominfo] gives to the mapping, if it has a colon. *)
Definition line_key (line : str) : option str :=
  match cut (lit ":") line with
  | Some (k, _) => Some (strip k)
  | None => None
  end.

Definition COLON : char := 58%N.
Definition GT : char := 62%N.
Definition LT : char := 60%N.

(** A guest-type tag with a double-quoted [arch] attribute, possibly with
    other text around the attribute and after the closing tag. *)
Definition type_tag (attrs1 arch attrs2 os rest : str) : str :=
  lit "<type" ++ attrs1 ++ (lit "arch=" ++ [DQ]) ++ arch ++ [DQ] ++ attrs2
  ++ lit ">" ++ os ++ lit "</type>" ++ rest.

(** ** Frames: what a step of the program leaves alone *)

(** A computation that leaves the table of the Path Store as it found it,
    however it ends. *)
Definition keeps_db {E A} (c : M E A) : Prop :=
  forall w, w_db (snd (c w)) = w_db w.

(** A computation that leaves the files as it found them. *)
Definition keeps_fs {E A} (c : M E A) : Prop :=
  forall w, w_fs (snd (c w)) = w_fs w.

(** Nothing is left of the directory [tmp]. *)
Definition cleaned {E} (tmp : str) (w : World E) : Prop :=
  forall p, p = tmp \/ is_under tmp p = true -> fs_lookup p (w_fs w) = None.


(** ** The netplan document of static mode, written out

    [dedent] takes as margin the six blanks that the lines of the address
    block carry in the source, not the twelve of the template: the lines
    of the template keep six of their blanks (the first line loses them to
    [strip]) and the address block starts in the first column. *)
Definition netplan_static_document (d ip_cidr gateway : str)
           (dns_list : list str) : str :=
  lit "network:" ++ [NL]
  ++ lit "        version: 2" ++ [NL]
  ++ lit "        renderer: networkd" ++ [NL]
  ++ lit "        ethernets:" ++ [NL]
  ++ lit "          ens" ++ d ++ lit ":" ++ [NL]
  ++ lit "            dhcp4: false" ++ [NL]
  ++ lit "addresses: [" ++ ip_cidr ++ lit "]" ++ [NL]
  ++ lit "routes:" ++ [NL]
  ++ lit "  - to: default" ++ [NL]
  ++ lit "    via: " ++ gateway ++ [NL]
  ++ match dns_list with
     | [] => []
     | _ => lit "nameservers:" ++ [NL]
            ++ lit "  addresses: [" ++ join (lit ", ") dns_list ++ lit "]" ++ [NL]
     end
  ++ lit "          enp0" ++ d ++ lit ":" ++ [NL]
  ++ lit "            dhcp4: true" ++ [NL]
  ++ lit "            optional: true" ++ [NL].

(** ** The command line *)

(** The line [paths] prints for one row. *)
Definition paths_line (r : Row) : str :=
  key r ++ lit " = " ++ value r ++ lit " (actualizado: "
  ++ sqlite_datetime (updated_at r) ++ lit ")".

(** A row as [set] writes it: its texts can be encoded, its time has a
    year of four digits. *)
Definition stored_row (r : Row) : Prop :=
  encodable (key r) = true /\ encodable (value r) = true
  /\ four_digit_year (updated_at r).

Definition no_paths_line : str :=
  lit "No hay rutas guardadas todav" ++ [237%N] ++ lit "a.".

(** The lines [validate] prints for a list of diagnostics. *)
Definition validate_lines (issues : list str) : list str :=
  match issues with
  | [] => [lit "Sin errores de configuraci" ++ [243%N]
           ++ lit "n detectados por virsh domxml-validate."]
  | _ => lit "Errores/advertencias detectados:"
         :: List.map (fun issue => lit "- " ++ issue) issues
  end.

(** The world after some more printed lines, all else equal. *)
Definition printed_all {E} (lines : list str) (w : World E) : World E :=
  {| w_fs := w_fs w; w_db := w_db w; w_trace := w_trace w;
     w_out := w_out w ++ lines; w_env := w_env w |}.

(* ================================================================== *)
(** * Facts about strings *)
(* ================================================================== *)

Lemma str_eqb_eq (a b : str) : str_eqb a b = true <-> a = b.
Proof.
  revert b; induction a as [|x a IH]; intros [|y b]; simpl; split;
    try congruence; try reflexivity.
  - intros H. apply andb_prop in H as [H1 H2].
    apply N.eqb_eq in H1. apply IH in H2. congruence.
  - intros H. injection H as -> ->. apply andb_true_intro. split.
    + apply N.eqb_refl.
    + now apply IH.
Qed.

Lemma str_eqb_refl (a : str) : str_eqb a a = true.
Proof. now apply str_eqb_eq. Qed.

Lemma str_eqb_neq (a b : str) : str_eqb a b = false <-> a <> b.
Proof.
  split.
  - intros H Heq. apply str_eqb_eq in Heq. congruence.
  - intros H. destruct (str_eqb a b) eqn:Eq; [|reflexivity].
    apply str_eqb_eq in Eq. contradiction.
Qed.

Lemma str_eqb_sym (a b : str) : str_eqb a b = str_eqb b a.
Proof.
  destruct (str_eqb a b) eqn:E1; symmetry.
  - apply str_eqb_eq in E1. subst. apply str_eqb_refl.
  - apply str_eqb_neq. apply str_eqb_neq in E1. congruence.
Qed.


Lemma startswith_app (p s : str) : startswith p (p ++ s) = true.
Proof.
  induction p as [|x p IH]; simpl; [reflexivity|].
  unfold char_eqb. now rewrite N.eqb_refl.
Qed.

Lemma startswith_spec (p s : str) :
  startswith p s = true <-> exists t, s = p ++ t.
Proof.
  split.
  - revert s; induction p as [|x p IH]; intros s H.
    + now exists s.
    + destruct s as [|y s]; simpl in H; [discriminate|].
      apply andb_prop in H as [H1 H2]. apply N.eqb_eq in H1. subst y.
      destruct (IH _ H2) as [t ->]. now exists t.
  - intros [t ->]. apply startswith_app.
Qed.

Lemma startswith_nil_r (p : str) : startswith p [] = true -> p = [].
Proof. destruct p; simpl; [reflexivity | discriminate]. Qed.

Lemma contains_spec (n h : str) :
  contains n h = true <-> exists a b, h = a ++ n ++ b.
Proof.
  split.
  - induction h as [|c h IH]; simpl; intros H.
    + apply startswith_nil_r in H. subst. now exists [], [].
    + apply orb_prop in H as [H|H].
      * apply startswith_spec in H as [t Ht]. exists [], t. exact Ht.
      * destruct (IH H) as (a & b & ->). now exists (c :: a), b.
  - intros (a & b & ->). induction a as [|c a IH]; simpl.
    + destruct (n ++ b) as [|c r] eqn:Enb.
      * apply app_eq_nil in Enb as [-> _]. reflexivity.
      * simpl. rewrite <- Enb.
        change (startswith n (n ++ b) || contains n r = true).
        now rewrite startswith_app.
    + rewrite IH. apply orb_true_r.
Qed.

Lemma contains_suffix_of_needle (a b h : str) :
  contains (a ++ b) h = true -> contains b h = true.
Proof.
  intros H. apply contains_spec in H as (x & y & ->).
  apply contains_spec. exists (x ++ a), y.
  now rewrite <- !app_assoc.
Qed.

Lemma cut_some_iff (sep s : str) :
  contains sep s = true <-> cut sep s <> None.
Proof.
  induction s as [|c s IH]; simpl.
  - destruct (startswith sep []); split; congruence.
  - destruct (startswith sep (c :: s)); simpl.
    + split; congruence.
    + rewrite IH. destruct (cut sep s) as [[a b]|]; split; congruence.
Qed.

Lemma after_some (sep s : str) :
  contains sep s = true -> exists t, after sep s = Some t.
Proof.
  intros H. apply cut_some_iff in H. unfold after.
  destruct (cut sep s) as [[a b]|]; [now exists b | congruence].
Qed.

Lemma after_none (sep s : str) :
  contains sep s = false -> after sep s = None.
Proof.
  intros H. unfold after.
  destruct (cut sep s) as [[a b]|] eqn:Ec; [|reflexivity].
  assert (contains sep s = true) by (apply cut_some_iff; congruence).
  congruence.
Qed.
(* ================================================================== *)
(** * Facts about [splitlines] *)
(* ================================================================== *)

Lemma after_break_length c t : length (after_break c t) <= length t.
Proof.
  destruct t as [|d t]; simpl; [lia|].
  destruct ((c =? 13) && (d =? 10))%N; simpl; lia.
Qed.

Lemma splitlines_fuel_enough n : forall m s,
  length s <= n -> length s <= m ->
  splitlines_fuel n s = splitlines_fuel m s.
Proof.
  induction n as [|n IH]; intros m s Hn Hm.
  - destruct s; [|simpl in Hn; lia]. destruct m; reflexivity.
  - destruct s as [|c t]; [destruct m; reflexivity|].
    destruct m as [|m]; [simpl in Hm; lia|].
    simpl in Hn, Hm. simpl.
    pose proof (after_break_length c t).
    destruct (is_linebreak c).
    + f_equal. apply IH; lia.
    + f_equal. apply IH; lia.
Qed.

Lemma splitlines_nil : splitlines [] = [].
Proof. reflexivity. Qed.

(** The equation [splitlines] obeys on a non-empty text. *)
Lemma splitlines_cons c t :
  splitlines (c :: t)
  = if is_linebreak c then [] :: splitlines (after_break c t)
    else cons_head c (splitlines t).
Proof.
  unfold splitlines. simpl.
  pose proof (after_break_length c t).
  destruct (is_linebreak c).
  - f_equal. apply splitlines_fuel_enough; lia.
  - reflexivity.
Qed.

Lemma splitlines_empty_iff s : splitlines s = [] <-> s = [].
Proof.
  split; [|intros ->; reflexivity].
  destruct s as [|c t]; [reflexivity|].
  rewrite splitlines_cons.
  destruct (is_linebreak c); [discriminate|].
  destruct (splitlines t); discriminate.
Qed.

Lemma cons_head_app c (xs ys : list str) :
  xs <> [] -> cons_head c (xs ++ ys) = cons_head c xs ++ ys.
Proof. destruct xs; [congruence | reflexivity]. Qed.

Lemma after_break_app c t x :
  t <> [] -> after_break c (t ++ x) = after_break c t ++ x.
Proof.
  destruct t as [|d t]; [congruence|]. intros _. simpl.
  destruct ((c =? 13) && (d =? 10))%N; reflexivity.
Qed.

Lemma after_break_other c t : (c =? 13)%N = false -> after_break c t = t.
Proof. intros H. destruct t; simpl; [reflexivity | now rewrite H]. Qed.

Lemma splitlines_newline b : splitlines (NL :: b) = [] :: splitlines b.
Proof.
  rewrite splitlines_cons. change (is_linebreak NL) with true. cbv iota.
  now rewrite after_break_other.
Qed.

(** Lines of [a + "\n" + b]: the lines of [a], then the lines of [b], with
    at most one empty line between them. *)
Lemma splitlines_app_newline : forall a b,
  exists mid, (mid = [] \/ mid = [[]])
              /\ splitlines (a ++ NL :: b) = splitlines a ++ mid ++ splitlines b.
Proof.
  intros a b. remember (length a) as n eqn:Hn.
  revert a Hn. induction n as [n IH] using lt_wf_ind. intros a Hn.
  destruct a as [|c t].
  - exists [[]]. split; [now right|].
    simpl app at 1. rewrite splitlines_newline. reflexivity.
  - simpl app at 1. rewrite !splitlines_cons.
    destruct (is_linebreak c) eqn:Eb.
    + destruct t as [|d t'].
      * (* the break closes [a]; the added line feed may complete [\r\n] *)
        simpl app at 1. unfold after_break at 1.
        change (NL =? 10)%N with true.
        destruct (c =? 13)%N eqn:Ecr; cbn [andb].
        -- exists []. split; [now left|]. reflexivity.
        -- exists [[]]. split; [now right|].
           rewrite splitlines_newline. reflexivity.
      * rewrite after_break_app by discriminate.
        destruct (IH (length (after_break c (d :: t'))))
          with (a := after_break c (d :: t')) as (mid & Hmid & Heq).
        { subst n. pose proof (after_break_length c (d :: t')).
          simpl in *. lia. }
        { reflexivity. }
        exists mid. split; [exact Hmid|]. rewrite Heq. reflexivity.
    + destruct t as [|d t'].
      * exists []. split; [now left|].
        simpl app at 1. rewrite splitlines_newline. reflexivity.
      * destruct (IH (length (d :: t'))) with (a := d :: t')
          as (mid & Hmid & Heq).
        { subst n. simpl. lia. }
        { reflexivity. }
        exists mid. split; [exact Hmid|]. rewrite Heq.
        apply cons_head_app.
        intros Hnil. apply splitlines_empty_iff in Hnil. discriminate.
Qed.

Lemma stripped_lines_app_newline a b :
  stripped_lines (a ++ [NL] ++ b) = stripped_lines a ++ stripped_lines b.
Proof.
  unfold stripped_lines. simpl app.
  destruct (splitlines_app_newline a b) as (mid & Hmid & ->).
  rewrite !filter_app, !map_app.
  destruct Hmid as [-> | ->]; reflexivity.
Qed.

(** Every line [stripped_lines] returns is a non-blank line of the text,
    stripped; none is lost. *)
Lemma stripped_lines_nil_iff text :
  stripped_lines text = []
  <-> forall line, In line (splitlines text) -> strip line = [].
Proof.
  unfold stripped_lines. split.
  - intros H line Hin.
    destruct (strip line) as [|c r] eqn:Es; [reflexivity|].
    assert (Hf : In line (filter (fun l => negb (str_eqb (strip l) []))
                                 (splitlines text))).
    { apply filter_In. split; [exact Hin|]. now rewrite Es. }
    apply (in_map strip) in Hf. rewrite H in Hf. destruct Hf.
  - intros H. induction (splitlines text) as [|l ls IHl]; [reflexivity|].
    simpl. rewrite (H l) by now left. simpl.
    apply IHl. intros line Hin. apply H. now right.
Qed.
(* ================================================================== *)
(** * Facts about the file system *)
(* ================================================================== *)

Lemma fs_lookup_app p fs fs' :
  fs_lookup p (fs ++ fs')
  = match fs_lookup p fs with Some n => Some n | None => fs_lookup p fs' end.
Proof.
  induction fs as [|[q n] fs IH]; simpl; [reflexivity|].
  destruct (str_eqb p q); [reflexivity | exact IH].
Qed.

(** ** A new directory entry *)




Lemma fs_add_dir_keeps p fs q :
  In q (List.map fst fs) -> In q (List.map fst (fs_add_dir p fs)).
Proof.
  unfold fs_add_dir. destruct (fs_exists p fs); [tauto|].
  rewrite map_app. intros H. apply in_or_app. now left.
Qed.

(** ** Writing a file *)

Lemma fs_lookup_put_same p d fs : fs_lookup p (fs_put p d fs) = Some (File d).
Proof.
  induction fs as [|[q n] fs IH]; simpl.
  - now rewrite str_eqb_refl.
  - destruct (str_eqb p q) eqn:Eq; simpl; now rewrite Eq.
Qed.

Lemma fs_lookup_put_other p q d fs :
  q <> p -> fs_lookup q (fs_put p d fs) = fs_lookup q fs.
Proof.
  intros Hne. induction fs as [|[r n] fs IH]; simpl.
  - apply str_eqb_neq in Hne. now rewrite Hne.
  - destruct (str_eqb p r) eqn:Epr; simpl.
    + apply str_eqb_eq in Epr. subst r.
      apply str_eqb_neq in Hne. now rewrite Hne.
    + now rewrite IH.
Qed.

Lemma fs_read_put_same p d fs : fs_read p (fs_put p d fs) = Some d.
Proof. unfold fs_read. now rewrite fs_lookup_put_same. Qed.

Lemma fs_read_put_other p q d fs :
  q <> p -> fs_read q (fs_put p d fs) = fs_read q fs.
Proof. intros H. unfold fs_read. now rewrite fs_lookup_put_other. Qed.

Lemma fs_put_keeps p d fs q :
  In q (List.map fst fs) -> In q (List.map fst (fs_put p d fs)).
Proof.
  induction fs as [|[r n] fs IH]; simpl; [intros []|].
  destruct (str_eqb p r) eqn:Epr; simpl.
  - tauto.
  - intros [H|H]; [now left | right; now apply IH].
Qed.

Lemma fs_put_adds p d fs : In p (List.map fst (fs_put p d fs)).
Proof.
  induction fs as [|[r n] fs IH]; simpl; [now left|].
  destruct (str_eqb p r) eqn:Epr; simpl.
  - apply str_eqb_eq in Epr. now left.
  - now right.
Qed.

(** Writing again what a file holds changes nothing. *)
Lemma fs_put_same p d fs : fs_lookup p fs = Some (File d) -> fs_put p d fs = fs.
Proof.
  induction fs as [|[q n] fs IH]; simpl; [discriminate|].
  destruct (str_eqb p q) eqn:Eq.
  - intros H. injection H as ->. reflexivity.
  - intros H. now rewrite IH.
Qed.

(** ** Directories *)

Lemma is_dir_lookup d fs : fs_lookup d fs = Some Dir -> is_dir d fs = true.
Proof. intros H. unfold is_dir. rewrite H. apply orb_true_r. Qed.

Lemma is_dir_app d fs fs' : is_dir d fs = true -> is_dir d (fs ++ fs') = true.
Proof.
  unfold is_dir. intros H. apply orb_prop in H as [H|H]; [now rewrite H|].
  rewrite fs_lookup_app. destruct (fs_lookup d fs) as [[x|]|]; try discriminate.
  apply orb_true_r.
Qed.

(** What [mkdir -p] makes: directory entries, after the entries that were
    there, at paths where nothing was. *)
Lemma mkdir_chain_adds chain : forall fs fs',
  mkdir_chain chain fs = Some fs' ->
  exists ds,
    fs' = fs ++ List.map (fun d => (d, Dir)) ds
    /\ Forall (fun d => fs_lookup d fs = None) ds
    /\ incl ds chain.
Proof.
  induction chain as [|d up IH]; intros fs fs' H; cbn [mkdir_chain] in H.
  - injection H as <-. exists []. rewrite app_nil_r.
    split; [reflexivity|]. split; [constructor | intros x []].
  - destruct (is_dir d fs).
    + injection H as <-. exists []. rewrite app_nil_r.
      split; [reflexivity|]. split; [constructor | intros x []].
    + destruct (fs_lookup d fs) as [n|] eqn:El; [discriminate|].
      destruct (mkdir_chain up fs) as [fs1|] eqn:Eu; [|discriminate].
      injection H as <-.
      destruct (IH _ _ Eu) as (ds & -> & Hnew & Hincl).
      exists (ds ++ [d]). rewrite map_app, app_assoc. split; [reflexivity|].
      split.
      * apply Forall_app. split; [exact Hnew | now constructor].
      * intros x Hx. apply in_app_or in Hx as [Hx|[<-|[]]];
          [right; now apply Hincl | now left].
Qed.

Lemma fs_lookup_new_dirs q ds :
  fs_lookup q (List.map (fun d => (d, Dir)) ds) = None
  \/ fs_lookup q (List.map (fun d => (d, Dir)) ds) = Some Dir.
Proof.
  induction ds as [|d ds IH]; simpl; [now left|].
  destruct (str_eqb q d); [now right | exact IH].
Qed.

(** [mkdir -p] keeps every entry that was there. *)
Lemma mkdir_p_lookup_old p q fs fs' n :
  mkdir_p p fs = Some fs' -> fs_lookup q fs = Some n -> fs_lookup q fs' = Some n.
Proof.
  intros H Hq. apply mkdir_chain_adds in H as (ds & -> & _ & _).
  now rewrite fs_lookup_app, Hq.
Qed.

(** [mkdir -p] changes no file. *)
Lemma fs_read_mkdir_p p q fs fs' :
  mkdir_p p fs = Some fs' -> fs_read q fs' = fs_read q fs.
Proof.
  intros H. apply mkdir_chain_adds in H as (ds & -> & _ & _).
  unfold fs_read. rewrite fs_lookup_app.
  destruct (fs_lookup q fs) as [n|]; [reflexivity|].
  destruct (fs_lookup_new_dirs q ds) as [-> | ->]; reflexivity.
Qed.

(** Where [mkdir -p] had something to make, it made directories only. *)
Lemma mkdir_p_lookup p q fs fs' :
  mkdir_p p fs = Some fs' ->
  fs_lookup q fs' = fs_lookup q fs
  \/ (fs_lookup q fs = None /\ fs_lookup q fs' = Some Dir).
Proof.
  intros H. apply mkdir_chain_adds in H as (ds & -> & _ & _).
  rewrite fs_lookup_app.
  destruct (fs_lookup q fs) as [n|]; [now left|].
  destruct (fs_lookup_new_dirs q ds) as [-> | ->]; [now left | now right].
Qed.

Lemma mkdir_p_keeps p fs fs' q :
  mkdir_p p fs = Some fs' ->
  In q (List.map fst fs) -> In q (List.map fst fs').
Proof.
  intros H Hq. apply mkdir_chain_adds in H as (ds & -> & _ & _).
  rewrite map_app. apply in_or_app. now left.
Qed.

(** After [mkdir -p] the directory is there. *)
Lemma mkdir_p_is_dir p fs fs' : mkdir_p p fs = Some fs' -> is_dir p fs' = true.
Proof.
  unfold mkdir_p. cbn [mkdir_chain]. intros H.
  destruct (is_dir p fs) eqn:Ed; [now injection H as <-|].
  destruct (fs_lookup p fs) as [n|] eqn:El; [discriminate|].
  destruct (mkdir_chain (rev (ancestors p)) fs) as [fs1|] eqn:Eu; [|discriminate].
  injection H as <-. apply is_dir_lookup.
  apply mkdir_chain_adds in Eu as (ds & -> & _ & _).
  rewrite !fs_lookup_app, El.
  destruct (fs_lookup_new_dirs p ds) as [-> | ->]; [|reflexivity].
  simpl. now rewrite str_eqb_refl.
Qed.

(** A directory that is there needs no making. *)
Lemma mkdir_p_noop p fs : is_dir p fs = true -> mkdir_p p fs = Some fs.
Proof. intros H. unfold mkdir_p. cbn [mkdir_chain]. now rewrite H. Qed.

(** A file in the way makes [mkdir -p] fail. *)
Lemma mkdir_p_file p d fs :
  fs_lookup p fs = Some (File d) -> is_dir p fs = false -> mkdir_p p fs = None.
Proof.
  intros H Hd. unfold mkdir_p. cbn [mkdir_chain]. now rewrite Hd, H.
Qed.

(** ** Removing a tree *)

Lemma fs_lookup_rmtree_keep dir p fs :
  p <> dir -> is_under dir p = false ->
  fs_lookup p (rmtree dir fs) = fs_lookup p fs.
Proof.
  intros Hne Hu. induction fs as [|[q n] fs IH]; simpl; [reflexivity|].
  destruct (str_eqb p q) eqn:Epq.
  - apply str_eqb_eq in Epq. subst q.
    apply str_eqb_neq in Hne. rewrite Hne, Hu. simpl.
    now rewrite str_eqb_refl.
  - destruct (negb (str_eqb q dir || is_under dir q)); simpl;
      [rewrite Epq|]; exact IH.
Qed.

Lemma fs_read_rmtree_keep dir p fs :
  p <> dir -> is_under dir p = false ->
  fs_read p (rmtree dir fs) = fs_read p fs.
Proof. intros. unfold fs_read. now rewrite fs_lookup_rmtree_keep. Qed.

(** ** What is in a directory after an extraction *)

Lemma extract_member_keeps tmp m fs fs' q :
  extract_member tmp m fs = Some fs' ->
  In q (List.map fst fs) -> In q (List.map fst fs').
Proof.
  unfold extract_member. intros H Hq.
  destruct (mkdir_p _ fs) as [fs1|] eqn:Em; [|discriminate].
  destruct (can_open_for_writing _ fs1); [|discriminate].
  injection H as <-. apply fs_put_keeps. eapply mkdir_p_keeps; eassumption.
Qed.

Lemma extract_member_adds tmp m fs fs' :
  extract_member tmp m fs = Some fs' ->
  In (tmp ++ [SLASH] ++ fst m) (List.map fst fs').
Proof.
  unfold extract_member. intros H.
  destruct (mkdir_p _ fs) as [fs1|] eqn:Em; [|discriminate].
  destruct (can_open_for_writing _ fs1); [|discriminate].
  injection H as <-. apply fs_put_adds.
Qed.

Lemma extractall_keeps tmp members : forall fs q,
  In q (List.map fst fs) ->
  In q (List.map fst (fst (extractall tmp members fs))).
Proof.
  induction members as [|m members IH]; intros fs q H; cbn [extractall];
    [exact H|].
  destruct (extract_member tmp m fs) as [fs1|] eqn:Em; [|exact H].
  apply IH. eapply extract_member_keeps; eassumption.
Qed.

(** Every member of an archive that was extracted in full is in the file
    system. *)
Lemma extractall_adds tmp members : forall fs m,
  snd (extractall tmp members fs) = true ->
  In m members ->
  In (tmp ++ [SLASH] ++ fst m)
     (List.map fst (fst (extractall tmp members fs))).
Proof.
  induction members as [|m' members IH]; intros fs m Hok H; [destruct H|].
  cbn [extractall] in *.
  destruct (extract_member tmp m' fs) as [fs1|] eqn:Em; [|discriminate].
  destruct H as [->|H].
  - apply extractall_keeps. eapply extract_member_adds; eassumption.
  - now apply IH.
Qed.

Lemma skipn_app_exact {A} (a b : list A) : skipn (length a) (a ++ b) = b.
Proof. induction a as [|x a IH]; simpl; [reflexivity | exact IH]. Qed.

(** An entry directly inside a directory is in its listing. *)
Lemma listdir_lists dir name fs :
  In (dir ++ [SLASH] ++ name) (List.map fst fs) ->
  name <> [] -> contains [SLASH] name = false ->
  In name (listdir dir fs).
Proof.
  intros Hin Hne Hslash.
  induction fs as [|[p n] fs IH]; [destruct Hin|].
  cbn [List.map fst In] in Hin. cbn [listdir].
  apply in_or_app. destruct Hin as [->|Hin]; [left | right; now apply IH].
  unfold is_under.
  replace (dir ++ [SLASH] ++ name) with ((dir ++ [SLASH]) ++ name)
    by (now rewrite <- app_assoc).
  rewrite startswith_app.
  replace (S (length dir)) with (length (dir ++ [SLASH]))
    by (rewrite length_app; simpl; lia).
  rewrite skipn_app_exact, Hslash.
  destruct name; [congruence | now left].
Qed.

(** ** The order of a listing *)

Lemma insert_by_rank_perm rank x l : Permutation (insert_by_rank rank x l) (x :: l).
Proof.
  induction l as [|y l IH]; simpl; [reflexivity|].
  destruct (rank x <=? rank y)%N; [reflexivity|].
  rewrite IH. apply perm_swap.
Qed.

(** The listing holds every entry once, whatever the order. *)
Lemma scan_order_perm rank l : Permutation (scan_order rank l) l.
Proof.
  induction l as [|x l IH]; simpl; [reflexivity|].
  rewrite insert_by_rank_perm. now constructor.
Qed.

Lemma scan_order_in rank l x : In x (scan_order rank l) <-> In x l.
Proof.
  split; apply Permutation_in;
    [apply scan_order_perm | apply Permutation_sym, scan_order_perm].
Qed.

Lemma scan_order_nil rank l : scan_order rank l = [] <-> l = [].
Proof.
  split; [|now intros ->]. intros H.
  pose proof (scan_order_perm rank l) as Hp. rewrite H in Hp.
  now apply Permutation_nil in Hp.
Qed.
(* ================================================================== *)
(** * Facts about templates: lines, margins, decimal numbers *)
(* ================================================================== *)

Lemma split_char_no_sep d p : ~ In d p -> split_char d p = [p].
Proof.
  induction p as [|c p IH]; simpl; intros H; [reflexivity|].
  destruct (c =? d)%N eqn:Ec.
  - apply N.eqb_eq in Ec. exfalso. apply H. now left.
  - rewrite IH; [reflexivity|]. intros Hin. apply H. now right.
Qed.

Lemma split_char_app_sep d p rest :
  ~ In d p -> split_char d (p ++ d :: rest) = p :: split_char d rest.
Proof.
  induction p as [|c p IH]; simpl; intros H.
  - now rewrite N.eqb_refl.
  - destruct (c =? d)%N eqn:Ec.
    + apply N.eqb_eq in Ec. exfalso. apply H. now left.
    + rewrite IH; [reflexivity|]. intros Hin. apply H. now right.
Qed.

(** Splitting at line feeds undoes joining lines that hold none. *)
Lemma split_nl_join ls :
  ls <> [] -> Forall (fun l => ~ In NL l) ls ->
  split_nl (join [NL] ls) = ls.
Proof.
  unfold split_nl. intros Hne Hall.
  induction Hall as [|l ls Hl Hall IH]; [congruence|].
  destruct ls as [|l' ls'].
  - simpl. now apply split_char_no_sep.
  - change (join [NL] (l :: l' :: ls')) with (l ++ NL :: join [NL] (l' :: ls')).
    rewrite split_char_app_sep by exact Hl.
    f_equal. apply IH. discriminate.
Qed.

Lemma lstrip_app a b : lstrip a <> [] -> lstrip (a ++ b) = lstrip a ++ b.
Proof.
  induction a as [|c a IH]; simpl; [congruence|].
  destruct (is_space c); [exact IH | reflexivity].
Qed.

Lemma rstrip_app a b : rstrip b <> [] -> rstrip (a ++ b) = a ++ rstrip b.
Proof.
  unfold rstrip. intros H.
  rewrite rev_app_distr, lstrip_app.
  - now rewrite rev_app_distr, rev_involutive.
  - intros Hnil. apply H. now rewrite Hnil.
Qed.

(** ** Decimal numbers *)

Lemma lit_String c s : lit (String c s) = N_of_ascii c :: lit s.
Proof. reflexivity. Qed.

Lemma string_of_uint_decimal u :
  forallb decimal_char (lit (NilEmpty.string_of_uint u)) = true.
Proof.
  induction u; simpl NilEmpty.string_of_uint;
    [reflexivity | rewrite lit_String; simpl forallb; rewrite IHu; reflexivity ..].
Qed.

Lemma nilzero_uint_decimal u :
  forallb decimal_char (lit (NilZero.string_of_uint u)) = true
  /\ lit (NilZero.string_of_uint u) <> [].
Proof.
  destruct u; simpl NilZero.string_of_uint;
    try (split; [reflexivity | discriminate]);
    (split; [rewrite lit_String; simpl forallb;
             rewrite string_of_uint_decimal; reflexivity
            | rewrite lit_String; discriminate]).
Qed.

(** [str(n)] is a non-empty run of digits, behind a minus sign at most. *)
Lemma str_of_Z_decimal z :
  forallb decimal_char (str_of_Z z) = true /\ str_of_Z z <> [].
Proof.
  unfold str_of_Z, NilZero.string_of_int.
  destruct (Z.to_int z) as [u|u].
  - apply nilzero_uint_decimal.
  - rewrite lit_String. split; [|discriminate].
    simpl forallb. now rewrite (proj1 (nilzero_uint_decimal u)).
Qed.

Lemma decimal_not_in (d : str) (c : char) :
  forallb decimal_char d = true -> decimal_char c = false -> ~ In c d.
Proof.
  intros Hd Hc Hin.
  rewrite forallb_forall in Hd. specialize (Hd c Hin). congruence.
Qed.

(** ** Searching around a separator *)

Lemma startswith_before_sep w a c b :
  ~ In c w -> startswith w (a ++ c :: b) = startswith w a.
Proof.
  revert a; induction w as [|x w IH]; intros a H; [reflexivity|].
  destruct a as [|y a]; simpl.
  - unfold char_eqb. destruct (x =? c)%N eqn:Ex; [|reflexivity].
    apply N.eqb_eq in Ex. exfalso. apply H. now left.
  - rewrite IH; [reflexivity|]. intros Hin. apply H. now right.
Qed.

(** A character that is not in the needle cuts the haystack in two. *)
Lemma contains_around_sep w a c b :
  w <> [] -> ~ In c w ->
  contains w (a ++ c :: b) = contains w a || contains w b.
Proof.
  intros Hne Hc. induction a as [|y a IH].
  - simpl app. simpl contains.
    change (c :: b) with ([] ++ c :: b).
    rewrite startswith_before_sep by exact Hc.
    destruct w; [congruence | reflexivity].
  - change ((y :: a) ++ c :: b) with (y :: (a ++ c :: b)).
    cbn [contains]. rewrite IH.
    change (y :: a ++ c :: b) with ((y :: a) ++ c :: b).
    rewrite startswith_before_sep by exact Hc.
    now rewrite orb_assoc.
Qed.

Lemma contains_skip_block w d b :
  w <> [] -> (forall c, In c d -> ~ In c w) ->
  contains w (d ++ b) = contains w b.
Proof.
  intros Hne Hd. induction d as [|c d IH]; [reflexivity|].
  change ((c :: d) ++ b) with ([] ++ c :: (d ++ b)).
  rewrite contains_around_sep; [|exact Hne | apply Hd; now left].
  rewrite IH by (intros c' Hc'; apply Hd; now right).
  destruct w; [congruence | reflexivity].
Qed.

(** A non-empty run of characters foreign to the needle cuts the haystack
    in two. *)
Lemma contains_around_block w a d b :
  w <> [] -> d <> [] -> (forall c, In c d -> ~ In c w) ->
  contains w (a ++ d ++ b) = contains w a || contains w b.
Proof.
  intros Hne Hdne Hd. destruct d as [|c d]; [congruence|].
  change (a ++ (c :: d) ++ b) with (a ++ c :: (d ++ b)).
  rewrite contains_around_sep; [|exact Hne | apply Hd; now left].
  rewrite contains_skip_block;
    [reflexivity | exact Hne | intros c' Hc'; apply Hd; now right].
Qed.

Lemma has_newline_false l : has_newline l = false -> ~ In NL l.
Proof.
  unfold has_newline. intros H Hin.
  assert (existsb (N.eqb NL) l = true)
    by (apply existsb_exists; exists NL; split; [exact Hin | apply N.eqb_refl]).
  congruence.
Qed.

Lemma has_newline_app a b : has_newline (a ++ b) = has_newline a || has_newline b.
Proof. apply existsb_app. Qed.

Lemma decimal_no_newline d : forallb decimal_char d = true -> has_newline d = false.
Proof.
  intros Hd. unfold has_newline.
  destruct (existsb (N.eqb NL) d) eqn:Ee; [|reflexivity].
  apply existsb_exists in Ee as (c & Hin & Hc). apply N.eqb_eq in Hc. subst c.
  exfalso. revert Hin. now apply decimal_not_in.
Qed.

Lemma no_newline_lines ls :
  forallb (fun l => negb (has_newline l)) ls = true ->
  Forall (fun l => ~ In NL l) ls.
Proof.
  intros H. apply Forall_forall. intros l Hl.
  rewrite forallb_forall in H. specialize (H l Hl).
  apply has_newline_false. now apply negb_true_iff.
Qed.

Lemma lstrip_cons c t :
  lstrip (c :: t) = if is_space c then lstrip t else c :: t.
Proof. reflexivity. Qed.

Lemma netplan_dhcp_dedent_lines d :
  dedent_lines
    [ [];
      sp 12 ++ lit "network:";
      sp 14 ++ lit "version: 2";
      sp 14 ++ lit "renderer: networkd";
      sp 14 ++ lit "ethernets:";
      sp 16 ++ (lit "ens" ++ d) ++ lit ":";
      sp 18 ++ lit "dhcp4: true";
      sp 16 ++ (lit "enp0" ++ d) ++ lit ":";
      sp 18 ++ lit "dhcp4: true";
      sp 18 ++ lit "optional: true";
      sp 12 ]
  = [ [];
      lit "network:";
      lit "  version: 2";
      lit "  renderer: networkd";
      lit "  ethernets:";
      lit "    ens" ++ d ++ lit ":";
      lit "      dhcp4: true";
      lit "    enp0" ++ d ++ lit ":";
      lit "      dhcp4: true";
      lit "      optional: true";
      [] ].
Proof. reflexivity. Qed.

Lemma netplan_content_dhcp index :
  netplan_content index (lit "dhcp4: true")
  = netplan_dhcp_document (str_of_Z index).
Proof.
  unfold netplan_content, netplan_template, interface_name_of, legacy_name_of.
  destruct (str_of_Z_decimal index) as [Hd Hne].
  pose proof (decimal_no_newline _ Hd) as Hnl.
  generalize dependent (str_of_Z index). intros d Hd Hne Hnl.
  unfold dedent. rewrite split_nl_join.
  2: discriminate.
  2:{ apply no_newline_lines. cbn [forallb].
      rewrite !has_newline_app, Hnl. reflexivity. }
  rewrite netplan_dhcp_dedent_lines.
  unfold strip.
  set (A := lit "etwork:" ++ [NL]
        ++ lit "  version: 2" ++ [NL]
        ++ lit "  renderer: networkd" ++ [NL]
        ++ lit "  ethernets:" ++ [NL]
        ++ lit "    ens" ++ d ++ lit ":" ++ [NL]
        ++ lit "      dhcp4: true" ++ [NL]
        ++ lit "    enp0" ++ d).
  set (T := lit ":" ++ [NL] ++ lit "      dhcp4: true" ++ [NL]
            ++ lit "      optional: true" ++ [NL]).
  match goal with
  | |- rstrip (lstrip ?x) ++ _ = _ =>
      replace x with (NL :: 110%N :: (A ++ T))
        by (unfold join, A, T; repeat rewrite <- app_assoc; reflexivity)
  end.
  change (lstrip (NL :: 110%N :: (A ++ T))) with ((110%N :: A) ++ T).
  rewrite rstrip_app by (vm_compute; intros Hx; discriminate Hx).
  change (rstrip T)
    with (lit ":" ++ [NL] ++ lit "      dhcp4: true" ++ [NL]
          ++ lit "      optional: true").
  unfold netplan_dhcp_document, A.
  repeat (rewrite <- app_assoc || rewrite <- app_comm_cons). reflexivity.
Qed.

(** A decimal number shares no character with a word without digits and
    minus signs. *)
Lemma decimal_foreign (d w : str) :
  forallb decimal_char d = true ->
  forallb (fun c => negb (decimal_char c)) w = true ->
  forall c, In c d -> ~ In c w.
Proof.
  intros Hd Hw c Hc Hin.
  rewrite forallb_forall in Hd, Hw.
  specialize (Hd c Hc). specialize (Hw c Hin).
  rewrite Hd in Hw. discriminate.
Qed.

Lemma netplan_dhcp_document_no_nameservers d :
  forallb decimal_char d = true -> d <> [] ->
  contains (lit "nameservers") (netplan_dhcp_document d) = false.
Proof.
  intros Hd Hne.
  set (P1 := lit "network:" ++ [NL] ++ lit "  version: 2" ++ [NL]
             ++ lit "  renderer: networkd" ++ [NL] ++ lit "  ethernets:" ++ [NL]
             ++ lit "    ens").
  set (P2 := lit ":" ++ [NL] ++ lit "      dhcp4: true" ++ [NL] ++ lit "    enp0").
  set (P3 := lit ":" ++ [NL] ++ lit "      dhcp4: true" ++ [NL]
             ++ lit "      optional: true" ++ [NL]).
  replace (netplan_dhcp_document d) with (P1 ++ d ++ P2 ++ d ++ P3)
    by (unfold netplan_dhcp_document, P1, P2, P3;
        repeat rewrite <- app_assoc; reflexivity).
  assert (Hw : lit "nameservers" <> []) by discriminate.
  assert (Hf : forall c, In c d -> ~ In c (lit "nameservers"))
    by (apply decimal_foreign; [exact Hd | reflexivity]).
  rewrite contains_around_block by assumption.
  rewrite contains_around_block by assumption.
  reflexivity.
Qed.
(* ================================================================== *)
(** * Counting occurrences *)
(* ================================================================== *)

Lemma startswith_length p s : startswith p s = true -> length p <= length s.
Proof.
  intros H. apply startswith_spec in H as [t ->]. rewrite length_app. lia.
Qed.

Lemma occurrences_short b h : length h < length b -> occurrences b h = 0.
Proof.
  induction h as [|c h IH]; intros Hlen.
  - destruct b; [simpl in Hlen; lia | reflexivity].
  - simpl. destruct (startswith b (c :: h)) eqn:Es.
    + apply startswith_length in Es. lia.
    + apply IH. simpl in Hlen. lia.
Qed.

Lemma occurrences_contains b h : contains b h = false -> occurrences b h = 0.
Proof.
  induction h as [|c h IH]; simpl.
  - now intros ->.
  - intros H. apply orb_false_iff in H as [-> H]. now apply IH.
Qed.

Lemma startswith_app_cases b : forall x y,
  startswith b (x ++ y) = true ->
  startswith b x = true \/ exists w, b = x ++ w /\ startswith w y = true.
Proof.
  induction b as [|c b IH]; intros x y H; [now left|].
  destruct x as [|d x].
  - right. exists (c :: b). now split.
  - simpl in H. apply andb_prop in H as [Hc H].
    destruct (IH _ _ H) as [Hx|(w & -> & Hw)].
    + left. simpl. now rewrite Hc.
    + right. exists w. apply N.eqb_eq in Hc. subst d. now split.
Qed.

Lemma startswith_app_l b x y :
  startswith b x = true -> startswith b (x ++ y) = true.
Proof.
  intros H. apply startswith_spec in H as [t ->].
  rewrite <- app_assoc. apply startswith_app.
Qed.

Lemma startswith_refl b : startswith b b = true.
Proof.
  induction b as [|c b IH]; simpl; [reflexivity|].
  unfold char_eqb. now rewrite N.eqb_refl.
Qed.

(** Appending a border-free block adds exactly one occurrence of it. *)
Lemma occurrences_app_border_free b :
  b <> [] -> border_free b ->
  forall x, occurrences b (x ++ b) = occurrences b x + 1.
Proof.
  intros Hne Hbf x. induction x as [|c x IH].
  - destruct b as [|c b]; [congruence|].
    simpl app. cbn [occurrences].
    rewrite startswith_refl.
    rewrite occurrences_short by (simpl; lia). reflexivity.
  - change ((c :: x) ++ b) with (c :: (x ++ b)). cbn [occurrences].
    rewrite IH.
    assert (Hs : startswith b (c :: x ++ b) = startswith b (c :: x)).
    { destruct (startswith b (c :: x)) eqn:Es.
      - now apply (startswith_app_l b (c :: x) b).
      - destruct (startswith b (c :: x ++ b)) eqn:Es'; [|reflexivity].
        exfalso.
        destruct (startswith_app_cases b (c :: x) b Es') as [Hx|(w & Hb & Hw)];
          [congruence|].
        apply startswith_spec in Hw as [v Hv].
        assert (w = []) by (eapply Hbf; eauto; discriminate).
        subst w. rewrite app_nil_r in Hb. subst b.
        rewrite startswith_refl in Es. discriminate. }
    rewrite Hs. lia.
Qed.
(* ================================================================== *)
(** * The hosts block, written out *)
(* ================================================================== *)

Lemma decimal_not_space c : decimal_char c = true -> is_space c = false.
Proof.
  unfold decimal_char, is_space. intros H.
  assert (Hc : (48 <= c <= 57)%N \/ c = 45%N).
  { apply orb_prop in H as [H|H].
    - apply andb_prop in H as [H1 H2].
      apply N.leb_le in H1. apply N.leb_le in H2. left. lia.
    - apply N.eqb_eq in H. now right. }
  repeat match goal with
         | |- context [(?a <=? ?b)%N] => destruct (N.leb_spec a b); try lia
         end;
  repeat match goal with
         | |- context [(?a =? ?b)%N] => destruct (N.eqb_spec a b); try lia
         end;
  reflexivity.
Qed.

Lemma rstrip_decimal_newline d :
  forallb decimal_char d = true -> d <> [] -> rstrip (d ++ [NL]) = d.
Proof.
  intros Hd Hne. unfold rstrip. rewrite rev_app_distr.
  change (rev [NL] ++ rev d) with (NL :: rev d).
  rewrite lstrip_cons. change (is_space NL) with true. cbv iota.
  destruct (rev d) as [|c r] eqn:Er.
  - apply (f_equal (@rev char)) in Er. rewrite rev_involutive in Er.
    simpl in Er. congruence.
  - assert (Hin : In c d) by (apply in_rev; rewrite Er; now left).
    rewrite forallb_forall in Hd. specialize (Hd c Hin).
    rewrite lstrip_cons, (decimal_not_space _ Hd).
    rewrite <- Er. apply rev_involutive.
Qed.

Lemma hosts_dedent_lines mode d :
  dedent_lines
    [ [];
      sp 16 ++ lit "# vm_manager compat (" ++ mode ++ lit ")";
      sp 16 ++ lit "# Compatibilidad OVA/QCOW2: alias " ++ (lit "enp0" ++ d)
        ++ lit " -> " ++ (lit "ens" ++ d);
      sp 16 ++ lit "127.0.1.1 " ++ (lit "enp0" ++ d);
      sp 16 ++ lit "127.0.1.1 " ++ (lit "ens" ++ d);
      sp 16 ]
  = [ []; hosts_line1 mode; hosts_line2 d; hosts_line3 d; hosts_line4 d; [] ].
Proof. reflexivity. Qed.

(** For a mode without line feed, the block is its four lines. *)
Lemma hosts_snippet_block mode index :
  has_newline mode = false ->
  hosts_snippet mode index = hosts_block mode (str_of_Z index).
Proof.
  intros Hmode.
  unfold hosts_snippet, hosts_template, interface_name_of, legacy_name_of.
  destruct (str_of_Z_decimal index) as [Hd Hne].
  pose proof (decimal_no_newline _ Hd) as Hnl.
  generalize dependent (str_of_Z index). intros d Hd Hne Hnl.
  unfold dedent. rewrite split_nl_join.
  2: discriminate.
  2:{ apply no_newline_lines. cbn [forallb].
      rewrite !has_newline_app, Hnl, Hmode. reflexivity. }
  rewrite hosts_dedent_lines.
  unfold strip.
  set (A := lit " vm_manager compat (" ++ mode ++ lit ")" ++ NL :: hosts_line2 d
            ++ NL :: hosts_line3 d ++ NL :: lit "127.0.1.1 ens").
  match goal with
  | |- rstrip (lstrip ?x) ++ _ = _ =>
      replace x with (NL :: 35%N :: (A ++ (d ++ [NL])))
        by (unfold join, A, hosts_line1, hosts_line2, hosts_line3, hosts_line4;
            repeat (rewrite <- app_assoc || rewrite <- app_comm_cons
                    || rewrite app_nil_r);
            reflexivity)
  end.
  change (lstrip (NL :: 35%N :: (A ++ (d ++ [NL]))))
    with ((35%N :: A) ++ (d ++ [NL])).
  rewrite rstrip_app; rewrite rstrip_decimal_newline by assumption;
    [|exact Hne].
  unfold hosts_block, A, hosts_line1, hosts_line2, hosts_line3, hosts_line4.
  repeat (rewrite <- app_assoc || rewrite <- app_comm_cons). reflexivity.
Qed.

(** ** The block cannot overlap itself *)

Lemma sep_unique (c : char) a a' b b' :
  ~ In c a -> ~ In c a' -> a ++ c :: b = a' ++ c :: b' -> a = a' /\ b = b'.
Proof.
  revert a'; induction a as [|x a IH]; intros [|y a'] Ha Ha' H; simpl in H.
  - injection H as <-. now split.
  - injection H as <- _. exfalso. apply Ha'. now left.
  - injection H as -> _. exfalso. apply Ha. now left.
  - injection H as <- H.
    assert (Hi : ~ In c a) by (intros Hin; apply Ha; now right).
    assert (Hi' : ~ In c a') by (intros Hin; apply Ha'; now right).
    destruct (IH a' Hi Hi' H) as [-> ->]. now split.
Qed.

Lemma sep_split (c : char) a b x y :
  a ++ c :: b = x ++ y ->
  (exists a2, a = x ++ a2 /\ y = a2 ++ c :: b)
  \/ (exists x2, x = a ++ c :: x2 /\ b = x2 ++ y).
Proof.
  intros H. apply app_eq_app in H as [l [[H1 H2]|[H1 H2]]].
  - left. now exists l.
  - destruct l as [|d l].
    + left. exists []. rewrite app_nil_r in H1. subst x.
      simpl in H2. rewrite app_nil_r. split; [reflexivity | now symmetry].
    + right. simpl in H2. injection H2 as <- H2. now exists l.
Qed.

Lemma not_in_app_r (c : char) x a : ~ In c (x ++ a) -> ~ In c a.
Proof. intros H Hin. apply H, in_or_app. now right. Qed.

Lemma hosts_block_border_free mode d :
  has_newline mode = false ->
  forallb decimal_char d = true ->
  border_free (hosts_block mode d).
Proof.
  intros Hmode Hd u v w Hu Hv Hune.
  pose proof (decimal_no_newline _ Hd) as Hnl.
  assert (N1 : ~ In NL (hosts_line1 mode)).
  { apply has_newline_false. unfold hosts_line1.
    rewrite !has_newline_app, Hmode. reflexivity. }
  assert (N2 : ~ In NL (hosts_line2 d)).
  { apply has_newline_false. unfold hosts_line2.
    rewrite !has_newline_app, Hnl. reflexivity. }
  assert (N3 : ~ In NL (hosts_line3 d)).
  { apply has_newline_false. unfold hosts_line3.
    rewrite !has_newline_app, Hnl. reflexivity. }
  assert (N4 : ~ In NL (hosts_line4 d)).
  { apply has_newline_false. unfold hosts_line4.
    rewrite !has_newline_app, Hnl. reflexivity. }
  set (l1 := hosts_line1 mode) in *. set (l2 := hosts_line2 d) in *.
  set (l3 := hosts_line3 d) in *. set (l4 := hosts_line4 d) in *.
  set (R3 := l4 ++ [NL]).
  set (R2 := l3 ++ NL :: R3).
  set (R1 := l2 ++ NL :: R2).
  assert (HB : hosts_block mode d = l1 ++ NL :: R1) by reflexivity.
  rewrite HB in Hu, Hv.
  (* what [w], a prefix of the block, starts with *)
  assert (Hprefix : forall a2 R,
             ~ In NL a2 -> w = a2 ++ NL :: R -> l1 = a2 /\ R1 = R ++ v).
  { intros a2 R Ha2 Hw. rewrite Hw in Hv.
    rewrite <- app_assoc, <- app_comm_cons in Hv.
    exact (@sep_unique NL _ _ _ _ N1 Ha2 Hv). }
  destruct (@sep_split NL _ _ _ _ Hu) as [(a2 & Ha & Hw)|(x2 & Hx & Hr1)].
  { (* [w] starts inside the first line *)
    exfalso.
    destruct (Hprefix a2 R1) as [H1 _]; [|exact Hw|].
    - rewrite Ha in N1. eapply not_in_app_r, N1.
    - rewrite H1 in Ha. apply (f_equal (@length char)) in Ha.
      rewrite length_app in Ha. destruct u; [congruence | simpl in Ha; lia]. }
  destruct (@sep_split NL _ _ _ _ Hr1) as [(a2 & Ha & Hw)|(x3 & Hx3 & Hr2)].
  { (* inside the second line *)
    exfalso.
    destruct (Hprefix a2 R2) as [_ H2]; [|exact Hw|].
    - rewrite Ha in N2. eapply not_in_app_r, N2.
    - unfold R1, R2 in H2. rewrite <- app_assoc, <- app_comm_cons in H2.
      destruct (@sep_unique NL _ _ _ _ N2 N3 H2) as [H23 _].
      vm_compute in H23. discriminate H23. }
  destruct (@sep_split NL _ _ _ _ Hr2) as [(a2 & Ha & Hw)|(x4 & Hx4 & Hr3)].
  { (* inside the third line *)
    exfalso.
    destruct (Hprefix a2 R3) as [_ H2]; [|exact Hw|].
    - rewrite Ha in N3. eapply not_in_app_r, N3.
    - unfold R1, R3 in H2. rewrite <- app_assoc in H2.
      change ([NL] ++ v) with (NL :: v) in H2.
      destruct (@sep_unique NL _ _ _ _ N2 N4 H2) as [H24 _].
      vm_compute in H24. discriminate H24. }
  unfold R3 in Hr3. change (l4 ++ [NL]) with (l4 ++ NL :: []) in Hr3.
  destruct (@sep_split NL _ _ _ _ Hr3) as [(a2 & Ha & Hw)|(x5 & Hx5 & Hnil)].
  { (* inside the fourth line: it would hold the [#] of the first *)
    exfalso.
    destruct (Hprefix a2 []) as [H1 _]; [|exact Hw|].
    - rewrite Ha in N4. eapply not_in_app_r, N4.
    - assert (Hin : In 35%N l4).
      { rewrite Ha, <- H1. apply in_or_app. right. now left. }
      unfold l4, hosts_line4 in Hin. apply in_app_or in Hin as [Hin|Hin].
      + simpl in Hin. repeat (destruct Hin as [Hin|Hin]; [discriminate Hin|]).
        exact Hin.
      + revert Hin. now apply decimal_not_in. }
  symmetry in Hnil. apply app_eq_nil in Hnil as [_ Hw]. exact Hw.
Qed.

Lemma hosts_block_nonempty mode d : hosts_block mode d <> [].
Proof. unfold hosts_block, hosts_line1. discriminate. Qed.
(* ================================================================== *)
(** * C3: the Path Store *)
(* ================================================================== *)

Section PathStoreFacts.

Lemma select_upsert_same now k v t :
  select_value k (upsert now k v t) = Some v.
Proof.
  induction t as [|r t IH]; simpl.
  - now rewrite str_eqb_refl.
  - destruct (str_eqb (key r) k) eqn:Ek; simpl.
    + now rewrite str_eqb_refl.
    + now rewrite Ek.
Qed.





Lemma insert_desc_perm r l : Permutation (insert_desc r l) (r :: l).
Proof.
  induction l as [|x l IH]; simpl; [reflexivity|].
  destruct (updated_at x <=? updated_at r)%Z; [reflexivity|].
  rewrite IH. apply perm_swap.
Qed.


Lemma order_by_perm t : Permutation (order_by_updated_desc t) t.
Proof.
  induction t as [|r t IH]; simpl; [reflexivity|].
  rewrite insert_desc_perm. now constructor.
Qed.


End PathStoreFacts.

Lemma select_upsert_other now k k' v t :
  k <> k' -> select_value k (upsert now k' v t) = select_value k t.
Proof.
  intros Hne. induction t as [|r t IH]; simpl.
  - assert (str_eqb k' k = false) as -> by (apply str_eqb_neq; congruence).
    reflexivity.
  - destruct (str_eqb (key r) k') eqn:Ek; simpl.
    + apply str_eqb_eq in Ek. rewrite Ek.
      assert (str_eqb k' k = false) as -> by (apply str_eqb_neq; congruence).
      reflexivity.
    + now rewrite IH.
Qed.

(** ** [set] and [get] as functions of the world *)

Lemma PathStore_set_cases {E} (O : Oracle E) k v (w : World E) :
  PathStore_set O k v w
  = if encodable k && encodable v
    then (Ret tt, after_set O k v w)
    else (Raise (OtherError (lit "UnicodeEncodeError")), w).
Proof.
  unfold PathStore_set, after_set.
  destruct (encodable k && encodable v); [|reflexivity].
  unfold bind, ask.
  destruct (current_timestamp O (w_env w)) as [t e]. reflexivity.
Qed.

Lemma PathStore_set_run {E} (O : Oracle E) k v (w : World E) :
  encodable k = true -> encodable v = true ->
  PathStore_set O k v w = (Ret tt, after_set O k v w).
Proof. intros Hk Hv. now rewrite PathStore_set_cases, Hk, Hv. Qed.

Lemma PathStore_get_run {E} k (w : World E) :
  encodable k = true ->
  PathStore_get k w = (Ret (select_value k (w_db w)), w).
Proof. intros Hk. unfold PathStore_get. now rewrite Hk. Qed.

(** A [set] changes the table or nothing at all; the files stay. *)
Lemma PathStore_set_fs {E} (O : Oracle E) k v (w : World E) :
  w_fs (snd (PathStore_set O k v w)) = w_fs w.
Proof.
  rewrite PathStore_set_cases.
  destruct (encodable k && encodable v); reflexivity.
Qed.

Lemma PathStore_set_trace {E} (O : Oracle E) k v (w : World E) :
  w_trace (snd (PathStore_set O k v w)) = w_trace w.
Proof.
  rewrite PathStore_set_cases.
  destruct (encodable k && encodable v); reflexivity.
Qed.

Lemma PathStore_set_ret_inv {E} (O : Oracle E) k v (w w' : World E) u :
  PathStore_set O k v w = (Ret u, w') ->
  encodable k = true /\ encodable v = true /\ w' = after_set O k v w.
Proof.
  rewrite PathStore_set_cases.
  destruct (encodable k) eqn:Ek; destruct (encodable v) eqn:Ev;
    cbn [andb]; intros H; try discriminate.
  injection H as _ <-. now repeat split.
Qed.

(** ** The order of [all()] *)

Lemma insert_desc_newest r s :
  (forall x, In x s -> (updated_at x < updated_at r)%Z) ->
  insert_desc r s = r :: s.
Proof.
  intros H. destruct s as [|h s]; [reflexivity|]. cbn [insert_desc].
  assert (Hh : (updated_at h <=? updated_at r)%Z = true).
  { apply Z.leb_le. specialize (H h (or_introl eq_refl)). lia. }
  now rewrite Hh.
Qed.

Lemma order_by_newest r l1 : forall l2,
  (forall x, In x (l1 ++ l2) -> (updated_at x < updated_at r)%Z) ->
  order_by_updated_desc (l1 ++ r :: l2) = r :: order_by_updated_desc (l1 ++ l2).
Proof.
  induction l1 as [|x l1 IH]; intros l2 H.
  - cbn [app order_by_updated_desc fold_right].
    apply insert_desc_newest. intros x Hx. apply H. cbn [app].
    eapply Permutation_in; [apply order_by_perm | exact Hx].
  - cbn [app order_by_updated_desc fold_right].
    fold (order_by_updated_desc (l1 ++ r :: l2)).
    fold (order_by_updated_desc (l1 ++ l2)).
    rewrite IH by (intros y Hy; apply H; now right).
    cbn [insert_desc].
    assert (Hx : (updated_at r <=? updated_at x)%Z = false).
    { apply Z.leb_gt. apply H. now left. }
    now rewrite Hx.
Qed.

(** The rows around the row that [set] writes are rows of the old table,
    with other keys when the table respects its PRIMARY KEY. *)
Lemma upsert_split now k v t :
  exists l1 l2,
    upsert now k v t = l1 ++ {| key := k; value := v; updated_at := now |} :: l2
    /\ (forall x, In x (l1 ++ l2) -> In x t)
    /\ (NoDup (List.map key t) -> forall x, In x (l1 ++ l2) -> key x <> k).
Proof.
  induction t as [|r t (l1 & l2 & Hu & Hin & Hk)]; cbn [upsert].
  - exists [], []. split; [reflexivity|]. split; intros; contradiction.
  - destruct (str_eqb (key r) k) eqn:Ek.
    + exists [], t. split; [reflexivity|]. split; [intros x Hx; now right|].
      intros Hnd x Hx Hkx. cbn [List.map] in Hnd.
      apply NoDup_cons_iff in Hnd as [Hnin _]. apply Hnin.
      apply str_eqb_eq in Ek. rewrite Ek, <- Hkx. now apply in_map.
    + exists (r :: l1), l2. split; [now rewrite Hu|]. split.
      * intros x [Hx|Hx]; [now left | right; now apply Hin].
      * intros Hnd x [<-|Hx]; [now apply str_eqb_neq in Ek|].
        cbn [List.map] in Hnd. apply NoDup_cons_iff in Hnd as [_ Hnd].
        now apply Hk.
Qed.




(* ================================================================== *)
(** * The steps on files, as functions of the world *)
(* ================================================================== *)

Lemma write_text_run {E} p text (w : World E) :
  can_open_for_writing p (w_fs w) = true -> encodable text = true ->
  write_text p text w = (Ret tt, set_fs (fs_put p text (w_fs w)) w).
Proof. intros Hw He. unfold write_text. now rewrite Hw, He. Qed.

Lemma write_text_refused {E} p text (w : World E) :
  can_open_for_writing p (w_fs w) = false ->
  write_text p text w = (Raise (OtherError (lit "OSError")), w).
Proof. intros Hw. unfold write_text. now rewrite Hw. Qed.

Lemma write_text_ret_inv {E} p text (w w' : World E) u :
  write_text p text w = (Ret u, w') ->
  can_open_for_writing p (w_fs w) = true /\ encodable text = true
  /\ w' = set_fs (fs_put p text (w_fs w)) w.
Proof.
  unfold write_text.
  destruct (can_open_for_writing p (w_fs w)); [|discriminate].
  destruct (encodable text); [|discriminate].
  intros H. injection H as _ <-. now repeat split.
Qed.


Lemma write_bytes_ret_inv {E} p data (w w' : World E) u :
  write_bytes p data w = (Ret u, w') ->
  can_open_for_writing p (w_fs w) = true
  /\ w' = set_fs (fs_put p data (w_fs w)) w.
Proof.
  unfold write_bytes.
  destruct (can_open_for_writing p (w_fs w)); [|discriminate].
  intros H. injection H as _ <-. now split.
Qed.

Lemma mkdir_parents_run {E} p fs (w : World E) :
  mkdir_p p (w_fs w) = Some fs -> mkdir_parents p w = (Ret tt, set_fs fs w).
Proof. intros H. unfold mkdir_parents. now rewrite H. Qed.


Lemma mkdir_parents_ret_inv {E} p (w w' : World E) u :
  mkdir_parents p w = (Ret u, w') ->
  exists fs, mkdir_p p (w_fs w) = Some fs /\ w' = set_fs fs w.
Proof.
  unfold mkdir_parents. destruct (mkdir_p p (w_fs w)) as [fs|]; [|discriminate].
  intros H. injection H as _ <-. now exists fs.
Qed.

(** ** Text that UTF-8 can encode *)

Lemma encodable_app a b : encodable (a ++ b) = encodable a && encodable b.
Proof. apply forallb_app. Qed.

Lemma decimal_encodable d : forallb decimal_char d = true -> encodable d = true.
Proof.
  intros H. unfold encodable. rewrite forallb_forall in *. intros c Hc.
  specialize (H c Hc). unfold decimal_char, is_surrogate in *.
  apply negb_true_iff. apply andb_false_iff.
  apply orb_prop in H as [H|H].
  - apply andb_prop in H as [_ H]. apply N.leb_le in H.
    left. apply N.leb_gt. lia.
  - apply N.eqb_eq in H. subst c. now left.
Qed.

Lemma path_text_encodable p : path_text p = true -> encodable p = true.
Proof.
  unfold path_text. intros H.
  apply andb_true_iff in H as [H _]. now apply andb_true_iff in H as [H _].
Qed.
(* ================================================================== *)
(** * Characters kept by the text functions; newline translation *)
(* ================================================================== *)

Lemma split_char_incl d s : forall piece c,
  In piece (split_char d s) -> In c piece -> In c s.
Proof.
  induction s as [|x s IH]; intros piece c Hp Hc.
  - simpl in Hp. destruct Hp as [<-|[]]. destruct Hc.
  - cbn [split_char] in Hp. destruct (x =? d)%N.
    + destruct Hp as [<-|Hp]; [destruct Hc|]. right. eapply IH; eassumption.
    + destruct (split_char d s) as [|l ls] eqn:Es.
      * destruct Hp as [<-|[]]. destruct Hc as [<-|[]]. now left.
      * destruct Hp as [<-|Hp].
        -- destruct Hc as [<-|Hc]; [now left|]. right.
           apply (IH l c); [now left | exact Hc].
        -- right. apply (IH piece c); [now right | exact Hc].
Qed.

Lemma lstrip_incl s c : In c (lstrip s) -> In c s.
Proof.
  induction s as [|x s IH]; simpl; [easy|].
  destruct (is_space x); [intros H; right; now apply IH | easy].
Qed.

Lemma strip_incl s c : In c (strip s) -> In c s.
Proof.
  unfold strip, rstrip. intros H.
  apply in_rev, lstrip_incl in H. apply in_rev in H.
  now apply lstrip_incl.
Qed.

Lemma join_incl sep parts c :
  In c (join sep parts) -> In c sep \/ exists p, In p parts /\ In c p.
Proof.
  induction parts as [|p rest IH]; [easy|].
  destruct rest as [|q rest].
  - intros H. right. exists p. split; [now left | exact H].
  - change (join sep (p :: q :: rest)) with (p ++ sep ++ join sep (q :: rest)).
    intros H. apply in_app_or in H as [H|H].
    + right. exists p. split; [now left | exact H].
    + apply in_app_or in H as [H|H]; [now left|].
      destruct (IH H) as [Hs|(p' & Hp' & Hc)]; [now left|].
      right. exists p'. split; [now right | exact Hc].
Qed.

Lemma remove_margin_incl m l c : In c (remove_margin m l) -> In c l.
Proof.
  unfold remove_margin. destruct (startswith m l); [|easy].
  intros H. rewrite <- (firstn_skipn (length m) l). apply in_or_app. now right.
Qed.

Lemma dedent_lines_incl ls l c :
  In l (dedent_lines ls) -> In c l -> exists l0, In l0 ls /\ In c l0.
Proof.
  assert (Hblank : forall l,
    In l (List.map (fun l => if blank_line l then [] else l) ls) ->
    In c l -> exists l0, In l0 ls /\ In c l0).
  { intros l1 Hl Hc. apply in_map_iff in Hl as (l0 & <- & Hl0).
    exists l0. split; [exact Hl0|]. destruct (blank_line l0); [easy | exact Hc]. }
  unfold dedent_lines.
  destruct (margin_of None _) as [[|x m]|]; try (apply Hblank).
  intros Hl Hc. apply in_map_iff in Hl as (l1 & <- & Hl1).
  apply remove_margin_incl in Hc. now apply (Hblank l1).
Qed.

(** [dedent] brings in no character other than the line feed. *)
Lemma dedent_incl text c : c <> NL -> In c (dedent text) -> In c text.
Proof.
  intros Hc H. unfold dedent in H.
  apply join_incl in H as [[H|[]]|(l & Hl & Hin)]; [congruence|].
  destruct (dedent_lines_incl _ _ _ Hl Hin) as (l0 & Hl0 & Hin0).
  unfold split_nl in Hl0. eapply split_char_incl; eassumption.
Qed.

(** ** Reading in text mode *)

Lemma universal_newlines_id s : ~ In CR s -> universal_newlines s = s.
Proof.
  induction s as [|c t IH]; [reflexivity|].
  intros H. cbn [universal_newlines].
  destruct (N.eqb_spec c 13) as [->|_]; [exfalso; apply H; now left|].
  f_equal. apply IH. intros Hin. apply H. now right.
Qed.

Lemma universal_newlines_no_cr_len n : forall s,
  length s <= n -> ~ In CR (universal_newlines s).
Proof.
  induction n as [|n IH]; intros s Hlen.
  - destruct s; [easy | simpl in Hlen; lia].
  - destruct s as [|c t]; [easy|]. simpl in Hlen.
    cbn [universal_newlines]. destruct (N.eqb_spec c 13) as [->|Hc].
    + intros [H|H]; [discriminate|].
      destruct t as [|d t']; [easy|]. simpl in Hlen.
      destruct (d =? 10)%N; revert H; apply IH; simpl; lia.
    + intros [H|H]; [now apply Hc|]. revert H. apply IH. lia.
Qed.

Lemma universal_newlines_no_cr s : ~ In CR (universal_newlines s).
Proof. apply (@universal_newlines_no_cr_len (length s)). lia. Qed.

(** Text appended behind a line feed is read as it would be alone. *)
Lemma universal_newlines_app_len n : forall a b,
  length a <= n ->
  universal_newlines (a ++ NL :: b)
  = universal_newlines (a ++ [NL]) ++ universal_newlines b.
Proof.
  induction n as [|n IH]; intros a b Hlen.
  - destruct a; [reflexivity | simpl in Hlen; lia].
  - destruct a as [|c t]; [reflexivity|]. simpl in Hlen.
    cbn [app universal_newlines]. destruct (c =? 13)%N.
    + destruct t as [|d t'].
      * reflexivity.
      * simpl in Hlen. cbn [app]. destruct (d =? 10)%N.
        -- rewrite IH by lia. reflexivity.
        -- change (d :: t' ++ NL :: b) with ((d :: t') ++ NL :: b).
           change (d :: t' ++ [NL]) with ((d :: t') ++ [NL]).
           rewrite IH by (simpl; lia). reflexivity.
    + rewrite IH by lia. reflexivity.
Qed.

Lemma universal_newlines_app a b :
  universal_newlines (a ++ NL :: b)
  = universal_newlines (a ++ [NL]) ++ universal_newlines b.
Proof. apply (@universal_newlines_app_len (length a)). lia. Qed.

Ltac split_in H :=
  match type of H with
  | In _ (_ ++ _) => apply in_app_or in H; destruct H as [H|H]; split_in H
  | _ => idtac
  end.

(** The hosts block holds a carriage return only if the mode does. *)
Lemma hosts_snippet_no_cr mode index :
  ~ In CR mode -> ~ In CR (hosts_snippet mode index).
Proof.
  intros Hmode H. unfold hosts_snippet in H.
  apply in_app_or in H as [H|[H|[]]]; [|discriminate].
  apply strip_incl, dedent_incl in H; [|discriminate].
  destruct (str_of_Z_decimal index) as [Hd _].
  assert (Hdec : ~ In CR (str_of_Z index)).
  { apply decimal_not_in; [exact Hd | reflexivity]. }
  unfold hosts_template, interface_name_of, legacy_name_of in H.
  cbn [join] in H. split_in H;
    first [ now apply Hmode | now apply Hdec
          | vm_compute in H; intuition discriminate ].
Qed.
(* ================================================================== *)
(** * C5: [delete_vm] *)
(* ================================================================== *)

Lemma subprocess_run_after_exec {E} (O : Oracle E) command (w : World E) :
  subprocess_run O command w
  = (Ret (fst (after_exec O command w)), snd (after_exec O command w)).
Proof.
  unfold subprocess_run, after_exec.
  destruct (exec O command (w_fs w) (w_env w)) as [[p fs] e]. reflexivity.
Qed.

Lemma run_after_exec {E} (O : Oracle E) command (w : World E) :
  _run O command w
  = (let p := fst (after_exec O command w) in
     if (returncode p =? 0)%Z
     then Ret {| stdout := proc_stdout p; stderr := proc_stderr p |}
     else Raise (CommandError (run_error_message command p)),
     snd (after_exec O command w)).
Proof.
  unfold _run, bind. rewrite subprocess_run_after_exec. simpl.
  destruct (returncode (fst (after_exec O command w)) =? 0)%Z; reflexivity.
Qed.

Lemma after_exec_trace {E} (O : Oracle E) command (w : World E) :
  w_trace (snd (after_exec O command w)) = w_trace w ++ [command].
Proof.
  unfold after_exec.
  destruct (exec O command (w_fs w) (w_env w)) as [[p fs] e]. reflexivity.
Qed.

Lemma after_exec_db {E} (O : Oracle E) command (w : World E) :
  w_db (snd (after_exec O command w)) = w_db w.
Proof.
  unfold after_exec.
  destruct (exec O command (w_fs w) (w_env w)) as [[p fs] e]. reflexivity.
Qed.

Lemma after_exec_out {E} (O : Oracle E) command (w : World E) :
  w_out (snd (after_exec O command w)) = w_out w.
Proof.
  unfold after_exec.
  destruct (exec O command (w_fs w) (w_env w)) as [[p fs] e]. reflexivity.
Qed.

(** C5.  Whatever the run-state query and the stop command did, failures
    included, [delete_vm] goes on to run the undefine command, which is
    [virsh undefine <name> --nvram] followed by [--remove-all-storage]
    exactly when [remove_storage] is set; the call returns when that command
    exits with 0 and raises its [CommandError] otherwise. *)
Theorem C5_delete_vm_undefine :
  forall (E : Type) (O : Oracle E) (w : World E) (name : str)
         (remove_storage : bool),
    let cmd := undefine_command name remove_storage in
    In (lit "--nvram") cmd
    /\ (last cmd [] = lit "--remove-all-storage" <-> remove_storage = true)
    /\ exists (earlier : list (list str)) (w1 : World E),
         (earlier = [[lit "virsh"; lit "domstate"; name]]
          \/ earlier = [[lit "virsh"; lit "domstate"; name];
                        [lit "virsh"; lit "destroy"; name]])
         /\ w_trace w1 = w_trace w ++ earlier
         /\ delete_vm O name remove_storage w
            = (let p := fst (after_exec O cmd w1) in
               if (returncode p =? 0)%Z then Ret tt
               else Raise (CommandError (run_error_message cmd p)),
               snd (after_exec O cmd w1)).
Proof.
  intros E O w name rs cmd.
  split; [|split].
  - unfold cmd, undefine_command. simpl. right; right; right; now left.
  - unfold cmd, undefine_command. destruct rs; simpl; split;
      intros H; try reflexivity; try discriminate.
  - set (c1 := [lit "virsh"; lit "domstate"; name]).
    set (c2 := [lit "virsh"; lit "destroy"; name]).
    assert (Hfinal : forall w1,
      (_run O (if rs then [lit "virsh"; lit "undefine"; name; lit "--nvram"]
                          ++ [lit "--remove-all-storage"]
               else [lit "virsh"; lit "undefine"; name; lit "--nvram"]) w1)
      = (let p := fst (after_exec O cmd w1) in
         if (returncode p =? 0)%Z
         then Ret {| stdout := proc_stdout p; stderr := proc_stderr p |}
         else Raise (CommandError (run_error_message cmd p)),
         snd (after_exec O cmd w1))).
    { intros w1. rewrite run_after_exec.
      unfold cmd, undefine_command. destruct rs; reflexivity. }
    unfold delete_vm, bind, except_CommandError_pass. fold c1 c2.
    rewrite (run_after_exec O c1 w).
    set (p1 := fst (after_exec O c1 w)).
    set (wa := snd (after_exec O c1 w)).
    assert (Hwa : w_trace wa = w_trace w ++ [c1]) by apply after_exec_trace.
    cbv zeta.
    destruct (returncode p1 =? 0)%Z.
    + cbv beta iota. cbn [stdout].
      destruct (contains (lit "running") (lower (strip (proc_stdout p1)))).
      * rewrite (run_after_exec O c2 wa).
        set (p2 := fst (after_exec O c2 wa)).
        set (wb := snd (after_exec O c2 wa)).
        assert (Hwb : w_trace wb = w_trace w ++ [c1; c2]).
        { unfold wb. rewrite after_exec_trace, Hwa, <- app_assoc. reflexivity. }
        exists [c1; c2], wb. split; [now right|]. split; [exact Hwb|].
        cbv zeta.
        destruct (returncode p2 =? 0)%Z; cbv beta iota; unfold ret;
          rewrite Hfinal; cbv zeta;
          destruct (returncode (fst (after_exec O cmd wb)) =? 0)%Z; reflexivity.
      * exists [c1], wa. split; [now left|]. split; [exact Hwa|].
        unfold ret. rewrite Hfinal. cbv zeta.
        destruct (returncode (fst (after_exec O cmd wa)) =? 0)%Z; reflexivity.
    + exists [c1], wa. split; [now left|]. split; [exact Hwa|].
      unfold raise. rewrite Hfinal. cbv zeta.
      destruct (returncode (fst (after_exec O cmd wa)) =? 0)%Z; reflexivity.
Qed.

(** A running domain whose stop command fails: the failure is swallowed and
    the undefine goes ahead, with both flags. *)
Example delete_vm_swallows_stop_failure :
  let w := test_world [(completed 0 (lit " Running" ++ [NL]) [], []);
                       (completed 1 [] (lit "error: busy"), []);
                       (completed 0 [] [], [])] [] [] in
  let r := delete_vm test_oracle (lit "vm1") true w in
  fst r = Ret tt
  /\ w_trace (snd r)
     = [[lit "virsh"; lit "domstate"; lit "vm1"];
        [lit "virsh"; lit "destroy"; lit "vm1"];
        [lit "virsh"; lit "undefine"; lit "vm1"; lit "--nvram";
         lit "--remove-all-storage"]].
Proof. vm_compute. split; reflexivity. Qed.

(** An unknown domain: the state query fails and is swallowed, the failure
    of the undefine is raised. *)
Example delete_vm_raises_undefine_failure :
  let w := test_world [(completed 1 [] (lit "error: no domain"), []);
                       (completed 1 [] (lit "error: no domain" ++ [NL]), [])]
                      [] [] in
  let r := delete_vm test_oracle (lit "vm1") false w in
  fst r = Raise (CommandError
                   (lit "Comando fall" ++ [243%N]
                    ++ lit ": virsh undefine vm1 --nvram" ++ [NL]
                    ++ lit "error: no domain"))
  /\ w_trace (snd r)
     = [[lit "virsh"; lit "domstate"; lit "vm1"];
        [lit "virsh"; lit "undefine"; lit "vm1"; lit "--nvram"]].
Proof. vm_compute. split; reflexivity. Qed.
(* ================================================================== *)
(** * C4: [validate_vm_config] *)
(* ================================================================== *)

Lemma with_TemporaryDirectory_steps {E A} (O : Oracle E)
      (body : str -> M E A) (w : World E) :
  with_TemporaryDirectory O body w
  = (fst (body (tmpdir_of O w) (enter_tmpdir O w)),
     leave_tmpdir (tmpdir_of O w) (snd (body (tmpdir_of O w) (enter_tmpdir O w)))).
Proof.
  unfold with_TemporaryDirectory, enter_tmpdir, leave_tmpdir, tmpdir_of.
  destruct (mkdtemp O (w_env w)) as [tmp e]. cbn [fst snd].
  destruct (body tmp _) as [r w2]. reflexivity.
Qed.

Lemma with_TemporaryDirectory_result {E A} (O : Oracle E)
      (body : str -> M E A) (w : World E) r w2 :
  body (tmpdir_of O w) (enter_tmpdir O w) = (r, w2) ->
  with_TemporaryDirectory O body w = (r, leave_tmpdir (tmpdir_of O w) w2).
Proof. intros H. now rewrite with_TemporaryDirectory_steps, H. Qed.


Lemma validate_vm_config_run {E} (O : Oracle E) name (w : World E) :
  let dump := validate_dump O name w in
  let p := fst (validator_run O name w) in
  returncode (fst dump) = 0%Z ->
  can_open_for_writing (validate_xml_path O name w) (w_fs (snd dump)) = true ->
  encodable (proc_stdout (fst dump)) = true ->
  validate_vm_config O name w
  = (Ret (if (returncode p =? 0)%Z then []
          else stripped_lines (proc_stderr p) ++ stripped_lines (proc_stdout p)),
     leave_tmpdir (tmpdir_of O w) (snd (validator_run O name w))).
Proof.
  intros dump p Hdump Hopen Henc. subst dump. unfold validate_vm_config.
  unfold bind at 1.
  erewrite with_TemporaryDirectory_result.
  2:{ unfold bind at 1.
      change [lit "virsh"; lit "dumpxml"; name] with (dumpxml_command name).
      rewrite run_after_exec. fold (validate_dump O name w). cbv zeta.
      rewrite Hdump. change (0 =? 0)%Z with true. cbv iota beta.
      unfold bind at 1. cbn [stdout].
      change (path_join (tmpdir_of O w) (name ++ lit ".xml"))
        with (validate_xml_path O name w).
      rewrite write_text_run by assumption.
      rewrite subprocess_run_after_exec.
      change [lit "virsh"; lit "domxml-validate"; validate_xml_path O name w]
        with (validator_command O name w).
      fold (validator_run O name w). reflexivity. }
  subst p. cbv beta iota.
  destruct (returncode (fst (validator_run O name w)) =? 0)%Z; unfold ret.
  - reflexivity.
  - now rewrite stripped_lines_app_newline.
Qed.

(** C4 (amended).  Let the dump succeed, for a name that makes the path
    of the temporary file a path text.  When the text of the dump can be
    written to that file (nothing but a file is at that path, its
    directory is there, UTF-8 can encode the text), [validate_vm_config]
    returns
    without raising: the empty list when the validator exits with 0;
    otherwise every non-blank line of stderr, then every non-blank line of
    stdout, each stripped, in their order.  The list is therefore also empty
    when the validator fails and prints nothing but blank lines.  When the
    file cannot be opened (as for a name with a slash, whose directory is
    not there), the call raises OSError and the validator is not run.  The
    temporary directory is removed afterwards in both cases. *)
Theorem C4_validate_diagnostics :
  forall (E : Type) (O : Oracle E) (w : World E) (name : str),
    let dump := validate_dump O name w in
    let xml_path := validate_xml_path O name w in
    let p := fst (validator_run O name w) in
    returncode (fst dump) = 0%Z ->
    path_text xml_path = true ->
    (can_open_for_writing xml_path (w_fs (snd dump)) = true ->
     encodable (proc_stdout (fst dump)) = true ->
     exists issues,
       validate_vm_config O name w
       = (Ret issues, leave_tmpdir (tmpdir_of O w) (snd (validator_run O name w)))
       /\ (returncode p = 0%Z -> issues = [])
       /\ (returncode p <> 0%Z ->
           issues = stripped_lines (proc_stderr p) ++ stripped_lines (proc_stdout p))
       /\ (issues = []
           <-> returncode p = 0%Z
               \/ forall line,
                    In line (splitlines (proc_stderr p) ++ splitlines (proc_stdout p)) ->
                    strip line = []))
    /\ (can_open_for_writing xml_path (w_fs (snd dump)) = false ->
        validate_vm_config O name w
        = (Raise (OtherError (lit "OSError")),
           leave_tmpdir (tmpdir_of O w) (snd dump))).
Proof.
  intros E O w name dump xml_path p Hdump _. split.
  - intros Hopen Henc.
    eexists. split; [apply validate_vm_config_run; assumption|].
    fold p. destruct (returncode p =? 0)%Z eqn:Erc.
    + apply Z.eqb_eq in Erc. repeat split; try congruence. intros _. now left.
    + apply Z.eqb_neq in Erc. repeat split; try congruence.
      * intros H. right. apply app_eq_nil in H as [H1 H2].
        intros line Hin. apply in_app_or in Hin as [Hin|Hin].
        -- exact (proj1 (stripped_lines_nil_iff _) H1 _ Hin).
        -- exact (proj1 (stripped_lines_nil_iff _) H2 _ Hin).
      * intros [H|H]; [contradiction|].
        assert (H1 : stripped_lines (proc_stderr p) = []).
        { apply stripped_lines_nil_iff. intros l Hl. apply H, in_or_app. now left. }
        assert (H2 : stripped_lines (proc_stdout p) = []).
        { apply stripped_lines_nil_iff. intros l Hl. apply H, in_or_app. now right. }
        now rewrite H1, H2.
  - intros Hclosed. unfold validate_vm_config. unfold bind at 1.
    erewrite with_TemporaryDirectory_result.
    2:{ unfold bind at 1.
        change [lit "virsh"; lit "dumpxml"; name] with (dumpxml_command name).
        rewrite run_after_exec. fold (validate_dump O name w). fold dump. cbv zeta.
        rewrite Hdump. change (0 =? 0)%Z with true. cbv iota beta.
        unfold bind at 1. cbn [stdout].
        change (path_join (tmpdir_of O w) (name ++ lit ".xml")) with xml_path.
        rewrite write_text_refused by exact Hclosed. reflexivity. }
    reflexivity.
Qed.

(** The validator fails with two lines on stderr and one on stdout. *)
Lemma C4_validate_diagnostics_witness :
  let w := test_world
             [(completed 0 (lit "<domain/>") [], []);
              (completed 1 (lit "  see log" ++ [NL])
                           (lit "error: bad element" ++ [NL; NL]
                            ++ lit " at line 3"), [])] [] [] in
  fst (validate_vm_config test_oracle (lit "vm1") w)
  = Ret [lit "error: bad element"; lit "at line 3"; lit "see log"]
  /\ w_fs (snd (validate_vm_config test_oracle (lit "vm1") w)) = [].
Proof.
  intros w.
  destruct (C4_validate_diagnostics test_oracle w (lit "vm1") eq_refl eq_refl)
    as [Hgood _].
  destruct (Hgood eq_refl eq_refl) as (issues & Hrun & _ & Hne & _).
  rewrite Hrun. cbn [fst snd]. split.
  - rewrite Hne by discriminate. reflexivity.
  - reflexivity.
Defined.

(** A name with a slash: the directory of the temporary file is not
    there. *)
Example validate_name_with_slash :
  let w := test_world [(completed 0 (lit "<domain/>") [], [])] [] [] in
  let r := validate_vm_config test_oracle (lit "a/b") w in
  fst r = Raise (OtherError (lit "OSError"))
  /\ w_trace (snd r) = [dumpxml_command (lit "a/b")].
Proof. vm_compute. split; reflexivity. Qed.

(** The claim as worded fails: a validator that exits with 1 and prints
    nothing gives the empty list. *)
Lemma C4_counterexample : ~ C4_as_stated.
Proof.
  intros H.
  destruct (H TestEnv test_oracle
              (test_world [(completed 0 (lit "<domain/>") [], []);
                           (completed 1 [] [], [])] [] [])
              (lit "vm1") eq_refl) as (issues & w' & Hrun & Hiff & _).
  vm_compute in Hrun. injection Hrun as <- _.
  destruct Hiff as [Hiff _]. specialize (Hiff eq_refl).
  vm_compute in Hiff. discriminate.
Qed.
(* ================================================================== *)
(** * C7: defaults of [list_vms] and [os_details] *)
(* ================================================================== *)

Lemma dict_get_set_same k v d : dict_get k (dict_set k v d) = Some v.
Proof.
  induction d as [|[k' v'] d IH]; simpl.
  - now rewrite str_eqb_refl.
  - destruct (str_eqb k' k) eqn:Ek; simpl; now rewrite Ek.
Qed.

Lemma dict_get_set_other k k' v d :
  k <> k' -> dict_get k (dict_set k' v d) = dict_get k d.
Proof.
  intros Hne. induction d as [|[k0 v0] d IH]; simpl.
  - assert (str_eqb k' k = false) as -> by (apply str_eqb_neq; congruence).
    reflexivity.
  - destruct (str_eqb k0 k') eqn:Ek; simpl.
    + apply str_eqb_eq in Ek. subst k0.
      assert (str_eqb k' k = false) as -> by (apply str_eqb_neq; congruence).
      reflexivity.
    + now rewrite IH.
Qed.

Lemma for_each_elements {E A B} (f : A -> M E B) xs :
  forall w ys w',
    for_each f xs w = (Ret ys, w') ->
    Forall2 (fun x y => exists w0 w1, f x w0 = (Ret y, w1)) xs ys.
Proof.
  induction xs as [|x xs IH]; simpl; intros w ys w' H.
  - unfold ret in H. injection H as <- _. constructor.
  - unfold bind in H.
    destruct (f x w) as [[y|e] w1] eqn:Ef; [|discriminate].
    destruct (for_each f xs w1) as [[ys'|e] w2] eqn:Er; [|discriminate].
    unfold ret in H. injection H as <- _.
    constructor; [now exists w, w1 | eapply IH; eassumption].
Qed.

Lemma vm_summary_run {E} (O : Oracle E) name (w : World E) :
  let p := fst (after_exec O (dominfo_command name) w) in
  returncode p = 0%Z ->
  vm_summary O name w
  = (Ret {| vm_name := name;
            vm_state := dict_get_default (lit "State") desconocido
                          (detail_mapping (proc_stdout p));
            vm_os_type := dict_get_default (lit "OS Type") desconocido
                            (detail_mapping (proc_stdout p)) |},
     snd (after_exec O (dominfo_command name) w)).
Proof.
  intros p Hrc. unfold vm_summary, bind.
  change [lit "virsh"; lit "dominfo"; name] with (dominfo_command name).
  rewrite run_after_exec. fold p. cbv zeta. rewrite Hrc.
  change (0 =? 0)%Z with true. cbv iota beta. reflexivity.
Qed.

Lemma vm_summary_name {E} (O : Oracle E) name (w w' : World E) vm :
  vm_summary O name w = (Ret vm, w') -> vm_name vm = name.
Proof.
  unfold vm_summary, bind.
  destruct (_run O [lit "virsh"; lit "dominfo"; name] w) as [[r|e] w1];
    [|discriminate].
  unfold ret. intros H. injection H as <- _. reflexivity.
Qed.

Lemma scan_type_no_tag lines :
  forallb (fun l => negb (is_type_line l)) (List.map strip lines) = true ->
  scan_type lines = Some (desconocido, desconocido).
Proof.
  induction lines as [|l lines IH]; simpl; intros H; [reflexivity|].
  apply andb_prop in H as [H1 H2].
  apply negb_true_iff in H1. rewrite H1. now apply IH.
Qed.

Lemma scan_type_first_tag lines l :
  find is_type_line (List.map strip lines) = Some l ->
  exists tail,
    after (lit ">") l = Some tail
    /\ scan_type lines
       = Some (before (lit "</type>") tail,
               match after (lit "arch=" ++ [DQ]) l with
               | Some a => before [DQ] a
               | None => desconocido
               end).
Proof.
  induction lines as [|x lines IH]; simpl; intros H; [discriminate|].
  destruct (is_type_line (strip x)) eqn:Et.
  - injection H as <-.
    assert (Hc : contains (lit ">") (strip x) = true).
    { unfold is_type_line in Et. apply andb_prop in Et as [_ Et].
      apply (contains_suffix_of_needle (lit "</type") (lit ">")). exact Et. }
    destruct (after_some _ _ Hc) as [tail Htail].
    exists tail. split; [exact Htail|]. now rewrite Htail.
  - now apply IH.
Qed.

(** [os_details] never stops on the IndexError of [split(">", 1)[1]]. *)
Lemma scan_type_total lines : scan_type lines <> None.
Proof.
  destruct (find is_type_line (List.map strip lines)) as [l|] eqn:Ef.
  - destruct (scan_type_first_tag _ Ef) as (tail & _ & ->). discriminate.
  - rewrite scan_type_no_tag; [discriminate|].
    induction lines as [|x lines IH]; simpl in *; [reflexivity|].
    destruct (is_type_line (strip x)); [discriminate|]. simpl. now apply IH.
Qed.

Lemma os_details_run {E} (O : Oracle E) name (w : World E) :
  let p1 := fst (after_exec O (dominfo_command name) w) in
  let wa := snd (after_exec O (dominfo_command name) w) in
  let p2 := fst (after_exec O (dumpxml_command name) wa) in
  let wb := snd (after_exec O (dumpxml_command name) wa) in
  returncode p1 = 0%Z -> returncode p2 = 0%Z ->
  exists os_type arch,
    scan_type (splitlines (proc_stdout p2)) = Some (os_type, arch)
    /\ os_details O name w
       = (Ret (dict_set (lit "Architecture") arch
                 (dict_set (lit "Guest OS") os_type
                    (parse_info (splitlines (proc_stdout p1))
                                [(lit "name", name)]))), wb).
Proof.
  intros p1 wa p2 wb H1 H2.
  destruct (scan_type (splitlines (proc_stdout p2))) as [[os_type arch]|] eqn:Es;
    [|now apply scan_type_total in Es].
  exists os_type, arch. split; [reflexivity|].
  unfold os_details, bind.
  change [lit "virsh"; lit "dominfo"; name] with (dominfo_command name).
  change [lit "virsh"; lit "dumpxml"; name] with (dumpxml_command name).
  rewrite run_after_exec. fold p1 wa. cbv zeta. rewrite H1.
  rewrite run_after_exec. fold p2 wb. cbv zeta. rewrite H2.
  change (0 =? 0)%Z with true. cbv iota beta.
  cbn [stdout]. rewrite Es. reflexivity.
Qed.

(** C7 (amended).  When the detail mapping lacks "OS Type" or "State", the
    summary field of [list_vms] is the text [desconocido]; every record
    [list_vms] returns is made that way.  In [os_details], when no line of
    the raw configuration is a guest-type tag, the guest OS and the
    architecture are both [desconocido]; when the first such tag has no
    arch attribute, the architecture is [desconocido] and the guest OS is
    the text the tag encloses. *)
Theorem C7_defaults_are_desconocido :
  forall (E : Type) (O : Oracle E) (w : World E) (name : str),
    let p := fst (after_exec O (dominfo_command name) w) in
    let wa := snd (after_exec O (dominfo_command name) w) in
    let d := detail_mapping (proc_stdout p) in
    returncode p = 0%Z ->
    (exists vm,
        vm_summary O name w = (Ret vm, wa)
        /\ vm_name vm = name
        /\ (dict_get (lit "OS Type") d = None -> vm_os_type vm = lit "desconocido")
        /\ (dict_get (lit "State") d = None -> vm_state vm = lit "desconocido"))
    /\ (forall vms w',
           list_vms O w = (Ret vms, w') ->
           Forall (fun vm => exists w0 w1,
                       vm_summary O (vm_name vm) w0 = (Ret vm, w1)) vms)
    /\ (let p2 := fst (after_exec O (dumpxml_command name) wa) in
        let wb := snd (after_exec O (dumpxml_command name) wa) in
        let lines := List.map strip (splitlines (proc_stdout p2)) in
        returncode p2 = 0%Z ->
        exists info,
          os_details O name w = (Ret info, wb)
          /\ (forallb (fun l => negb (is_type_line l)) lines = true ->
              dict_get (lit "Guest OS") info = Some (lit "desconocido")
              /\ dict_get (lit "Architecture") info = Some (lit "desconocido"))
          /\ (forall l,
                 find is_type_line lines = Some l ->
                 contains (lit "arch=" ++ [DQ]) l = false ->
                 dict_get (lit "Architecture") info = Some (lit "desconocido")
                 /\ exists tail,
                      after (lit ">") l = Some tail
                      /\ dict_get (lit "Guest OS") info
                         = Some (before (lit "</type>") tail))).
Proof.
  intros E O w name p wa d Hrc.
  split; [|split].
  - eexists. split; [apply vm_summary_run; exact Hrc|].
    cbn [vm_name vm_os_type vm_state]. fold p. fold d.
    split; [reflexivity|].
    unfold dict_get_default.
    split; intros ->; reflexivity.
  - intros vms w' H. unfold list_vms, bind in H.
    destruct (_run O [lit "virsh"; lit "list"; lit "--all"; lit "--name"] w)
      as [[r|e] w1]; [|discriminate].
    apply for_each_elements in H.
    induction H as [|x vm xs vms (w0 & w1' & Hx) _ IH]; constructor.
    + exists w0, w1'. now rewrite (vm_summary_name _ _ _ Hx).
    + exact IH.
  - intros p2 wb lines Hrc2.
    destruct (os_details_run O name w Hrc Hrc2) as (os_type & arch & Hs & Hrun).
    fold p wa in Hs, Hrun. fold p2 wb in Hs, Hrun.
    eexists. split; [exact Hrun|].
    assert (Hne : lit "Guest OS" <> lit "Architecture") by discriminate.
    split.
    + intros Hno. apply scan_type_no_tag in Hno.
      rewrite Hno in Hs. injection Hs as <- <-.
      rewrite dict_get_set_same.
      rewrite dict_get_set_other by exact Hne.
      rewrite dict_get_set_same. split; reflexivity.
    + intros l Hfind Harch.
      destruct (scan_type_first_tag _ Hfind) as (tail & Htail & Hscan).
      rewrite Hscan in Hs. rewrite (after_none _ _ Harch) in Hs.
      injection Hs as <- <-.
      rewrite dict_get_set_same. split; [reflexivity|].
      exists tail. split; [exact Htail|].
      rewrite dict_get_set_other by exact Hne.
      now rewrite dict_get_set_same.
Qed.

(** A domain whose [dominfo] names neither key and whose configuration has
    a guest-type tag without architecture. *)
Lemma C7_defaults_are_desconocido_witness :
  let w := test_world
             [(completed 0 (lit "Id: 7") [], []);
              (completed 0 (lit "<os>" ++ [NL]
                            ++ lit "  <type machine='pc'>hvm</type>" ++ [NL]
                            ++ lit "</os>") [], [])] [] [] in
  fst (vm_summary test_oracle (lit "vm1") w)
  = Ret {| vm_name := lit "vm1"; vm_state := lit "desconocido";
           vm_os_type := lit "desconocido" |}
  /\ exists info,
       fst (os_details test_oracle (lit "vm1") w) = Ret info
       /\ dict_get (lit "Architecture") info = Some (lit "desconocido")
       /\ dict_get (lit "Guest OS") info = Some (lit "hvm").
Proof.
  intros w.
  destruct (C7_defaults_are_desconocido test_oracle w (lit "vm1") eq_refl)
    as ((vm & Hvm & Hname & Hos & Hstate) & _ & Hdetails).
  destruct (Hdetails eq_refl) as (info & Hinfo & _ & Htag).
  split.
  - rewrite Hvm. simpl. destruct vm as [n s o]. simpl in *.
    rewrite Hname, (Hos eq_refl), (Hstate eq_refl). reflexivity.
  - exists info. rewrite Hinfo. split; [reflexivity|].
    destruct (Htag (lit "<type machine='pc'>hvm</type>") eq_refl eq_refl)
      as (Ha & tail & Htail & Hg).
    split; [exact Ha|]. rewrite Hg.
    vm_compute in Htail. injection Htail as <-. reflexivity.
Defined.

(** The claim as worded fails: the word the program writes is
    [desconocido], not [unknown]. *)
Lemma C7_counterexample : ~ C7_as_stated.
Proof.
  intros H.
  specialize (H TestEnv test_oracle
                (test_world [(completed 0 (lit "Id: 7") [], [])] [] [])
                (lit "vm1") eq_refl).
  destruct H as ((vm & Hvm & Hos & _) & _).
  vm_compute in Hvm. injection Hvm as <-.
  specialize (Hos eq_refl). vm_compute in Hos. discriminate.
Qed.
(* ================================================================== *)
(** * C8: static mode without address or gateway *)
(* ================================================================== *)

(** C8.  For a distro other than [debian] (the netplan family), a mode
    other than [dhcp] (static) and a configuration directory named by a
    path text, when [ip_cidr] or [gateway] is missing and the directory
    can be made (no file is in its way), the call raises the [CommandError]: the directory has been made before the
    check and remains; apart from the directories made for it no entry is
    new and none has changed, the Path Store and the list of executed
    commands stay as they were.  When the directory cannot be made, the
    call raises OSError before the check, and nothing changes. *)
Theorem C8_static_requires_address :
  forall (E : Type) (O : Oracle E) (w : World E) (distro mode : str)
         (index : Z) (ip_cidr gateway dns : option str)
         (hosts_path netplan_dir : str),
    distro <> lit "debian" ->
    mode <> lit "dhcp" ->
    falsy ip_cidr || falsy gateway = true ->
    path_text netplan_dir = true ->
    let call := add_network_compat O distro mode index ip_cidr gateway dns
                                   hosts_path netplan_dir in
    (forall fs1,
        mkdir_p netplan_dir (w_fs w) = Some fs1 ->
        exists w',
          call w = (Raise (CommandError static_message), w')
          /\ w_fs w' = fs1
          /\ is_dir netplan_dir (w_fs w') = true
          /\ (forall p, fs_read p (w_fs w') = fs_read p (w_fs w))
          /\ (forall p, fs_lookup p (w_fs w') = fs_lookup p (w_fs w)
                        \/ (fs_lookup p (w_fs w) = None
                            /\ fs_lookup p (w_fs w') = Some Dir))
          /\ w_db w' = w_db w
          /\ w_trace w' = w_trace w)
    /\ (mkdir_p netplan_dir (w_fs w) = None ->
        exists w',
          call w = (Raise (OtherError (lit "OSError")), w')
          /\ w_fs w' = w_fs w /\ w_db w' = w_db w /\ w_trace w' = w_trace w).
Proof.
  intros E O w distro mode index ip_cidr gateway dns hosts_path netplan_dir
         Hdistro Hmode Hmissing _ call.
  assert (Hcall :
    call w
    = match mkdir_p netplan_dir (w_fs w) with
      | Some fs1 => (Raise (CommandError static_message),
                     set_fs fs1 (set_env (snd (token_hex O (w_env w))) w))
      | None => (Raise (OtherError (lit "OSError")),
                 set_env (snd (token_hex O (w_env w))) w)
      end).
  { unfold call, add_network_compat.
    apply str_eqb_neq in Hdistro. rewrite Hdistro.
    apply str_eqb_neq in Hmode. rewrite Hmode. rewrite Hmissing.
    unfold bind at 1. unfold ask.
    destruct (token_hex O (w_env w)) as [tok e]. cbn [snd].
    unfold bind at 1. unfold mkdir_parents. cbn [w_fs set_env].
    destruct (mkdir_p netplan_dir (w_fs w)); reflexivity. }
  rewrite Hcall. clear Hcall.
  split.
  - intros fs1 Hmk. rewrite Hmk.
    eexists. split; [reflexivity|]. cbn [w_fs w_db w_trace set_fs set_env].
    split; [reflexivity|].
    split; [eapply mkdir_p_is_dir; eassumption|].
    split; [intros p; eapply fs_read_mkdir_p; eassumption|].
    split; [intros p; eapply mkdir_p_lookup; eassumption|].
    now split.
  - intros Hmk. rewrite Hmk. eexists. split; [reflexivity|].
    cbn [w_fs w_db w_trace set_env]. now repeat split.
Qed.

(** Static mode with an address but no gateway, on a system without
    [/etc/netplan]. *)
Lemma C8_static_requires_address_witness :
  let w := test_world [] [(lit "/etc", Dir); (lit "/etc/hosts", File (lit "x"))] [] in
  let r := add_network_compat test_oracle (lit "ubuntu") (lit "static") 3
             (Some (lit "192.168.122.50/24")) None None
             (lit "/etc/hosts") (lit "/etc/netplan") w in
  fst r = Raise (CommandError static_message)
  /\ w_fs (snd r) = [(lit "/etc", Dir); (lit "/etc/hosts", File (lit "x"));
                     (lit "/etc/netplan", Dir)]
  /\ w_db (snd r) = [].
Proof.
  intros w r.
  destruct (@C8_static_requires_address TestEnv test_oracle w
              (lit "ubuntu") (lit "static") 3
              (Some (lit "192.168.122.50/24")) None None
              (lit "/etc/hosts") (lit "/etc/netplan"))
    as [Hmade _];
    [discriminate | discriminate | reflexivity | reflexivity |].
  destruct (Hmade [(lit "/etc", Dir); (lit "/etc/hosts", File (lit "x"));
                   (lit "/etc/netplan", Dir)])
    as (w' & Hrun & Hfs & _ & _ & _ & Hdb & _); [vm_compute; reflexivity|].
  unfold r. rewrite Hrun. cbn [fst snd].
  split; [reflexivity|]. split; [exact Hfs | exact Hdb].
Defined.

(** A regular file where the configuration directory should be: the
    error is that of [mkdir], not the [CommandError]. *)
Example static_with_a_file_in_the_way :
  let w := test_world [] [(lit "/etc", Dir); (lit "/etc/netplan", File (lit "x"))] [] in
  let r := add_network_compat test_oracle (lit "ubuntu") (lit "static") 3
             None None None (lit "/etc/hosts") (lit "/etc/netplan") w in
  fst r = Raise (OtherError (lit "OSError")) /\ w_fs (snd r) = w_fs w.
Proof. vm_compute. split; reflexivity. Qed.

(* ================================================================== *)
(** * C9: DHCP mode writes no name servers *)
(* ================================================================== *)

Lemma netplan_dhcp_document_encodable d :
  forallb decimal_char d = true -> encodable (netplan_dhcp_document d) = true.
Proof.
  intros Hd. apply decimal_encodable in Hd.
  unfold netplan_dhcp_document. rewrite !encodable_app, Hd. reflexivity.
Qed.

(** C9.  For a distro other than [debian] in mode [dhcp] and a
    configuration directory named by a path text: whenever the call
    returns, it returns the path of the file it has written, whose content
    is the DHCP document of the interface number alone, in which the word
    [nameservers] does not occur; whatever [dns] (and [ip_cidr], [gateway])
    is given, the call does the same.  The call does return when the
    configuration directory can be made, the file can be opened there and
    its path can be stored. *)
Theorem C9_dhcp_ignores_dns :
  forall (E : Type) (O : Oracle E) (w : World E) (distro : str) (index : Z)
         (ip_cidr gateway dns : option str) (hosts_path netplan_dir : str),
    distro <> lit "debian" ->
    path_text netplan_dir = true ->
    let call := add_network_compat O distro (lit "dhcp") index ip_cidr gateway
                                   dns hosts_path netplan_dir in
    let out := path_join netplan_dir
                 (lit "99-vmcompat-" ++ fst (token_hex O (w_env w)) ++ lit ".yaml") in
    let document := netplan_dhcp_document (str_of_Z index) in
    contains (lit "nameservers") document = false
    /\ (forall p w',
          call w = (Ret p, w') ->
          p = out
          /\ fs_read out (w_fs w') = Some document
          /\ select_value (lit "last_netplan_file") (w_db w') = Some out)
    /\ (forall ip_cidr' gateway' dns',
          add_network_compat O distro (lit "dhcp") index ip_cidr' gateway' dns'
                             hosts_path netplan_dir w
          = call w)
    /\ (forall fs1,
          mkdir_p netplan_dir (w_fs w) = Some fs1 ->
          can_open_for_writing out fs1 = true ->
          path_text out = true ->
          exists w',
            call w = (Ret out, w') /\ w_fs w' = fs_put out document fs1).
Proof.
  intros E O w distro index ip_cidr gateway dns hosts_path netplan_dir
         Hdistro _ call out document.
  destruct (str_of_Z_decimal index) as [Hd Hne].
  split; [now apply netplan_dhcp_document_no_nameservers|].
  assert (Hcall : forall ip_cidr' gateway' dns',
    add_network_compat O distro (lit "dhcp") index ip_cidr' gateway' dns'
                       hosts_path netplan_dir w
    = match mkdir_p netplan_dir (w_fs w) with
      | None => (Raise (OtherError (lit "OSError")),
                 set_env (snd (token_hex O (w_env w))) w)
      | Some fs1 =>
          let w1 := set_fs fs1 (set_env (snd (token_hex O (w_env w))) w) in
          if can_open_for_writing out fs1
          then match PathStore_set O (lit "last_netplan_file") out
                                   (set_fs (fs_put out document fs1) w1) with
               | (Ret _, w') => (Ret out, w')
               | (Raise e, w') => (Raise e, w')
               end
          else (Raise (OtherError (lit "OSError")), w1)
      end).
  { intros ip' gw' dns'. unfold add_network_compat.
    apply str_eqb_neq in Hdistro. rewrite Hdistro.
    change (str_eqb (lit "dhcp") (lit "dhcp")) with true. cbv iota.
    unfold bind at 1. unfold ask. unfold out.
    destruct (token_hex O (w_env w)) as [tok e]. cbn [fst snd].
    unfold bind at 1. unfold mkdir_parents. cbn [w_fs set_env].
    destruct (mkdir_p netplan_dir (w_fs w)) as [fs1|]; [|reflexivity].
    unfold bind at 1. unfold ret at 1. cbv zeta.
    unfold bind at 1. unfold write_text. cbn [w_fs set_fs].
    rewrite netplan_content_dhcp. fold document.
    destruct (can_open_for_writing _ fs1); [|reflexivity].
    unfold document. rewrite netplan_dhcp_document_encodable by exact Hd.
    fold document. unfold bind, ret.
    destruct (PathStore_set O _ _ _) as [[u|e'] w']; reflexivity. }
  split; [|split].
  - intros p w' Hrun. unfold call in Hrun. rewrite Hcall in Hrun.
    destruct (mkdir_p netplan_dir (w_fs w)) as [fs1|]; [|discriminate].
    cbv zeta in Hrun.
    destruct (can_open_for_writing out fs1); [|discriminate].
    destruct (PathStore_set O _ _ _) as [[u|e'] w2] eqn:Hset; [|discriminate].
    injection Hrun as <- <-.
    apply PathStore_set_ret_inv in Hset as (_ & _ & ->).
    unfold after_set. cbn [w_fs w_db set_db set_env set_fs].
    split; [reflexivity|].
    split; [apply fs_read_put_same | apply select_upsert_same].
  - intros ip' gw' dns'. unfold call. now rewrite !Hcall.
  - intros fs1 Hmk Hopen Henc. apply path_text_encodable in Henc.
    unfold call. rewrite Hcall, Hmk. cbv zeta.
    rewrite Hopen, PathStore_set_run by (try exact Henc; reflexivity).
    eexists. split; reflexivity.
Qed.

(** DHCP mode with two name servers given. *)
Lemma C9_dhcp_ignores_dns_witness :
  let w := test_world [] [(lit "/etc", Dir)] [] in
  let r := add_network_compat test_oracle (lit "ubuntu") (lit "dhcp") 3
             None None (Some (lit "8.8.8.8,1.1.1.1"))
             (lit "/etc/hosts") (lit "/etc/netplan") w in
  fst r = Ret (lit "/etc/netplan/99-vmcompat-a1b2c3.yaml")
  /\ fs_read (lit "/etc/netplan/99-vmcompat-a1b2c3.yaml") (w_fs (snd r))
     = Some (netplan_dhcp_document (lit "3")).
Proof.
  intros w r.
  destruct (@C9_dhcp_ignores_dns TestEnv test_oracle w (lit "ubuntu") 3
              None None (Some (lit "8.8.8.8,1.1.1.1"))
              (lit "/etc/hosts") (lit "/etc/netplan"))
    as (_ & Hwritten & _ & _); [discriminate | reflexivity |].
  destruct r as [res w'] eqn:Hr. unfold r in Hr.
  assert (Hres : res = Ret (lit "/etc/netplan/99-vmcompat-a1b2c3.yaml")).
  { vm_compute in Hr. now injection Hr as <- _. }
  subst res. cbn [fst snd]. split; [reflexivity|].
  exact (proj1 (proj2 (Hwritten _ _ Hr))).
Defined.
(* ================================================================== *)
(** * C6: the hosts block is written once *)
(* ================================================================== *)

Lemma contains_app_r (n a : str) : contains n (a ++ n) = true.
Proof. apply contains_spec. exists a, []. now rewrite app_nil_r. Qed.

Lemma contains_incl (n h : str) c : contains n h = true -> In c n -> In c h.
Proof.
  intros H Hc. apply contains_spec in H as (a & b & ->).
  apply in_or_app. right. apply in_or_app. now left.
Qed.

Lemma hosts_snippet_nonempty mode index : hosts_snippet mode index <> [].
Proof.
  unfold hosts_snippet. intros Es. apply app_eq_nil in Es as [_ Es]. discriminate.
Qed.

(** The outcomes of the hosts branch. *)
Lemma hosts_call_cases {E} (O : Oracle E) (w : World E) mode index
      ip_cidr gateway dns hosts_path netplan_dir :
  let block := hosts_snippet mode index in
  let old := hosts_text hosts_path w in
  add_network_compat O (lit "debian") mode index ip_cidr gateway dns
                     hosts_path netplan_dir w
  = match fs_lookup hosts_path (w_fs w) with
    | Some Dir => (Raise (OtherError (lit "OSError")), w)
    | _ =>
        if contains block (universal_newlines old) then (Ret hosts_path, w)
        else if can_open_for_writing hosts_path (w_fs w)
        then if encodable block
             then let w1 := set_fs (fs_put hosts_path (old ++ NL :: block)
                                           (w_fs w)) w in
                  if encodable hosts_path
                  then (Ret hosts_path,
                        after_set O (lit "last_hosts_update") hosts_path w1)
                  else (Raise (OtherError (lit "UnicodeEncodeError")), w1)
             else (Raise (OtherError (lit "UnicodeEncodeError")),
                   set_fs (fs_put hosts_path old (w_fs w)) w)
        else (Raise (OtherError (lit "OSError")), w)
    end.
Proof.
  intros block old.
  assert (Hnil : contains block [] = false).
  { pose proof (@hosts_snippet_nonempty mode index) as Hne. fold block in Hne.
    destruct block; [congruence | reflexivity]. }
  assert (Hwrite :
    (append_file hosts_path ([NL] ++ block);;;
     PathStore_set O (lit "last_hosts_update") hosts_path;;;
     ret hosts_path) w
    = if can_open_for_writing hosts_path (w_fs w)
      then if encodable block
           then let w1 := set_fs (fs_put hosts_path (old ++ NL :: block)
                                         (w_fs w)) w in
                if encodable hosts_path
                then (Ret hosts_path,
                      after_set O (lit "last_hosts_update") hosts_path w1)
                else (Raise (OtherError (lit "UnicodeEncodeError")), w1)
           else (Raise (OtherError (lit "UnicodeEncodeError")),
                 set_fs (fs_put hosts_path old (w_fs w)) w)
      else (Raise (OtherError (lit "OSError")), w)).
  { unfold bind at 1. unfold append_file. fold (hosts_text hosts_path w). fold old.
    destruct (can_open_for_writing hosts_path (w_fs w)); [|reflexivity].
    change (encodable ([NL] ++ block)) with (encodable block).
    destruct (encodable block); [|reflexivity].
    cbv zeta. unfold bind. rewrite PathStore_set_cases.
    change (encodable (lit "last_hosts_update")) with true. cbn [andb].
    destruct (encodable hosts_path); reflexivity. }
  unfold add_network_compat.
  change (str_eqb (lit "debian") (lit "debian")) with true. cbv iota.
  fold block. unfold bind at 1, get_fs. cbv beta iota.
  unfold old, hosts_text, fs_read in *.
  destruct (fs_lookup hosts_path (w_fs w)) as [[text|]|] eqn:El.
  - destruct (contains block (universal_newlines text)); [reflexivity|].
    exact Hwrite.
  - reflexivity.
  - change (universal_newlines []) with (@nil char). rewrite Hnil. exact Hwrite.
Qed.

(** C6 (amended).  When a call for the hosts family, on a hosts file named
    by a path text, returns, it returns the hosts path.  If the file as
    read (carriage returns become line feeds) held the block, nothing has
    changed; if not, the block has been appended behind a line feed, and
    for a mode without line feed the file then holds the block once more
    than the old text followed by a line feed did: exactly once, unless
    the old text ended with the block less its final line feed.  For a
    mode without carriage return the file as read now holds the block, and
    a second call with the same arguments finds it, changes nothing at all
    and returns the same path.  A mode with a carriage return (and no line
    feed) is never found in what is read: every call appends. *)
Theorem C6_hosts_block_idempotent :
  forall (E : Type) (O : Oracle E) (w w1 : World E) (mode : str) (index : Z)
         (ip_cidr gateway dns : option str) (hosts_path netplan_dir p : str),
    let call := add_network_compat O (lit "debian") mode index ip_cidr gateway
                                   dns hosts_path netplan_dir in
    let block := hosts_snippet mode index in
    let seen := fun w0 : World E =>
                  universal_newlines (hosts_text hosts_path w0) in
    path_text hosts_path = true ->
    call w = (Ret p, w1) ->
    p = hosts_path
    /\ (contains block (seen w) = true -> w1 = w)
    /\ (contains block (seen w) = false ->
        hosts_text hosts_path w1 = hosts_text hosts_path w ++ NL :: block
        /\ (has_newline mode = false ->
            occurrences block (hosts_text hosts_path w1)
            = occurrences block (hosts_text hosts_path w ++ [NL]) + 1))
    /\ (has_carriage_return mode = false ->
        contains block (seen w1) = true
        /\ call w1 = (Ret hosts_path, w1))
    /\ (has_carriage_return mode = true -> has_newline mode = false ->
        contains block (seen w) = false
        /\ contains block (seen w1) = false).
Proof.
  intros E O w w1 mode index ip_cidr gateway dns hosts_path netplan_dir p
         call block seen _ Hcall.
  pose proof (hosts_call_cases O w mode index ip_cidr gateway dns hosts_path
                               netplan_dir) as Hfirst.
  pose proof (hosts_call_cases O w1 mode index ip_cidr gateway dns hosts_path
                               netplan_dir) as Hsecond.
  cbv zeta in Hfirst, Hsecond.
  fold call block in Hfirst, Hsecond.
  fold (seen w) in Hfirst. fold (seen w1) in Hsecond.
  assert (Hmain : p = hosts_path
                  /\ fs_lookup hosts_path (w_fs w1) <> Some Dir
                  /\ (contains block (seen w) = true -> w1 = w)
                  /\ (contains block (seen w) = false ->
                      hosts_text hosts_path w1
                      = hosts_text hosts_path w ++ NL :: block)).
  { rewrite Hfirst in Hcall.
    assert (Hdir : fs_lookup hosts_path (w_fs w) <> Some Dir).
    { intros Hd. rewrite Hd in Hcall. discriminate. }
    assert (Hrest :
      (if contains block (seen w) then (Ret hosts_path, w)
       else if can_open_for_writing hosts_path (w_fs w)
       then if encodable block
            then if encodable hosts_path
                 then (Ret hosts_path,
                       after_set O (lit "last_hosts_update") hosts_path
                         (set_fs (fs_put hosts_path
                                    (hosts_text hosts_path w ++ NL :: block)
                                    (w_fs w)) w))
                 else (Raise (OtherError (lit "UnicodeEncodeError")),
                       set_fs (fs_put hosts_path
                                 (hosts_text hosts_path w ++ NL :: block)
                                 (w_fs w)) w)
            else (Raise (OtherError (lit "UnicodeEncodeError")),
                  set_fs (fs_put hosts_path (hosts_text hosts_path w)
                                 (w_fs w)) w)
       else (Raise (OtherError (lit "OSError")), w))
      = (Ret p, w1)).
    { destruct (fs_lookup hosts_path (w_fs w)) as [[text|]|];
        [exact Hcall | congruence | exact Hcall]. }
    clear Hcall. destruct (contains block (seen w)) eqn:Ec.
    - injection Hrest as <- <-. repeat split; congruence.
    - destruct (can_open_for_writing hosts_path (w_fs w)); [|discriminate].
      destruct (encodable block); [|discriminate].
      destruct (encodable hosts_path); [|discriminate].
      injection Hrest as <- <-.
      split; [reflexivity|]. split; [|split; [congruence|]].
      + unfold after_set. cbn [w_fs set_db set_env set_fs].
        rewrite fs_lookup_put_same. discriminate.
      + intros _. unfold hosts_text at 1, after_set.
        cbn [w_fs set_db set_env set_fs]. now rewrite fs_read_put_same. }
  destruct Hmain as (Hp & Hdir & Hsame & Htext).
  split; [exact Hp|]. split; [exact Hsame|]. split; [|split].
  - intros Hc. split; [now apply Htext|].
    intros Hmode. rewrite (Htext Hc).
    change (NL :: block) with ([NL] ++ block). rewrite app_assoc.
    unfold block. rewrite hosts_snippet_block by exact Hmode.
    destruct (str_of_Z_decimal index) as [Hd _].
    apply occurrences_app_border_free.
    + apply hosts_block_nonempty.
    + now apply hosts_block_border_free.
  - intros Hcr.
    assert (Hblock : universal_newlines block = block).
    { apply universal_newlines_id, hosts_snippet_no_cr.
      intros Hin. unfold has_carriage_return in Hcr.
      assert (Hex : existsb (N.eqb CR) mode = true)
        by (apply existsb_exists; exists CR; split;
            [exact Hin | apply N.eqb_refl]).
      congruence. }
    assert (Hin : contains block (seen w1) = true).
    { destruct (contains block (seen w)) eqn:Ec.
      - now rewrite (Hsame eq_refl).
      - unfold seen. rewrite (Htext eq_refl).
        rewrite universal_newlines_app, Hblock. apply contains_app_r. }
    split; [exact Hin|].
    rewrite Hsecond, Hin.
    destruct (fs_lookup hosts_path (w_fs w1)) as [[text|]|]; congruence.
  - intros Hcr Hmode.
    assert (Hblock : In CR block).
    { unfold block. rewrite hosts_snippet_block by exact Hmode.
      unfold has_carriage_return in Hcr.
      apply existsb_exists in Hcr as (c & Hc & Ec). apply N.eqb_eq in Ec.
      subst c. unfold hosts_block, hosts_line1.
      apply in_or_app. left. apply in_or_app. right.
      apply in_or_app. left. exact Hc. }
    assert (Hnever : forall text, contains block (universal_newlines text) = false).
    { intros text.
      destruct (contains block (universal_newlines text)) eqn:Ec; [|reflexivity].
      exfalso. apply (@universal_newlines_no_cr text).
      eapply contains_incl; eassumption. }
    split; apply Hnever.
Qed.

(** A hosts file without the block: the first call appends it, the second
    finds it. *)
Lemma C6_hosts_block_idempotent_witness :
  let w := test_world [] [(lit "/etc/hosts",
                           File (lit "127.0.0.1 localhost" ++ [NL]))] [] in
  let call := add_network_compat test_oracle (lit "debian") (lit "dhcp") 3
                None None None (lit "/etc/hosts") (lit "/etc/netplan") in
  let w1 := snd (call w) in
  call w1 = (Ret (lit "/etc/hosts"), w1)
  /\ occurrences (hosts_snippet (lit "dhcp") 3) (hosts_text (lit "/etc/hosts") w1) = 1
  /\ hosts_text (lit "/etc/hosts") w1
     = lit "127.0.0.1 localhost" ++ [NL; NL] ++ hosts_block (lit "dhcp") (lit "3").
Proof.
  intros w call w1.
  assert (Hfirst : call w = (Ret (lit "/etc/hosts"), w1))
    by (vm_compute; reflexivity).
  destruct (@C6_hosts_block_idempotent TestEnv test_oracle w w1 (lit "dhcp") 3
              None None None (lit "/etc/hosts") (lit "/etc/netplan")
              (lit "/etc/hosts") eq_refl Hfirst)
    as (_ & _ & Happended & Hsecond & _).
  split; [exact (proj2 (Hsecond eq_refl))|]. split.
  - rewrite (proj2 (Happended eq_refl) eq_refl). reflexivity.
  - vm_compute. reflexivity.
Defined.

(** A mode with a carriage return: the block is appended by the second
    call as well. *)
Example hosts_mode_with_carriage_return :
  let w := test_world [] [(lit "/etc/hosts", File (lit "x" ++ [NL]))] [] in
  let call := add_network_compat test_oracle (lit "debian") [CR] 3
                None None None (lit "/etc/hosts") (lit "/etc/netplan") in
  let block := hosts_snippet [CR] 3 in
  hosts_text (lit "/etc/hosts") (snd (call w)) = lit "x" ++ [NL; NL] ++ block
  /\ hosts_text (lit "/etc/hosts") (snd (call (snd (call w))))
     = lit "x" ++ [NL; NL] ++ block ++ [NL] ++ block.
Proof. vm_compute. split; reflexivity. Qed.

(** The claim as worded fails: a hosts file that ends with the block less
    its final line feed does not "contain" the block, so the block is
    appended, and the file then holds it twice. *)
Lemma C6_counterexample : ~ C6_as_stated.
Proof.
  intros H.
  set (old := hosts_line1 (lit "dhcp") ++ NL :: hosts_line2 (lit "3")
              ++ NL :: hosts_line3 (lit "3") ++ NL :: hosts_line4 (lit "3")).
  set (w := test_world [] [(lit "/etc/hosts", File old)] []).
  set (call := add_network_compat test_oracle (lit "debian") (lit "dhcp") 3
                 None None None (lit "/etc/hosts") (lit "/etc/netplan")).
  destruct (H TestEnv test_oracle w (snd (call w)) (lit "dhcp") 3%Z
              None None None (lit "/etc/hosts") (lit "/etc/netplan")
              (lit "/etc/hosts")) as [_ Hcount].
  - vm_compute. reflexivity.
  - vm_compute. reflexivity.
  - vm_compute in Hcount. discriminate Hcount.
Qed.
(* ================================================================== *)
(** * C10: conversions without a path *)
(* ================================================================== *)

Lemma resolve_with_saved_pure {E} (given : option str) k hint (w : World E) :
  encodable k = true ->
  resolve_with_saved given k hint w = (resolved given k hint (w_db w), w).
Proof.
  intros Hk. unfold resolve_with_saved, resolved.
  destruct (falsy given); simpl; [|reflexivity].
  unfold bind. rewrite PathStore_get_run by exact Hk.
  destruct (falsy (select_value k (w_db w))); reflexivity.
Qed.

Lemma resolved_missing given k hint db :
  falsy given = true -> falsy (select_value k db) = true ->
  resolved given k hint db = Raise (CommandError (no_saved_message hint)).
Proof. intros Hg Hs. unfold resolved. now rewrite Hg, Hs. Qed.

Lemma resolved_hint_irrelevant given k hint hint' db :
  match resolved given k hint db, resolved given k hint' db with
  | Ret a, Ret b => a = b
  | Raise _, Raise _ => True
  | _, _ => False
  end.
Proof.
  unfold resolved. destruct (falsy given); simpl; [|reflexivity].
  destruct (falsy (select_value k db)); [exact I | reflexivity].
Qed.

Lemma dispatch_path_missing {E} (O : Oracle E) args (w : World E) :
  conversion_path_missing args w ->
  dispatch O args w
  = (Raise (CommandError (no_saved_message (missing_hint args (w_db w)))), w).
Proof.
  destruct args as [| | | |ova out|qcow2 out name| |]; simpl; try contradiction.
  - intros H. unfold bind. rewrite resolve_with_saved_pure by reflexivity.
    pose proof (resolved_hint_irrelevant ova (lit "last_ova_input")
                  (lit "entrada OVA") [] (w_db w)) as Hh.
    destruct (resolved ova (lit "last_ova_input") (lit "entrada OVA") (w_db w))
      as [p|e] eqn:Ep;
      destruct (resolved ova (lit "last_ova_input") [] (w_db w)) as [p'|e'];
      try contradiction.
    + rewrite resolve_with_saved_pure by reflexivity.
      destruct H as [[Hg Hs]|[Hg Hs]].
      * rewrite (@resolved_missing _ _ _ _ Hg Hs) in Ep. discriminate.
      * now rewrite (@resolved_missing _ _ _ _ Hg Hs).
    + unfold resolved in Ep. destruct (negb (falsy ova)); [discriminate|].
      destruct (falsy (select_value (lit "last_ova_input") (w_db w)));
        [|discriminate].
      now injection Ep as <-.
  - intros H. unfold bind. rewrite resolve_with_saved_pure by reflexivity.
    pose proof (resolved_hint_irrelevant qcow2 (lit "last_qcow2_input")
                  (lit "entrada QCOW2") [] (w_db w)) as Hh.
    destruct (resolved qcow2 (lit "last_qcow2_input") (lit "entrada QCOW2") (w_db w))
      as [p|e] eqn:Ep;
      destruct (resolved qcow2 (lit "last_qcow2_input") [] (w_db w)) as [p'|e'];
      try contradiction.
    + rewrite resolve_with_saved_pure by reflexivity.
      destruct H as [[Hg Hs]|[Hg Hs]].
      * rewrite (@resolved_missing _ _ _ _ Hg Hs) in Ep. discriminate.
      * now rewrite (@resolved_missing _ _ _ _ Hg Hs).
    + unfold resolved in Ep. destruct (negb (falsy qcow2)); [discriminate|].
      destruct (falsy (select_value (lit "last_qcow2_input") (w_db w)));
        [|discriminate].
      now injection Ep as <-.
Qed.

(** ** Opening the store *)

Lemma set_fs_same {E} (w : World E) : set_fs (w_fs w) w = w.
Proof. now destruct w. Qed.

Lemma PathStore_init_cases {E} (O : Oracle E) (w : World E) :
  PathStore_init O w
  = match mkdir_p (APP_DIR O) (w_fs w) with
    | None => (Raise (OtherError (lit "OSError")), w)
    | Some fs1 =>
        match fs_lookup (DB_PATH O) fs1 with
        | Some Dir => (Raise (OtherError (lit "OperationalError")), set_fs fs1 w)
        | Some (File content) =>
            if is_database content then (Ret tt, set_fs fs1 w)
            else (Raise (OtherError (lit "DatabaseError")), set_fs fs1 w)
        | None => (Ret tt, set_db [] (set_fs (fs_put (DB_PATH O) [] fs1) w))
        end
    end.
Proof.
  unfold PathStore_init, bind, mkdir_parents.
  destruct (mkdir_p (APP_DIR O) (w_fs w)) as [fs1|]; [|reflexivity].
  cbn [w_fs set_fs].
  destruct (fs_lookup (DB_PATH O) fs1) as [[content|]|]; reflexivity.
Qed.

(** What opening the store leaves alone when it returns: the executed
    commands and every file but the database; nothing changes at all when
    the directory and the database are already there. *)
Lemma PathStore_init_ret_inv {E} (O : Oracle E) (w w0 : World E) u :
  PathStore_init O w = (Ret u, w0) ->
  w_trace w0 = w_trace w
  /\ w_out w0 = w_out w
  /\ is_dir (APP_DIR O) (w_fs w0) = true
  /\ fs_read (DB_PATH O) (w_fs w0) = Some []
  /\ (forall p, p <> DB_PATH O -> fs_read p (w_fs w0) = fs_read p (w_fs w))
  /\ (forall p, In p (List.map fst (w_fs w)) -> In p (List.map fst (w_fs w0)))
  /\ (fs_lookup (DB_PATH O) (w_fs w) <> None -> w_db w0 = w_db w)
  /\ (fs_lookup (DB_PATH O) (w_fs w) = None -> w_db w0 = [])
  /\ (is_dir (APP_DIR O) (w_fs w) = true ->
      fs_lookup (DB_PATH O) (w_fs w) <> None -> w0 = w).
Proof.
  rewrite PathStore_init_cases.
  destruct (mkdir_p (APP_DIR O) (w_fs w)) as [fs1|] eqn:Emk; [|discriminate].
  assert (Hdir : is_dir (APP_DIR O) fs1 = true)
    by (eapply mkdir_p_is_dir; exact Emk).
  assert (Hdb : fs_lookup (DB_PATH O) fs1 = fs_lookup (DB_PATH O) (w_fs w)
                \/ (fs_lookup (DB_PATH O) (w_fs w) = None
                    /\ fs_lookup (DB_PATH O) fs1 = Some Dir))
    by (eapply mkdir_p_lookup; exact Emk).
  destruct (fs_lookup (DB_PATH O) fs1) as [[content|]|] eqn:El; try discriminate.
  - unfold is_database. destruct content as [|c content]; [|discriminate].
    intros H. injection H as _ <-. cbn [w_trace w_out w_fs w_db set_fs].
    split; [reflexivity|]. split; [reflexivity|]. split; [exact Hdir|].
    split; [unfold fs_read; now rewrite El|].
    split; [intros p _; eapply fs_read_mkdir_p; eassumption|].
    split; [intros p; eapply mkdir_p_keeps; eassumption|].
    split; [reflexivity|].
    split; [intros Hn; destruct Hdb as [Hdb|[Hdb Hd]]; congruence|].
    intros Hd _. rewrite mkdir_p_noop in Emk by exact Hd. injection Emk as <-.
    apply set_fs_same.
  - intros H. injection H as _ <-. cbn [w_trace w_out w_fs w_db set_fs set_db].
    split; [reflexivity|]. split; [reflexivity|].
    split.
    { unfold is_dir in *. apply orb_prop in Hdir as [Hdir|Hdir];
        [now rewrite Hdir|].
      destruct (fs_lookup (APP_DIR O) fs1) as [[x|]|] eqn:Ea; try discriminate.
      rewrite fs_lookup_put_other, Ea; [apply orb_true_r|].
      intros Heq. rewrite Heq in Ea. congruence. }
    split; [apply fs_read_put_same|].
    split.
    { intros p Hp. rewrite fs_read_put_other by exact Hp.
      eapply fs_read_mkdir_p; eassumption. }
    split.
    { intros p Hp. apply fs_put_keeps. eapply mkdir_p_keeps; eassumption. }
    split; [intros Hn; destruct Hdb as [Hdb|[Hdb Hd]]; congruence|].
    split; [reflexivity|].
    intros _ Hn. destruct Hdb as [Hdb|[Hdb Hd]]; congruence.
Qed.

(** C10 (amended).  For [ova-to-qcow2] and [qcow2-to-ova], when one of the
    two paths is left out and the store has nothing under its key, the
    command proper (the [try] block of [main]) ends with exit status 1
    after printing the error: no external tool has been run, no file or
    directory has been touched, the store is as it was.  [main] opens the
    store before: when that returns, [main] ends with status 1 in the same
    way, having run no tool and changed no file but the database of the
    store, which it creates, with its directory, on a first run; nothing
    at all has changed when the directory and the database were there.
    When the store cannot be opened, [main] ends with the exception of
    the opening. *)
Theorem C10_missing_path_fails_early :
  forall (E : Type) (O : Oracle E) (w : World E) (args : Args),
    let line := fun w0 : World E =>
      lit "ERROR: " ++ no_saved_message (missing_hint args (w_db w0)) in
    (conversion_path_missing args w ->
     run_command O args w = (Ret 1%Z, printed (line w) w)
     /\ w_trace (printed (line w) w) = w_trace w
     /\ w_fs (printed (line w) w) = w_fs w
     /\ w_db (printed (line w) w) = w_db w)
    /\ (forall w0,
          PathStore_init O w = (Ret tt, w0) ->
          conversion_path_missing args w0 ->
          main O args w = (Ret 1%Z, printed (line w0) w0)
          /\ w_trace w0 = w_trace w
          /\ (forall p, p <> DB_PATH O ->
                        fs_read p (w_fs w0) = fs_read p (w_fs w))
          /\ (is_dir (APP_DIR O) (w_fs w) = true ->
              fs_lookup (DB_PATH O) (w_fs w) <> None -> w0 = w))
    /\ (forall e w0,
          PathStore_init O w = (Raise e, w0) -> main O args w = (Raise e, w0)).
Proof.
  intros E O w args line. split; [|split].
  - intros Hmiss. repeat split.
    unfold run_command. rewrite (dispatch_path_missing O args w Hmiss).
    reflexivity.
  - intros w0 Hinit Hmiss.
    destruct (@PathStore_init_ret_inv _ O w w0 tt Hinit)
      as (Htrace & _ & _ & _ & Hfiles & _ & _ & _ & Hsame).
    split; [|split; [exact Htrace | split; [exact Hfiles | exact Hsame]]].
    unfold main, bind. rewrite Hinit. unfold run_command.
    rewrite (dispatch_path_missing O args w0 Hmiss). reflexivity.
  - intros e w0 Hinit. unfold main, bind. now rewrite Hinit.
Qed.

(** [ova-to-qcow2] without arguments, the store being there and empty. *)
Lemma C10_missing_path_fails_early_witness :
  let w := test_world []
             [(lit "/home/user", Dir); (lit "/home/user/.local", Dir);
              (lit "/home/user/.local/share", Dir);
              (lit "/home/user/.local/share/vm_manager", Dir);
              (lit "/home/user/.local/share/vm_manager/paths.db", File [])]
             [] in
  let r := main test_oracle (ArgsOvaToQcow2 None None) w in
  fst r = Ret 1%Z
  /\ w_trace (snd r) = []
  /\ w_fs (snd r) = w_fs w
  /\ w_out (snd r)
     = [lit "ERROR: No se indic" ++ [243%N]
        ++ lit " ruta y no hay valor guardado para entrada OVA"].
Proof.
  intros w r.
  destruct (@C10_missing_path_fails_early TestEnv test_oracle w
              (ArgsOvaToQcow2 None None))
    as (_ & Hmain & _).
  destruct (Hmain w) as (Hrun & _).
  { vm_compute. reflexivity. }
  { left. split; reflexivity. }
  unfold r. rewrite Hrun. cbn [fst snd]. repeat split.
Defined.

(** The claim as worded fails on a first run: [main] makes the directory
    of the store and its database before it looks for the paths. *)
Lemma C10_counterexample : ~ C10_as_stated.
Proof.
  intros H.
  destruct (H TestEnv test_oracle (test_world [] [] [])
              (ArgsOvaToQcow2 None None)) as (w' & Hrun & _ & Hfs).
  { left. split; reflexivity. }
  vm_compute in Hrun. injection Hrun as <-. vm_compute in Hfs. discriminate.
Qed.
(* ================================================================== *)
(** * C2: [ova_to_qcow2] *)
(* ================================================================== *)


Lemma glob_suffix_nil rank dir suffix fs :
  glob_suffix rank dir suffix fs = [] ->
  forall n, In n (listdir dir fs) -> endswith suffix n = false.
Proof.
  unfold glob_suffix. intros H n Hin.
  apply scan_order_nil in H.
  destruct (endswith suffix n) eqn:Ee; [|reflexivity].
  assert (Hf : In n (filter (fun n => endswith suffix n) (listdir dir fs)))
    by (apply filter_In; now split).
  apply (in_map (path_join dir)) in Hf. rewrite H in Hf. destruct Hf.
Qed.

Lemma glob_suffix_in rank dir suffix fs p :
  In p (glob_suffix rank dir suffix fs) ->
  exists n, p = path_join dir n /\ In n (listdir dir fs)
            /\ endswith suffix n = true.
Proof.
  unfold glob_suffix. intros H. apply scan_order_in in H.
  apply in_map_iff in H as (n & <- & Hn).
  apply filter_In in Hn as [Hin He]. now exists n.
Qed.






Example ova_without_disk :
  let fs := [(lit "/tmp", Dir); (lit "/in.ova", File (lit "ova-without-disk"))] in
  let r := ova_to_qcow2 test_oracle (lit "/in.ova") (lit "/out/d.qcow2")
                        (test_world [] fs []) in
  fst r = Raise (CommandError no_disk_message)
  /\ w_trace (snd r) = []
  /\ w_fs (snd r) = fs.
Proof. vm_compute. repeat split. Qed.

(** A regular file where the directory of the output should be: the
    error is that of [mkdir], and the converter is not run. *)
Example ova_output_below_a_file :
  let fs := [(lit "/in.ova", File (lit "ova-with-disk"));
             (lit "/out", File (lit "x"))] in
  let r := ova_to_qcow2 test_oracle (lit "/in.ova") (lit "/out/d.qcow2")
                        (test_world [(completed 0 [] [], [])] fs []) in
  fst r = Raise (OtherError (lit "OSError"))
  /\ w_trace (snd r) = []
  /\ w_db (snd r) = [].
Proof. vm_compute. repeat split. Qed.

(** An archive with a member [<name>.vmdk] at its top level: a VMDK disk is
    found, and the disk that is picked ends in [.vmdk]. *)
Lemma extracted_vmdk_is_picked rank tmp members fs name data :
  snd (extractall tmp members fs) = true ->
  In (name, data) members ->
  contains [SLASH] name = false ->
  endswith (lit ".vmdk") name = true ->
  exists n,
    first_match rank tmp (fst (extractall tmp members fs))
    = Some (path_join tmp n)
    /\ In n (listdir tmp (fst (extractall tmp members fs)))
    /\ endswith (lit ".vmdk") n = true.
Proof.
  intros Hok Hin Hslash Hend.
  assert (Hne : name <> []) by (intros ->; discriminate Hend).
  pose proof (@extractall_adds tmp members fs (name, data) Hok Hin) as Hfs.
  cbn [fst] in Hfs.
  pose proof (@listdir_lists tmp name _ Hfs Hne Hslash) as Hlist.
  unfold first_match.
  destruct (glob_suffix rank tmp (lit ".vmdk") (fst (extractall tmp members fs)))
    as [|v rest] eqn:Eg.
  - pose proof (@glob_suffix_nil _ _ _ _ Eg name Hlist). congruence.
  - assert (Hv : In v (glob_suffix rank tmp (lit ".vmdk")
                                   (fst (extractall tmp members fs))))
      by (rewrite Eg; now left).
    apply glob_suffix_in in Hv as (n & -> & Hn & He).
    now exists n.
Qed.
(* ================================================================== *)
(** * C1: [qcow2_to_ova] *)
(* ================================================================== *)

Lemma bind_ret_inv {E A B} (c : M E A) (k : A -> M E B) (w w' : World E) b :
  bind c k w = (Ret b, w') ->
  exists a w1, c w = (Ret a, w1) /\ k a w1 = (Ret b, w').
Proof.
  unfold bind. destruct (c w) as [[a|e] w1]; [|discriminate].
  intros H. now exists a, w1.
Qed.

Lemma with_TemporaryDirectory_ret_inv {E A} (O : Oracle E)
      (body : str -> M E A) (w w' : World E) a :
  with_TemporaryDirectory O body w = (Ret a, w') ->
  exists w2, body (tmpdir_of O w) (enter_tmpdir O w) = (Ret a, w2)
             /\ w' = leave_tmpdir (tmpdir_of O w) w2.
Proof.
  rewrite with_TemporaryDirectory_steps.
  destruct (body (tmpdir_of O w) (enter_tmpdir O w)) as [r w2].
  cbn [fst snd]. intros H. injection H as -> <-. now exists w2.
Qed.

Lemma run_ret_inv {E} (O : Oracle E) command (w w1 : World E) r :
  _run O command w = (Ret r, w1) ->
  returncode (fst (after_exec O command w)) = 0%Z
  /\ r = {| stdout := proc_stdout (fst (after_exec O command w));
            stderr := proc_stderr (fst (after_exec O command w)) |}
  /\ w1 = snd (after_exec O command w).
Proof.
  rewrite run_after_exec. cbv zeta.
  destruct (returncode (fst (after_exec O command w)) =? 0)%Z eqn:Erc;
    [|discriminate].
  apply Z.eqb_eq in Erc. intros H. injection H as <- <-. now repeat split.
Qed.

Lemma modify_fs_ret_inv {E} (f : FS -> FS) (w w1 : World E) u :
  modify_fs f w = (Ret u, w1) -> w1 = set_fs (f (w_fs w)) w.
Proof. unfold modify_fs. intros H. now injection H as _ <-. Qed.

Lemma read_file_ret_inv {E} p (w w1 : World E) d :
  read_file p w = (Ret d, w1) -> fs_read p (w_fs w) = Some d /\ w1 = w.
Proof.
  unfold read_file. destruct (fs_read p (w_fs w)); [|discriminate].
  intros H. injection H as <- <-. now split.
Qed.

Lemma path_join_cons a c :
  exists pre, forall t, path_join a (c :: t) = pre ++ c :: t.
Proof.
  unfold path_join. destruct (c =? SLASH)%N; [now exists []|].
  destruct (str_eqb a (lit ".")); [now exists []|].
  destruct (endswith [SLASH] a); [now exists a|].
  exists (a ++ [SLASH]). intros t. now rewrite <- app_assoc.
Qed.

(** The two working files have different paths. *)
Lemma vmdk_ovf_paths_differ tmp name :
  path_join tmp (name ++ lit ".vmdk") <> path_join tmp (name ++ lit ".ovf").
Proof.
  intros H. destruct name as [|c name]; cbn [app] in H.
  - destruct (path_join_cons tmp 46%N) as [pre Hpre].
    change (lit ".vmdk") with (46%N :: lit "vmdk") in H.
    change (lit ".ovf") with (46%N :: lit "ovf") in H.
    rewrite !Hpre in H. apply app_inv_head in H. discriminate.
  - destruct (path_join_cons tmp c) as [pre Hpre].
    rewrite !Hpre in H. apply app_inv_head in H. injection H as H.
    apply app_inv_head in H. discriminate.
Qed.

Lemma fields_get_absent k default fields :
  Forall (fun kv => fst kv <> k) fields -> fields_get k default fields = default.
Proof.
  intros H. revert default. induction H as [|[k' v] fields Hk _ IH];
    intros default; simpl; [reflexivity|].
  simpl in Hk. apply str_eqb_neq in Hk. rewrite Hk. apply IH.
Qed.

Lemma ask_ret_inv {E A} (f : E -> A * E) (w w1 : World E) a :
  ask f w = (Ret a, w1) ->
  a = fst (f (w_env w)) /\ w1 = set_env (snd (f (w_env w))) w.
Proof.
  unfold ask. destruct (f (w_env w)) as [a' e]. intros H.
  injection H as <- <-. now split.
Qed.

Lemma tar_add_ret_inv {E} archive src arcname members (w w1 : World E) ms :
  src <> archive ->
  tar_add archive src arcname members w = (Ret ms, w1) ->
  exists d, fs_read src (w_fs w) = Some d
            /\ ms = members ++ [(lstrip_slashes arcname, d)] /\ w1 = w.
Proof.
  intros Hne. unfold tar_add.
  apply str_eqb_neq in Hne. rewrite Hne. intros H.
  apply bind_ret_inv in H as (d & w2 & Hread & Hret).
  apply read_file_ret_inv in Hread as [Hread ->].
  unfold ret in Hret. injection Hret as <- <-. now exists d.
Qed.

Lemma py_int_cases {E} (O : Oracle E) fields capacity :
  py_int O (fields_get (lit "virtual-size") (JInt 0) fields) = inl capacity ->
  (forall z, fields_get (lit "virtual-size") (JInt 0) fields = JInt z ->
             capacity = z)
  /\ (Forall (fun kv => fst kv <> lit "virtual-size") fields -> capacity = 0%Z).
Proof.
  intros Ecap. split.
  - intros z Hz. rewrite Hz in Ecap. simpl in Ecap. congruence.
  - intros Habs. rewrite (fields_get_absent (JInt 0) Habs) in Ecap.
    simpl in Ecap. congruence.
Qed.

Lemma lstrip_slashes_id s : startswith [SLASH] s = false -> lstrip_slashes s = s.
Proof.
  destruct s as [|c t]; [reflexivity|]. cbn [startswith lstrip_slashes].
  unfold SLASH, char_eqb. destruct (c =? 47)%N eqn:Ec.
  - rewrite N.eqb_sym, Ec. cbn. destruct t; discriminate.
  - reflexivity.
Qed.

(** For a name and an identifier without line feed the descriptor is, line
    by line, the template less its margin of sixteen blanks. *)
Lemma ovf_document_lines_general vm_name disk_id size capacity :
  has_newline vm_name = false ->
  has_newline disk_id = false ->
  split_nl (ovf_document vm_name (vm_name ++ lit ".vmdk") size disk_id capacity)
  = [ lit "<?xml version=" ++ quoted (lit "1.0") ++ lit " encoding="
        ++ quoted (lit "UTF-8") ++ lit "?>";
      lit "<Envelope xmlns="
        ++ quoted (lit "http://schemas.dmtf.org/ovf/envelope/1");
      sp 10 ++ lit "xmlns:ovf="
        ++ quoted (lit "http://schemas.dmtf.org/ovf/envelope/1") ++ lit ">";
      lit "  <References>";
      lit "    <File ovf:id=" ++ quoted (lit "file1") ++ lit " ovf:href="
        ++ quoted (vm_name ++ lit ".vmdk") ++ lit " ovf:size="
        ++ quoted (str_of_Z size) ++ lit "/>";
      lit "  </References>";
      lit "  <DiskSection>";
      lit "    <Info>Discos virtuales</Info>";
      lit "    <Disk ovf:diskId=" ++ quoted disk_id ++ lit " ovf:fileRef="
        ++ quoted (lit "file1") ++ lit " ovf:capacity="
        ++ quoted (str_of_Z capacity) ++ lit " ovf:format="
        ++ quoted (lit "http://www.vmware.com/interfaces/specifications/vmdk.html#streamOptimized")
        ++ lit "/>";
      lit "  </DiskSection>";
      lit "  <VirtualSystem ovf:id=" ++ quoted vm_name ++ lit ">";
      lit "    <Info>Maquina virtual exportada</Info>";
      lit "    <OperatingSystemSection ovf:id=" ++ quoted (lit "1") ++ lit ">";
      lit "      <Info>Sistema operativo invitado</Info>";
      lit "    </OperatingSystemSection>";
      lit "  </VirtualSystem>";
      lit "</Envelope>";
      [] ].
Proof.
  intros Hname Hid.
  pose proof (decimal_no_newline _ (proj1 (str_of_Z_decimal size))) as Hsize.
  pose proof (decimal_no_newline _ (proj1 (str_of_Z_decimal capacity))) as Hcap.
  unfold ovf_document, ovf_template, dedent.
  generalize dependent (str_of_Z size). intros s Hsize.
  generalize dependent (str_of_Z capacity). intros c Hcap.
  match goal with
  | |- context [dedent_lines (split_nl (join [NL] ?ls))] =>
      rewrite (@split_nl_join ls)
  end.
  2: discriminate.
  2:{ apply no_newline_lines. cbn [forallb]. unfold quoted.
      rewrite !has_newline_app, Hname, Hid, Hsize, Hcap. reflexivity. }
  match goal with
  | |- split_nl (join [NL] (dedent_lines ?ls)) = ?rhs =>
      change (dedent_lines ls) with rhs
  end.
  apply split_nl_join; [discriminate|].
  apply no_newline_lines. cbn [forallb]. unfold quoted.
  rewrite !has_newline_app, Hname, Hid, Hsize, Hcap. reflexivity.
Qed.

(** C1 (amended).  Let the two working files and the output be named by
    path texts, the output path be none of the two working files and lie
    outside the temporary directory.  After every call that returns, the
    output file is the tar archive of exactly two members: first the
    descriptor, then the disk, whose data is the VMDK file as the converter
    left it.  They are named [<vm_name>.ovf] and [<vm_name>.vmdk] less the
    slashes these names begin with: by these very names when [vm_name]
    does not begin with a slash.  The descriptor is the template filled
    in: for a name without line feed its fifth line declares the disk
    file with the length of that data as [ovf:size], its ninth line the
    disk with, as [ovf:capacity], the integer that [int()] makes of the
    field [virtual-size] of the info query: that integer itself when the
    field holds one, and 0 when the query has no such field. *)
Theorem C1_qcow2_to_ova_archive :
  forall (E : Type) (O : Oracle E) (w w' : World E)
         (qcow2_path output_ova vm_name : str),
    let tmp := tmpdir_of O w in
    let vmdk_name := vm_name ++ lit ".vmdk" in
    let ovf_name := vm_name ++ lit ".ovf" in
    let vmdk_path := path_join tmp vmdk_name in
    let ovf_path := path_join tmp ovf_name in
    path_text vmdk_name = true ->
    path_text ovf_name = true ->
    path_text output_ova = true ->
    output_ova <> vmdk_path ->
    output_ova <> ovf_path ->
    output_ova <> tmp ->
    is_under tmp output_ova = false ->
    qcow2_to_ova O qcow2_path output_ova vm_name w = (Ret tt, w') ->
    let info := export_info O qcow2_path vm_name w in
    let disk_id := fst (uuid4 O (w_env (snd info))) in
    exists (fields : list (str * json)) (capacity : Z) (vmdk : str),
      json_loads O (proc_stdout (fst info)) = Some (JObj fields)
      /\ py_int O (fields_get (lit "virtual-size") (JInt 0) fields) = inl capacity
      /\ (forall z, fields_get (lit "virtual-size") (JInt 0) fields = JInt z ->
                    capacity = z)
      /\ (Forall (fun kv => fst kv <> lit "virtual-size") fields -> capacity = 0%Z)
      /\ fs_read vmdk_path (w_fs (snd info)) = Some vmdk
      /\ let size := Z.of_nat (length vmdk) in
         let descriptor := ovf_document vm_name vmdk_name size disk_id capacity in
         fs_read output_ova (w_fs w')
         = Some (tar_pack O [(lstrip_slashes ovf_name, descriptor);
                             (lstrip_slashes vmdk_name, vmdk)])
         /\ (startswith [SLASH] vm_name = false ->
             lstrip_slashes ovf_name = ovf_name
             /\ lstrip_slashes vmdk_name = vmdk_name)
         /\ (has_newline vm_name = false -> has_newline disk_id = false ->
             nth_error (split_nl descriptor) 4 = Some (ovf_file_line vmdk_name size)
             /\ nth_error (split_nl descriptor) 8
                = Some (ovf_disk_line disk_id capacity)).
Proof.
  intros E O w w' qcow2 out name tmp vmdk_name ovf_name vmdk_path ovf_path
         _ _ _ Hvmdk Hovf Htmp Hunder Hcall info disk_id.
  unfold qcow2_to_ova in Hcall.
  apply bind_ret_inv in Hcall as (u & w2 & Hwith & Hsets).
  apply with_TemporaryDirectory_ret_inv in Hwith as (w3 & Hbody & ->).
  fold tmp in Hbody, Hsets. cbv zeta in Hbody.
  fold vmdk_name ovf_name in Hbody. fold vmdk_path ovf_path in Hbody.
  apply bind_ret_inv in Hbody as (r1 & wa & Hrun1 & Hbody).
  change [lit "qemu-img"; lit "convert"; lit "-O"; lit "vmdk"; lit "-o";
          lit "subformat=streamOptimized"; qcow2; vmdk_path]
    with (export_convert_command qcow2 vmdk_path) in Hrun1.
  apply run_ret_inv in Hrun1 as (_ & _ & ->).
  apply bind_ret_inv in Hbody as (r2 & wb & Hrun2 & Hbody).
  change [lit "qemu-img"; lit "info"; lit "--output=json"; qcow2]
    with (export_info_command qcow2) in Hrun2.
  apply run_ret_inv in Hrun2 as (_ & -> & ->).
  cbn [stdout] in Hbody.
  change (after_exec O (export_info_command qcow2)
            (snd (after_exec O (export_convert_command qcow2 vmdk_path)
                             (enter_tmpdir O w))))
    with info in Hbody.
  destruct (json_loads O (proc_stdout (fst info))) as [j|] eqn:Ej;
    [|discriminate Hbody].
  destruct j as [| | | | | |fields]; try discriminate Hbody.
  destruct (py_int O (fields_get (lit "virtual-size") (JInt 0) fields))
    as [capacity|class] eqn:Ecap; [|discriminate Hbody].
  apply bind_ret_inv in Hbody as (id & wc & Hid & Hbody).
  apply ask_ret_inv in Hid as [-> ->]. fold disk_id in Hbody.
  apply bind_ret_inv in Hbody as (size & wd & Hsize & Hbody).
  unfold stat_size in Hsize.
  apply bind_ret_inv in Hsize as (vmdk & we & Hread & Hret).
  apply read_file_ret_inv in Hread as [Hread ->].
  unfold ret in Hret. injection Hret as <- <-.
  cbn [w_fs set_env] in Hread.
  cbv zeta in Hbody.
  apply bind_ret_inv in Hbody as (u1 & w4 & Hm1 & Hbody).
  apply write_text_ret_inv in Hm1 as (_ & _ & ->).
  apply bind_ret_inv in Hbody as (u2 & w5 & Hm2 & Hbody).
  apply mkdir_parents_ret_inv in Hm2 as (fs2 & Hmk & ->).
  apply bind_ret_inv in Hbody as (u3 & w6 & Hm3 & Hbody).
  apply write_bytes_ret_inv in Hm3 as (_ & ->).
  apply bind_ret_inv in Hbody as (m1 & w7 & Hadd1 & Hbody).
  apply tar_add_ret_inv in Hadd1 as (d1 & Hd1 & -> & ->); [|congruence].
  apply bind_ret_inv in Hbody as (m2 & w8 & Hadd2 & Hbody).
  apply tar_add_ret_inv in Hadd2 as (d2 & Hd2 & -> & ->); [|congruence].
  apply modify_fs_ret_inv in Hbody. subst w3.
  cbn [w_fs set_fs set_env] in Hd1, Hd2, Hmk.
  (* what the archiver read *)
  rewrite fs_read_put_other in Hd1 by congruence.
  rewrite (@fs_read_mkdir_p _ ovf_path _ _ Hmk), fs_read_put_same in Hd1.
  injection Hd1 as <-.
  rewrite fs_read_put_other in Hd2 by congruence.
  rewrite (@fs_read_mkdir_p _ vmdk_path _ _ Hmk), fs_read_put_other, Hread in Hd2
    by apply vmdk_ovf_paths_differ.
  injection Hd2 as <-.
  (* the Path Store leaves the files alone *)
  apply bind_ret_inv in Hsets as (u4 & w9 & Hs1 & Hs2).
  apply PathStore_set_ret_inv in Hs1 as (_ & _ & ->).
  apply PathStore_set_ret_inv in Hs2 as (_ & _ & ->).
  exists fields, capacity, vmdk.
  split; [reflexivity|]. split; [exact Ecap|].
  destruct (py_int_cases O fields Ecap) as [Hint Habsent].
  split; [exact Hint|]. split; [exact Habsent|]. split; [exact Hread|].
  cbv zeta. split; [|split].
  - unfold after_set. cbn [w_fs set_db set_env set_fs leave_tmpdir].
    rewrite fs_read_rmtree_keep by assumption.
    now rewrite fs_read_put_same.
  - intros Hslash. unfold ovf_name, vmdk_name.
    split; apply lstrip_slashes_id; (destruct name; [reflexivity | exact Hslash]).
  - intros Hname Hid. unfold vmdk_name.
    rewrite (@ovf_document_lines_general name disk_id _ capacity Hname Hid).
    split; reflexivity.
Qed.

(** A conversion that goes well: the converter leaves eight bytes, the info
    query reports 1024 bytes of capacity. *)
Lemma C1_qcow2_to_ova_archive_witness :
  let w := test_world
             [(completed 0 [] [], [(lit "/tmp/tmpvm/vm.vmdk", lit "VMDKDATA")]);
              (completed 0 (lit "{" ++ quoted (lit "virtual-size") ++ lit ": 1024}")
                         [], [])]
             [(lit "/tmp", Dir); (lit "/d.qcow2", File (lit "QCOW"))] [] in
  let r := qcow2_to_ova test_oracle (lit "/d.qcow2") (lit "/out/vm.ova")
                        (lit "vm") w in
  fst r = Ret tt
  /\ fs_read (lit "/out/vm.ova") (w_fs (snd r))
     = Some (test_tar_pack
               [(lit "vm.ovf",
                 ovf_document (lit "vm") (lit "vm.vmdk") 8
                   (lit "0f8fad5b-d9cb-469f-a165-70867728950e") 1024);
                (lit "vm.vmdk", lit "VMDKDATA")])
  /\ nth_error (split_nl (ovf_document (lit "vm") (lit "vm.vmdk") 8
                            (lit "0f8fad5b-d9cb-469f-a165-70867728950e") 1024)) 4
     = Some (ovf_file_line (lit "vm.vmdk") 8)
  /\ fs_read (lit "/tmp/tmpvm/vm.vmdk") (w_fs (snd r)) = None.
Proof.
  intros w r.
  assert (Hcall : qcow2_to_ova test_oracle (lit "/d.qcow2") (lit "/out/vm.ova")
                               (lit "vm") w = (Ret tt, snd r))
    by (vm_compute; reflexivity).
  assert (H1 : lit "/out/vm.ova"
               <> path_join (tmpdir_of test_oracle w) (lit "vm" ++ lit ".vmdk"))
    by (vm_compute; intros H; discriminate H).
  assert (H2 : lit "/out/vm.ova"
               <> path_join (tmpdir_of test_oracle w) (lit "vm" ++ lit ".ovf"))
    by (vm_compute; intros H; discriminate H).
  assert (H3 : lit "/out/vm.ova" <> tmpdir_of test_oracle w)
    by (vm_compute; intros H; discriminate H).
  assert (H4 : is_under (tmpdir_of test_oracle w) (lit "/out/vm.ova") = false)
    by (vm_compute; reflexivity).
  destruct (@C1_qcow2_to_ova_archive TestEnv test_oracle w (snd r)
              (lit "/d.qcow2") (lit "/out/vm.ova") (lit "vm")
              eq_refl eq_refl eq_refl H1 H2 H3 H4 Hcall)
    as (fields & capacity & vmdk & Hj & Hcap & _ & _ & Hread & Hout & _ & Hlines).
  vm_compute in Hj. injection Hj as <-.
  vm_compute in Hcap. injection Hcap as <-.
  vm_compute in Hread. injection Hread as <-.
  split; [vm_compute; reflexivity|]. split; [|split].
  - vm_compute in Hout. vm_compute. exact Hout.
  - exact (proj1 (Hlines eq_refl eq_refl)).
  - vm_compute. reflexivity.
Defined.

(** The claim as worded fails for a name that begins with a slash: the
    working files are then made at that absolute path, and the archiver
    names the members without the slash. *)
Lemma C1_counterexample : ~ C1_as_stated.
Proof.
  intros H.
  set (w := test_world
              [(completed 0 [] [], [(lit "/vm.vmdk", lit "VMDKDATA")]);
               (completed 0 (lit "{" ++ quoted (lit "virtual-size") ++ lit ": 1024}")
                          [], [])]
              [(lit "/out", Dir)] []).
  set (r := qcow2_to_ova test_oracle (lit "/d.qcow2") (lit "/out/vm.ova")
                         (lit "/vm") w).
  destruct (H TestEnv test_oracle w (snd r) (lit "/d.qcow2") (lit "/out/vm.ova")
              (lit "/vm")) as (descriptor & vmdk & Hout).
  - vm_compute. intros Heq. discriminate Heq.
  - vm_compute. intros Heq. discriminate Heq.
  - vm_compute. intros Heq. discriminate Heq.
  - vm_compute. reflexivity.
  - vm_compute. reflexivity.
  - vm_compute in Hout. discriminate Hout.
Qed.

(** An info query without [virtual-size]: the descriptor declares the
    capacity 0. *)
Example qcow2_to_ova_without_virtual_size :
  let w := test_world
             [(completed 0 [] [], [(lit "/tmp/tmpvm/vm.vmdk", lit "VMDKDATA")]);
              (completed 0 (lit "{}") [], [])]
             [(lit "/tmp", Dir)] [] in
  let r := qcow2_to_ova test_oracle (lit "/d.qcow2") (lit "/out/vm.ova")
                        (lit "vm") w in
  fst r = Ret tt
  /\ fs_read (lit "/out/vm.ova") (w_fs (snd r))
     = Some (test_tar_pack
               [(lit "vm.ovf",
                 ovf_document (lit "vm") (lit "vm.vmdk") 8
                   (lit "0f8fad5b-d9cb-469f-a165-70867728950e") 0);
                (lit "vm.vmdk", lit "VMDKDATA")]).
Proof. vm_compute. split; reflexivity. Qed.

(** The line of the descriptor that declares the size, and the one that
    declares the capacity, as a reader of the document finds them. *)
Example ovf_document_lines :
  let doc := ovf_document (lit "vm") (lit "vm.vmdk") 8 (lit "id-1") 1024 in
  In (lit "    <File ovf:id=" ++ quoted (lit "file1") ++ lit " ovf:href="
      ++ quoted (lit "vm.vmdk") ++ lit " ovf:size=" ++ quoted (lit "8")
      ++ lit "/>")
     (split_nl doc)
  /\ In (lit "    <Disk ovf:diskId=" ++ quoted (lit "id-1")
         ++ lit " ovf:fileRef=" ++ quoted (lit "file1")
         ++ lit " ovf:capacity=" ++ quoted (lit "1024") ++ lit " ovf:format="
         ++ quoted (lit "http://www.vmware.com/interfaces/specifications/vmdk.html#streamOptimized")
         ++ lit "/>")
        (split_nl doc)
  /\ hd [] (split_nl doc)
     = lit "<?xml version=" ++ quoted (lit "1.0") ++ lit " encoding="
       ++ quoted (lit "UTF-8") ++ lit "?>".
Proof.
  vm_compute. split; [|split; [|reflexivity]].
  - do 4 right. left. reflexivity.
  - do 8 right. left. reflexivity.
Qed.

(* ================================================================== *)
(** * Further properties of the program *)
(* ================================================================== *)

(** ** Stripped lines *)

Lemma lstrip_head s c t : lstrip s = c :: t -> is_space c = false.
Proof.
  induction s as [|x s IH]; simpl; [discriminate|].
  destruct (is_space x) eqn:Ex; [exact IH|].
  intros H. injection H as <- _. exact Ex.
Qed.

Lemma lstrip_decompose s :
  exists ws, s = ws ++ lstrip s /\ forallb is_space ws = true.
Proof.
  induction s as [|x s (ws & Hs & Hws)]; simpl.
  - now exists [].
  - destruct (is_space x) eqn:Ex.
    + exists (x :: ws). simpl. rewrite Ex, Hws. split; [now f_equal | reflexivity].
    + now exists [].
Qed.

Lemma lstrip_fixed c t : is_space c = false -> lstrip (c :: t) = c :: t.
Proof. intros H. simpl. now rewrite H. Qed.

Lemma rstrip_last s t c : rstrip s = t ++ [c] -> is_space c = false.
Proof.
  unfold rstrip. intros H.
  apply (f_equal (@rev char)) in H.
  rewrite rev_involutive, rev_app_distr in H. simpl in H.
  exact (@lstrip_head _ _ _ H).
Qed.

Lemma rstrip_decompose s :
  exists ws, s = rstrip s ++ ws /\ forallb is_space ws = true.
Proof.
  destruct (lstrip_decompose (rev s)) as (ws & Hs & Hws).
  exists (rev ws). split.
  - unfold rstrip. rewrite <- rev_app_distr, <- Hs. now rewrite rev_involutive.
  - rewrite forallb_forall in *. intros x Hx. apply Hws. now apply in_rev.
Qed.

Lemma rstrip_fixed t c : is_space c = false -> rstrip (t ++ [c]) = t ++ [c].
Proof.
  intros H. unfold rstrip. rewrite rev_app_distr.
  change (rev [c] ++ rev t) with (c :: rev t).
  rewrite (@lstrip_fixed c (rev t) H).
  change (c :: rev t) with (rev [c] ++ rev t).
  now rewrite <- rev_app_distr, rev_involutive.
Qed.

Lemma strip_head s c t : strip s = c :: t -> is_space c = false.
Proof.
  unfold strip. intros H.
  destruct (rstrip_decompose (lstrip s)) as (ws & Hs & _).
  rewrite H in Hs. simpl in Hs. exact (@lstrip_head _ _ _ Hs).
Qed.

Lemma strip_last s t c : strip s = t ++ [c] -> is_space c = false.
Proof. unfold strip. apply rstrip_last. Qed.

(** Stripping twice is stripping once. *)
Lemma strip_idempotent s : strip (strip s) = strip s.
Proof.
  destruct (strip s) as [|c t] eqn:Es; [reflexivity|].
  pose proof (@strip_head _ _ _ Es) as Hc.
  unfold strip at 1. rewrite lstrip_fixed by exact Hc.
  destruct (exists_last (l := c :: t)) as (t' & c' & Hl); [discriminate|].
  rewrite Hl. apply rstrip_fixed.
  rewrite Hl in Es. exact (@strip_last _ _ _ Es).
Qed.

(** X1.  Every line [stripped_lines] returns comes from a line of the
    text, is not empty, and neither begins nor ends with white space; the
    lines keep their order. *)
Theorem X1_stripped_lines_are_trimmed :
  forall (text line : str),
    In line (stripped_lines text) ->
    (exists raw, In raw (splitlines text) /\ line = strip raw)
    /\ line <> []
    /\ strip line = line
    /\ (forall c t, line = c :: t -> is_space c = false)
    /\ (forall t c, line = t ++ [c] -> is_space c = false).
Proof.
  intros text line Hin. unfold stripped_lines in Hin.
  apply in_map_iff in Hin as (raw & <- & Hraw).
  apply filter_In in Hraw as [Hraw Hne].
  split; [now exists raw|].
  split; [intros H; rewrite H in Hne; discriminate|].
  split; [apply strip_idempotent|].
  split; intros; [eapply strip_head | eapply strip_last]; eassumption.
Qed.

Lemma X1_stripped_lines_are_trimmed_witness :
  In (lit "vm1") (stripped_lines (lit "  vm1 " ++ [NL] ++ lit "   " ++ [NL] ++ lit "vm2"))
  /\ strip (lit "vm1") = lit "vm1".
Proof.
  assert (Hin : In (lit "vm1")
                   (stripped_lines (lit "  vm1 " ++ [NL] ++ lit "   " ++ [NL]
                                    ++ lit "vm2")))
    by (vm_compute; now left).
  split; [exact Hin|].
  exact (proj1 (proj2 (proj2 (X1_stripped_lines_are_trimmed _ _ Hin)))).
Defined.
(* ================================================================== *)
(** * More on [delete_vm], [list_vms] and [os_details] *)
(* ================================================================== *)

(** X2.  [delete_vm] runs two or three commands, in this order: the state
    query, then the stop command exactly when the query succeeded and its
    answer (stripped, lowered) holds the word [running], then the undefine
    command; this whether or not the call ends in an error. *)
Theorem X2_delete_vm_commands :
  forall (E : Type) (O : Oracle E) (w : World E) (name : str)
         (remove_storage : bool),
    w_trace (snd (delete_vm O name remove_storage w))
    = w_trace w
      ++ [domstate_command name]
      ++ (if reported_running O name w then [destroy_command name] else [])
      ++ [undefine_command name remove_storage].
Proof.
  intros E O w name rs.
  assert (Hfinal : forall w1,
    w_trace (snd ((_run O (if rs then [lit "virsh"; lit "undefine"; name; lit "--nvram"]
                          ++ [lit "--remove-all-storage"]
               else [lit "virsh"; lit "undefine"; name; lit "--nvram"]) ;;; ret tt) w1))
    = w_trace w1 ++ [undefine_command name rs]).
  { intros w1. unfold bind. rewrite run_after_exec. cbv zeta.
    match goal with
    | |- context [after_exec O ?c w1] =>
        replace c with (undefine_command name rs)
          by (unfold undefine_command; destruct rs; reflexivity)
    end.
    destruct (returncode _ =? 0)%Z; cbn [snd ret]; apply after_exec_trace. }
  unfold delete_vm. unfold bind at 1. unfold except_CommandError_pass.
  unfold bind at 1.
  fold (domstate_command name). fold (destroy_command name).
  rewrite run_after_exec. unfold reported_running.
  set (p1 := fst (after_exec O (domstate_command name) w)).
  set (wa := snd (after_exec O (domstate_command name) w)).
  assert (Hwa : w_trace wa = w_trace w ++ [domstate_command name])
    by apply after_exec_trace.
  cbv zeta.
  destruct (returncode p1 =? 0)%Z; cbv beta iota; cbn [stdout andb].
  - destruct (contains (lit "running") (lower (strip (proc_stdout p1)))).
    + unfold bind at 1. rewrite run_after_exec. cbv zeta.
      set (wb := snd (after_exec O (destroy_command name) wa)).
      assert (Hwb : w_trace wb = w_trace wa ++ [destroy_command name])
        by apply after_exec_trace.
      destruct (returncode _ =? 0)%Z; cbv beta iota; unfold ret at 1;
        rewrite Hfinal, Hwb, Hwa, <- !app_assoc; reflexivity.
    + unfold ret at 1. rewrite Hfinal, Hwa, <- !app_assoc. reflexivity.
  - rewrite Hfinal, Hwa, <- !app_assoc. reflexivity.
Qed.

(** ** The loop of [list_vms] *)

Lemma vm_summary_cases {E} (O : Oracle E) name (w : World E) :
  let p := fst (after_exec O (dominfo_command name) w) in
  let wa := snd (after_exec O (dominfo_command name) w) in
  (returncode p = 0%Z /\ exists vm, vm_summary O name w = (Ret vm, wa)
                                    /\ vm_name vm = name)
  \/ (returncode p <> 0%Z
      /\ vm_summary O name w
         = (Raise (CommandError (run_error_message (dominfo_command name) p)), wa)).
Proof.
  intros p wa. unfold vm_summary, bind.
  change [lit "virsh"; lit "dominfo"; name] with (dominfo_command name).
  rewrite run_after_exec. fold p wa. cbv zeta.
  destruct (returncode p =? 0)%Z eqn:Erc.
  - left. apply Z.eqb_eq in Erc. split; [exact Erc|].
    eexists. split; reflexivity.
  - right. apply Z.eqb_neq in Erc. split; [exact Erc | reflexivity].
Qed.

Lemma for_each_vm_summary {E} (O : Oracle E) names :
  forall (w : World E),
    match for_each (vm_summary O) names w with
    | (Ret vms, w') =>
        List.map vm_name vms = names
        /\ w_trace w' = w_trace w ++ List.map dominfo_command names
    | (Raise e, w') =>
        exists queried name rest p,
          names = queried ++ name :: rest
          /\ w_trace w' = w_trace w ++ List.map dominfo_command (queried ++ [name])
          /\ returncode p <> 0%Z
          /\ e = CommandError (run_error_message (dominfo_command name) p)
    end.
Proof.
  induction names as [|name names IH]; intros w; cbn [for_each].
  - unfold ret. split; [reflexivity | now rewrite app_nil_r].
  - unfold bind at 1.
    destruct (vm_summary_cases O name w) as [(Hrc & vm & -> & Hname)
                                            |(Hrc & ->)].
    + set (wa := snd (after_exec O (dominfo_command name) w)).
      assert (Hwa : w_trace wa = w_trace w ++ [dominfo_command name])
        by apply after_exec_trace.
      unfold bind at 1. specialize (IH wa).
      destruct (for_each (vm_summary O) names wa) as [[vms|e] w'].
      * destruct IH as [Hn Ht]. unfold ret. split.
        -- simpl. now rewrite Hname, Hn.
        -- rewrite Ht, Hwa, <- app_assoc. reflexivity.
      * destruct IH as (queried & n & rest & p & Hnames & Ht & Hp & He).
        exists (name :: queried), n, rest, p.
        split; [now rewrite Hnames|].
        split; [|now split].
        rewrite Ht, Hwa, <- app_assoc. reflexivity.
    + exists [], name, names, (fst (after_exec O (dominfo_command name) w)).
      split; [reflexivity|]. split; [apply after_exec_trace|]. now split.
Qed.

(** X3.  When [list_vms] returns, it returns one record per non-blank line
    of the listing, in the order of the listing and under the stripped
    line as name, and it has run the listing and then one [dominfo] query
    per name, in that order. *)
Theorem X3_list_vms_one_record_per_name :
  forall (E : Type) (O : Oracle E) (w w' : World E) (vms : list VMSummary),
    list_vms O w = (Ret vms, w') ->
    let names :=
      stripped_lines (proc_stdout (fst (after_exec O list_command w))) in
    List.map vm_name vms = names
    /\ w_trace w' = w_trace w ++ list_command :: List.map dominfo_command names.
Proof.
  intros E O w w' vms H names. unfold list_vms, bind in H.
  fold list_command in H. rewrite run_after_exec in H. cbv zeta in H.
  destruct (returncode (fst (after_exec O list_command w)) =? 0)%Z;
    [|discriminate].
  cbn [stdout] in H. fold names in H.
  pose proof (for_each_vm_summary O names (snd (after_exec O list_command w)))
    as Hloop.
  rewrite H in Hloop. destruct Hloop as [Hn Ht]. split; [exact Hn|].
  rewrite Ht, after_exec_trace, <- app_assoc. reflexivity.
Qed.

Lemma X3_list_vms_one_record_per_name_witness :
  let w := test_world
             [(completed 0 (lit " vm1 " ++ [NL] ++ [NL] ++ lit "vm2" ++ [NL]) [], []);
              (completed 0 (lit "State: running" ++ [NL]) [], []);
              (completed 0 (lit "OS Type: hvm" ++ [NL]) [], [])] [] [] in
  List.map vm_name (match fst (list_vms test_oracle w) with
                    | Ret vms => vms
                    | Raise _ => []
                    end)
  = [lit "vm1"; lit "vm2"].
Proof.
  intros w.
  destruct (list_vms test_oracle w) as [r w'] eqn:Hrun.
  assert (Hr : exists vms, r = Ret vms).
  { vm_compute in Hrun. injection Hrun as <- _. eexists. reflexivity. }
  destruct Hr as [vms ->]. cbn [fst].
  rewrite (proj1 (X3_list_vms_one_record_per_name test_oracle w Hrun)).
  vm_compute. reflexivity.
Defined.



(** ** [Key: Value] lines *)

Lemma cut_first_char (c : char) (s a b : str) :
  ~ In c a -> cut (c :: s) (a ++ (c :: s) ++ b) = Some (a, b).
Proof.
  induction a as [|x a IH]; intros Hc.
  - change ([] ++ (c :: s) ++ b) with (c :: (s ++ b)).
    cbn [cut].
    change (c :: s ++ b) with ((c :: s) ++ b).
    rewrite startswith_app, skipn_app_exact. reflexivity.
  - change ((x :: a) ++ (c :: s) ++ b) with (x :: (a ++ (c :: s) ++ b)).
    cbn [cut startswith].
    assert (Hx : char_eqb c x = false).
    { apply N.eqb_neq. intros ->. apply Hc. now left. }
    rewrite Hx. cbn [andb].
    rewrite IH; [reflexivity|]. intros H. apply Hc. now right.
Qed.

Lemma in_overlap {A} (c : A) : forall (l2 l1 r1 r2 : list A),
  l1 ++ r1 = l2 ++ c :: r2 -> length l2 < length l1 -> In c l1.
Proof.
  induction l2 as [|z l2 IH]; intros l1 r1 r2 H Hlen;
    (destruct l1 as [|y l1]; [simpl in Hlen; lia|]).
  - simpl in H. injection H as -> _. now left.
  - simpl in H. injection H as _ H. right.
    apply (IH l1 r1 r2 H). simpl in Hlen. lia.
Qed.

Lemma cut_last_char (c : char) (s a b : str) :
  ~ In c a -> ~ In c s ->
  cut (s ++ [c]) (a ++ (s ++ [c]) ++ b) = Some (a, b).
Proof.
  intros Ha Hs. induction a as [|x a IH].
  - cbn [app]. destruct ((s ++ [c]) ++ b) as [|y r] eqn:Er.
    + destruct s; discriminate.
    + cbn [cut]. rewrite <- Er, startswith_app, skipn_app_exact. reflexivity.
  - change ((x :: a) ++ (s ++ [c]) ++ b) with (x :: (a ++ (s ++ [c]) ++ b)).
    cbn [cut].
    destruct (startswith (s ++ [c]) (x :: a ++ (s ++ [c]) ++ b)) eqn:Est.
    + exfalso. apply startswith_spec in Est as [t Ht].
      assert (Hin : In c ((x :: a) ++ s)).
      { apply (@in_overlap _ c s ((x :: a) ++ s) ([c] ++ b) t).
        - rewrite <- !app_assoc in Ht. rewrite <- !app_assoc. exact Ht.
        - rewrite length_app. simpl. lia. }
      apply in_app_or in Hin as [Hin|Hin]; [now apply Ha | now apply Hs].
    + rewrite IH; [reflexivity|]. intros H. apply Ha. now right.
Qed.

Lemma parse_info_app l1 : forall l2 d,
  parse_info (l1 ++ l2) d = parse_info l2 (parse_info l1 d).
Proof. induction l1 as [|l l1 IH]; intros; simpl; [reflexivity | apply IH]. Qed.

Lemma parse_info_other_keys k lines : forall d,
  Forall (fun l => line_key l <> Some k) lines ->
  dict_get k (parse_info lines d) = dict_get k d.
Proof.
  induction lines as [|l lines IH]; intros d H; [reflexivity|].
  inversion H as [|? ? Hl Hrest]; subst. cbn [parse_info].
  rewrite IH by exact Hrest.
  unfold line_key in Hl.
  destruct (cut (lit ":") l) as [[a b]|]; [|reflexivity].
  apply dict_get_set_other. congruence.
Qed.

(** X5.  A line [k:v] whose key part holds no colon gives the mapping the
    stripped key with the stripped value, colons of the value included;
    the entry is the one read back unless a later line has the same key. *)
Theorem X5_parse_info_key_value :
  forall (earlier later : list str) (k v : str) (d : dict),
    ~ In COLON k ->
    Forall (fun l => line_key l <> Some (strip k)) later ->
    dict_get (strip k) (parse_info (earlier ++ (k ++ COLON :: v) :: later) d)
    = Some (strip v).
Proof.
  intros earlier later k v d Hk Hlater.
  rewrite parse_info_app. cbn [parse_info].
  rewrite parse_info_other_keys by exact Hlater.
  change (lit ":") with [COLON].
  change (k ++ COLON :: v) with (k ++ [COLON] ++ v).
  rewrite cut_first_char by exact Hk.
  apply dict_get_set_same.
Qed.

Lemma X5_parse_info_key_value_witness :
  dict_get (lit "Name")
    (parse_info [lit "Name: old"; lit "garbage";
                 lit " Name :  vm: one "; lit "State: running"] [])
  = Some (lit "vm: one").
Proof.
  apply (@X5_parse_info_key_value [lit "Name: old"; lit "garbage"]
           [lit "State: running"] (lit " Name ") (lit "  vm: one ") []).
  - vm_compute. intuition discriminate.
  - repeat constructor. vm_compute. discriminate.
Defined.

(** ** The guest-type tag *)

Lemma type_tag_scan attrs1 arch attrs2 os rest :
  ~ In GT (attrs1 ++ arch ++ attrs2) -> ~ In DQ (attrs1 ++ arch) ->
  ~ In LT os ->
  let line := type_tag attrs1 arch attrs2 os rest in
  is_type_line line = true
  /\ after (lit ">") line = Some (os ++ lit "</type>" ++ rest)
  /\ before (lit "</type>") (os ++ lit "</type>" ++ rest) = os
  /\ after (lit "arch=" ++ [DQ]) line
     = Some (arch ++ [DQ] ++ attrs2 ++ lit ">" ++ os ++ lit "</type>" ++ rest)
  /\ before [DQ] (arch ++ [DQ] ++ attrs2 ++ lit ">" ++ os ++ lit "</type>" ++ rest)
     = arch.
Proof.
  intros Hgt Hdq Hlt line.
  assert (Hgt1 : ~ In GT attrs1) by (intros H; apply Hgt; apply in_or_app; now left).
  assert (Hgt2 : ~ In GT arch)
    by (intros H; apply Hgt; apply in_or_app; right; apply in_or_app; now left).
  assert (Hgt3 : ~ In GT attrs2)
    by (intros H; apply Hgt; apply in_or_app; right; apply in_or_app; now right).
  assert (Hdq1 : ~ In DQ attrs1) by (intros H; apply Hdq; apply in_or_app; now left).
  assert (Hdq2 : ~ In DQ arch) by (intros H; apply Hdq; apply in_or_app; now right).
  split; [|split; [|split; [|split]]].
  - unfold is_type_line, line, type_tag. rewrite startswith_app. cbn [andb].
    apply contains_spec.
    exists (lit "<type" ++ attrs1 ++ (lit "arch=" ++ [DQ]) ++ arch ++ [DQ]
            ++ attrs2 ++ lit ">" ++ os), rest.
    repeat rewrite <- app_assoc. reflexivity.
  - unfold after.
    replace line
      with ((lit "<type" ++ attrs1 ++ (lit "arch=" ++ [DQ]) ++ arch ++ [DQ]
             ++ attrs2) ++ (GT :: []) ++ (os ++ lit "</type>" ++ rest))
      by (unfold line, type_tag; repeat rewrite <- app_assoc; reflexivity).
    change (lit ">") with [GT].
    rewrite cut_first_char; [reflexivity|].
    intros H. repeat (apply in_app_or in H as [H|H]); try tauto;
      vm_compute in H; intuition discriminate.
  - unfold before.
    change (lit "</type>") with (LT :: lit "/type>").
    rewrite cut_first_char by exact Hlt. reflexivity.
  - unfold after.
    replace line
      with ((lit "<type" ++ attrs1) ++ (lit "arch=" ++ [DQ])
            ++ (arch ++ [DQ] ++ attrs2 ++ lit ">" ++ os ++ lit "</type>" ++ rest))
      by (unfold line, type_tag; repeat rewrite <- app_assoc; reflexivity).
    rewrite cut_last_char; [reflexivity| |].
    + intros H. apply in_app_or in H as [H|H]; [|tauto].
      vm_compute in H. intuition discriminate.
    + intros H. vm_compute in H. intuition discriminate.
  - unfold before.
    change (arch ++ [DQ] ++ attrs2 ++ lit ">" ++ os ++ lit "</type>" ++ rest)
      with (arch ++ (DQ :: []) ++ (attrs2 ++ lit ">" ++ os ++ lit "</type>" ++ rest)).
    rewrite cut_first_char by exact Hdq2. reflexivity.
Qed.

Lemma scan_type_skips pre : forall rest,
  forallb (fun l => negb (is_type_line (strip l))) pre = true ->
  scan_type (pre ++ rest) = scan_type rest.
Proof.
  induction pre as [|l pre IH]; intros rest H; [reflexivity|].
  cbn [forallb] in H. apply andb_prop in H as [H1 H2].
  apply negb_true_iff in H1. cbn [app scan_type]. rewrite H1. now apply IH.
Qed.

(** X6.  When both queries succeed and the first line of the raw
    configuration that is a guest-type tag reads, stripped,
    [<type ... arch="A" ...>T</type>...] (no [>] and no double quote before
    the ones shown, no [<] in [T]), [os_details] returns a mapping with
    [Guest OS] = [T] and [Architecture] = [A]; later tags are not read. *)
Theorem X6_os_details_reads_first_type_tag :
  forall (E : Type) (O : Oracle E) (w : World E) (name : str)
         (pre post : list str) (raw attrs1 arch attrs2 os rest : str),
    let p1 := fst (after_exec O (dominfo_command name) w) in
    let wa := snd (after_exec O (dominfo_command name) w) in
    let p2 := fst (after_exec O (dumpxml_command name) wa) in
    let wb := snd (after_exec O (dumpxml_command name) wa) in
    returncode p1 = 0%Z -> returncode p2 = 0%Z ->
    splitlines (proc_stdout p2) = pre ++ raw :: post ->
    forallb (fun l => negb (is_type_line (strip l))) pre = true ->
    strip raw = type_tag attrs1 arch attrs2 os rest ->
    ~ In GT (attrs1 ++ arch ++ attrs2) -> ~ In DQ (attrs1 ++ arch) ->
    ~ In LT os ->
    exists info,
      os_details O name w = (Ret info, wb)
      /\ dict_get (lit "Guest OS") info = Some os
      /\ dict_get (lit "Architecture") info = Some arch.
Proof.
  intros E O w name pre post raw attrs1 arch attrs2 os rest p1 wa p2 wb
         H1 H2 Hlines Hpre Hraw Hgt Hdq Hlt.
  destruct (os_details_run O name w H1 H2) as (os' & arch' & Hscan & Hrun).
  fold p1 wa p2 wb in Hscan, Hrun.
  rewrite Hlines, scan_type_skips in Hscan by exact Hpre.
  cbn [scan_type] in Hscan. rewrite Hraw in Hscan.
  destruct (type_tag_scan attrs1 arch attrs2 os rest Hgt Hdq Hlt)
    as (Ht & Ha & Hb & Hc & Hd).
  rewrite Ht, Ha, Hb, Hc, Hd in Hscan. injection Hscan as <- <-.
  eexists. split; [exact Hrun|]. split.
  - rewrite dict_get_set_other by (vm_compute; discriminate).
    apply dict_get_set_same.
  - apply dict_get_set_same.
Qed.

Lemma X6_os_details_reads_first_type_tag_witness :
  let w := test_world
             [(completed 0 (lit "Name: vm1" ++ [NL]) [], []);
              (completed 0 (lit "<domain>" ++ [NL] ++ lit "  <os>" ++ [NL]
                            ++ lit "    <type arch=" ++ quoted (lit "x86_64")
                            ++ lit " machine=" ++ quoted (lit "pc") ++ lit ">hvm</type>"
                            ++ [NL] ++ lit "  </os>" ++ [NL]) [], [])] [] [] in
  exists info w',
    os_details test_oracle (lit "vm1") w = (Ret info, w')
    /\ dict_get (lit "Guest OS") info = Some (lit "hvm")
    /\ dict_get (lit "Architecture") info = Some (lit "x86_64").
Proof.
  intros w.
  destruct (@X6_os_details_reads_first_type_tag TestEnv test_oracle w (lit "vm1")
              [lit "<domain>"; lit "  <os>"] [lit "  </os>"]
              (lit "    <type arch=" ++ quoted (lit "x86_64")
               ++ lit " machine=" ++ quoted (lit "pc") ++ lit ">hvm</type>")
              (lit " ") (lit "x86_64")
              (lit " machine=" ++ quoted (lit "pc")) (lit "hvm") [])
    as (info & Hrun & Hos & Harch).
  - vm_compute. reflexivity.
  - vm_compute. reflexivity.
  - vm_compute. reflexivity.
  - vm_compute. reflexivity.
  - vm_compute. reflexivity.
  - vm_compute. intuition discriminate.
  - vm_compute. intuition discriminate.
  - vm_compute. intuition discriminate.
  - exists info. eexists. split; [exact Hrun|]. split; assumption.
Defined.

(** X25.  The record [list_vms] makes for a domain reads its fields off
    the [dominfo] text: the state is the stripped value of the last line
    whose key, stripped, is [State], the guest type that of the last line
    with the key [OS Type]. *)
Theorem X25_summary_reads_state_and_os_type :
  forall (E : Type) (O : Oracle E) (w : World E) (name : str)
         (earlier later : list str) (k v : str),
    let p := fst (after_exec O (dominfo_command name) w) in
    returncode p = 0%Z ->
    splitlines (proc_stdout p) = earlier ++ (k ++ COLON :: v) :: later ->
    ~ In COLON k ->
    Forall (fun l => line_key l <> Some (strip k)) later ->
    exists vm,
      vm_summary O name w = (Ret vm, snd (after_exec O (dominfo_command name) w))
      /\ vm_name vm = name
      /\ (strip k = lit "State" -> vm_state vm = strip v)
      /\ (strip k = lit "OS Type" -> vm_os_type vm = strip v).
Proof.
  intros E O w name earlier later k v p Hrc Hlines Hk Hlater.
  assert (Hget : dict_get (strip k) (detail_mapping (proc_stdout p))
                 = Some (strip v)).
  { unfold detail_mapping. rewrite Hlines, parse_info_app. cbn [parse_info].
    rewrite parse_info_other_keys by exact Hlater.
    change (lit ":") with [COLON].
    change (k ++ COLON :: v) with (k ++ [COLON] ++ v).
    rewrite cut_first_char by exact Hk.
    apply dict_get_set_same. }
  eexists. split; [apply vm_summary_run; exact Hrc|].
  cbn [vm_name vm_state vm_os_type]. fold p.
  split; [reflexivity|].
  split; intros Hkey; rewrite Hkey in Hget; unfold dict_get_default;
    now rewrite Hget.
Qed.

Lemma X25_summary_reads_state_and_os_type_witness :
  let w := test_world
             [(completed 0 (lit "Name:           vm1" ++ [NL]
                            ++ lit "State:          shut off" ++ [NL]
                            ++ lit "Autostart:      disable" ++ [NL]) [], [])]
             [] [] in
  exists vm w',
    vm_summary test_oracle (lit "vm1") w = (Ret vm, w')
    /\ vm_state vm = lit "shut off".
Proof.
  intros w.
  destruct (@X25_summary_reads_state_and_os_type TestEnv test_oracle w (lit "vm1")
              [lit "Name:           vm1"] [lit "Autostart:      disable"]
              (lit "State") (lit "          shut off"))
    as (vm & Hrun & _ & Hstate & _).
  - vm_compute. reflexivity.
  - vm_compute. reflexivity.
  - vm_compute. intuition discriminate.
  - repeat constructor. vm_compute. discriminate.
  - exists vm. eexists. split; [exact Hrun|].
    rewrite Hstate by (vm_compute; reflexivity). vm_compute. reflexivity.
Defined.
(* ================================================================== *)
(** * More on the temporary directory, the conversions and the store *)
(* ================================================================== *)

Lemma fs_lookup_rmtree_gone dir p fs :
  p = dir \/ is_under dir p = true -> fs_lookup p (rmtree dir fs) = None.
Proof.
  intros Hp. induction fs as [|[q n] fs IH]; [reflexivity|].
  unfold rmtree in *. cbn [filter fst].
  destruct (negb (str_eqb q dir || is_under dir q)) eqn:Ekeep; [|exact IH].
  cbn [fs_lookup]. destruct (str_eqb p q) eqn:Epq; [|exact IH].
  apply str_eqb_eq in Epq. subst q. exfalso.
  apply negb_true_iff, orb_false_iff in Ekeep as [E1 E2].
  destruct Hp as [->|Hp]; [now rewrite str_eqb_refl in E1 | congruence].
Qed.

Lemma with_TemporaryDirectory_cleaned {E A} (O : Oracle E)
      (body : str -> M E A) (w : World E) :
  cleaned (tmpdir_of O w) (snd (with_TemporaryDirectory O body w)).
Proof.
  rewrite with_TemporaryDirectory_steps. intros p Hp.
  cbn [snd leave_tmpdir]. unfold leave_tmpdir. cbn [w_fs set_fs].
  now apply fs_lookup_rmtree_gone.
Qed.

Lemma bind_keeps_fs_after {E A B} (c : M E A) (k : A -> M E B) (w : World E) :
  (forall a, keeps_fs (k a)) ->
  w_fs (snd (bind c k w)) = w_fs (snd (c w)).
Proof.
  intros Hk. unfold bind. destruct (c w) as [[a|e] w1]; [apply Hk | reflexivity].
Qed.

Lemma keeps_fs_ret {E A} (a : A) : keeps_fs (@ret E A a).
Proof. intros w. reflexivity. Qed.

Lemma keeps_fs_PathStore_set {E} (O : Oracle E) k v : keeps_fs (PathStore_set O k v).
Proof. intros w. apply PathStore_set_fs. Qed.

Lemma keeps_fs_bind {E A B} (c : M E A) (k : A -> M E B) :
  keeps_fs c -> (forall a, keeps_fs (k a)) -> keeps_fs (bind c k).
Proof.
  intros Hc Hk w. rewrite bind_keeps_fs_after by exact Hk. apply Hc.
Qed.

(** X7.  Whatever happens inside, nothing is left of the temporary
    directory after [validate_vm_config], [ova_to_qcow2] or
    [qcow2_to_ova]: neither the directory nor any path below it exists
    when the call has returned or raised. *)
Theorem X7_temporary_directory_is_removed :
  forall (E : Type) (O : Oracle E) (w : World E)
         (name ova_path output_qcow2 qcow2_path output_ova vm_name : str),
    cleaned (tmpdir_of O w) (snd (validate_vm_config O name w))
    /\ cleaned (tmpdir_of O w) (snd (ova_to_qcow2 O ova_path output_qcow2 w))
    /\ cleaned (tmpdir_of O w)
               (snd (qcow2_to_ova O qcow2_path output_ova vm_name w)).
Proof.
  intros E O w name ova_path output_qcow2 qcow2_path output_ova vm_name.
  split; [|split]; intros p Hp.
  - unfold validate_vm_config. rewrite bind_keeps_fs_after.
    + now apply with_TemporaryDirectory_cleaned.
    + intros proc. destruct (returncode proc =? 0)%Z; apply keeps_fs_ret.
  - unfold ova_to_qcow2. rewrite bind_keeps_fs_after.
    + now apply with_TemporaryDirectory_cleaned.
    + intros _. apply keeps_fs_bind; intros; apply keeps_fs_PathStore_set.
  - unfold qcow2_to_ova. rewrite bind_keeps_fs_after.
    + now apply with_TemporaryDirectory_cleaned.
    + intros _. apply keeps_fs_bind; intros; apply keeps_fs_PathStore_set.
Qed.

(** X8.  When the configuration dump of [validate_vm_config] fails, the
    call raises the [CommandError] of that command: the dump is the only
    command that was run, so the validator is not started, and the
    temporary directory is removed. *)
Theorem X8_validate_dump_failure :
  forall (E : Type) (O : Oracle E) (w : World E) (name : str),
    let dump := validate_dump O name w in
    returncode (fst dump) <> 0%Z ->
    validate_vm_config O name w
    = (Raise (CommandError (run_error_message (dumpxml_command name) (fst dump))),
       leave_tmpdir (tmpdir_of O w) (snd dump))
    /\ w_trace (snd (validate_vm_config O name w))
       = w_trace w ++ [dumpxml_command name].
Proof.
  intros E O w name dump Hrc.
  assert (Hrun : validate_vm_config O name w
    = (Raise (CommandError (run_error_message (dumpxml_command name) (fst dump))),
       leave_tmpdir (tmpdir_of O w) (snd dump))).
  { unfold validate_vm_config. unfold bind at 1.
    erewrite with_TemporaryDirectory_result.
    2:{ unfold bind at 1.
        change [lit "virsh"; lit "dumpxml"; name] with (dumpxml_command name).
        rewrite run_after_exec. fold (validate_dump O name w). fold dump.
        cbv zeta. apply Z.eqb_neq in Hrc. rewrite Hrc. reflexivity. }
    reflexivity. }
  split; [exact Hrun|].
  rewrite Hrun. cbn [snd]. unfold leave_tmpdir, dump, validate_dump.
  cbn [w_trace set_fs]. rewrite after_exec_trace. reflexivity.
Qed.

Lemma X8_validate_dump_failure_witness :
  let w := test_world [(completed 1 [] (lit "error: no domain" ++ [NL]), [])] [] [] in
  w_trace (snd (validate_vm_config test_oracle (lit "vm1") w))
  = [dumpxml_command (lit "vm1")].
Proof.
  intros w.
  assert (Hrc : returncode (fst (validate_dump test_oracle (lit "vm1") w)) <> 0%Z)
    by (vm_compute; discriminate).
  exact (proj2 (X8_validate_dump_failure test_oracle w (lit "vm1") Hrc)).
Defined.

(** ** The table of the Path Store across the steps of the program *)

Lemma keeps_db_ret {E A} (a : A) : keeps_db (@ret E A a).
Proof. intros w. reflexivity. Qed.

Lemma keeps_db_raise {E A} (e : exn) : keeps_db (@raise E A e).
Proof. intros w. reflexivity. Qed.

Lemma keeps_db_bind {E A B} (c : M E A) (k : A -> M E B) :
  keeps_db c -> (forall a, keeps_db (k a)) -> keeps_db (bind c k).
Proof.
  intros Hc Hk w. unfold bind. specialize (Hc w).
  destruct (c w) as [[a|e] w1]; cbn [snd] in *; [|exact Hc].
  now rewrite Hk.
Qed.

Lemma keeps_db_subprocess_run {E} (O : Oracle E) command :
  keeps_db (subprocess_run O command).
Proof. intros w. rewrite subprocess_run_after_exec. apply after_exec_db. Qed.

Lemma keeps_db_run {E} (O : Oracle E) command : keeps_db (_run O command).
Proof.
  intros w. rewrite run_after_exec. cbn [snd]. apply after_exec_db.
Qed.

Lemma keeps_db_modify_fs {E} (f : FS -> FS) : keeps_db (@modify_fs E f).
Proof. intros w. reflexivity. Qed.

Lemma keeps_db_get_fs {E} : keeps_db (@get_fs E).
Proof. intros w. reflexivity. Qed.

Lemma keeps_db_read_file {E} p : keeps_db (@read_file E p).
Proof. intros w. unfold read_file. destruct (fs_read p (w_fs w)); reflexivity. Qed.

Lemma keeps_db_mkdir_parents {E} p : keeps_db (@mkdir_parents E p).
Proof. intros w. unfold mkdir_parents. destruct (mkdir_p p (w_fs w)); reflexivity. Qed.

Lemma keeps_db_write_text {E} p text : keeps_db (@write_text E p text).
Proof.
  intros w. unfold write_text.
  destruct (can_open_for_writing p (w_fs w)); [|reflexivity].
  destruct (encodable text); reflexivity.
Qed.

Lemma keeps_db_write_bytes {E} p data : keeps_db (@write_bytes E p data).
Proof.
  intros w. unfold write_bytes.
  destruct (can_open_for_writing p (w_fs w)); reflexivity.
Qed.

Lemma keeps_db_untar {E} (O : Oracle E) ova tmp : keeps_db (untar O ova tmp).
Proof.
  intros w. unfold untar, bind, read_file.
  destruct (fs_read ova (w_fs w)) as [data|]; [|reflexivity].
  destruct (tar_unpack O data) as [members|]; [|reflexivity].
  destruct (extractall tmp members (w_fs w)). reflexivity.
Qed.

Lemma keeps_db_ask {E A} (f : E -> A * E) : keeps_db (ask f).
Proof. intros w. unfold ask. destruct (f (w_env w)). reflexivity. Qed.

Lemma keeps_db_with_TemporaryDirectory {E A} (O : Oracle E) (body : str -> M E A) :
  (forall tmp, keeps_db (body tmp)) -> keeps_db (with_TemporaryDirectory O body).
Proof.
  intros Hb w. rewrite with_TemporaryDirectory_steps. cbn [snd].
  unfold leave_tmpdir. cbn [w_db set_fs]. now rewrite Hb.
Qed.

Ltac keeps_db_steps :=
  repeat first
    [ apply keeps_db_ret
    | apply keeps_db_raise
    | apply keeps_db_run
    | apply keeps_db_subprocess_run
    | apply keeps_db_modify_fs
    | apply keeps_db_mkdir_parents
    | apply keeps_db_write_text
    | apply keeps_db_write_bytes
    | apply keeps_db_untar
    | apply keeps_db_get_fs
    | apply keeps_db_read_file
    | apply keeps_db_ask
    | apply keeps_db_with_TemporaryDirectory; intros ?; cbv zeta
    | apply keeps_db_bind; [|intros ?]
    | match goal with
      | |- keeps_db (match ?x with _ => _ end) => destruct x
      end ].

Lemma select_after_two_sets now1 now2 k1 k2 v1 v2 t :
  k1 <> k2 ->
  let t' := upsert now2 k2 v2 (upsert now1 k1 v1 t) in
  select_value k1 t' = Some v1
  /\ select_value k2 t' = Some v2
  /\ forall k, k <> k1 -> k <> k2 -> select_value k t' = select_value k t.
Proof.
  intros Hne t'. unfold t'. split; [|split].
  - rewrite select_upsert_other by exact Hne. apply select_upsert_same.
  - apply select_upsert_same.
  - intros k H1 H2. now rewrite !select_upsert_other.
Qed.

(** The table after a step that leaves it alone and two [set]s, whichever
    way they ended: the second [set] can fail when the first has been
    committed. *)
Lemma two_sets_table {E} (O : Oracle E) (c : M E unit) k1 v1 k2 v2
      (w w' : World E) res :
  keeps_db c ->
  encodable k1 = true -> encodable k2 = true ->
  (c ;;; PathStore_set O k1 v1 ;;; PathStore_set O k2 v2) w = (res, w') ->
  match res with
  | Ret _ =>
      exists t1 t2, w_db w' = upsert t2 k2 v2 (upsert t1 k1 v1 (w_db w))
  | Raise e =>
      w_db w' = w_db w
      \/ (e = OtherError (lit "UnicodeEncodeError")
          /\ encodable v1 = true /\ encodable v2 = false
          /\ exists t1, w_db w' = upsert t1 k1 v1 (w_db w))
  end.
Proof.
  intros Hk Hk1 Hk2 Hrun. unfold bind at 1 in Hrun. specialize (Hk w).
  destruct (c w) as [[u|e] w1]; cbn [snd] in Hk.
  - unfold bind in Hrun. rewrite PathStore_set_cases, Hk1 in Hrun.
    cbn [andb] in Hrun.
    destruct (encodable v1) eqn:E1.
    + rewrite PathStore_set_cases, Hk2 in Hrun. cbn [andb] in Hrun.
      destruct (encodable v2) eqn:E2.
      * injection Hrun as <- <-. unfold after_set. cbn [w_db set_db set_env].
        rewrite Hk. eexists. eexists. reflexivity.
      * injection Hrun as <- <-. right. unfold after_set.
        cbn [w_db set_db set_env]. rewrite Hk.
        split; [reflexivity|]. split; [reflexivity|]. split; [reflexivity|].
        eexists. reflexivity.
    + injection Hrun as <- <-. now left.
  - injection Hrun as <- <-. now left.
Qed.

Lemma ova_to_qcow2_table {E} (O : Oracle E) (w w' : World E) ova_path output_qcow2 res :
  ova_to_qcow2 O ova_path output_qcow2 w = (res, w') ->
  match res with
  | Ret _ =>
      exists t1 t2,
        w_db w' = upsert t2 (lit "last_qcow2_output") (resolve O output_qcow2)
                    (upsert t1 (lit "last_ova_input") (resolve O ova_path) (w_db w))
  | Raise e =>
      w_db w' = w_db w
      \/ (e = OtherError (lit "UnicodeEncodeError")
          /\ encodable (resolve O ova_path) = true
          /\ encodable (resolve O output_qcow2) = false
          /\ exists t1, w_db w' = upsert t1 (lit "last_ova_input")
                                     (resolve O ova_path) (w_db w))
  end.
Proof.
  unfold ova_to_qcow2. apply two_sets_table; [|reflexivity|reflexivity].
  keeps_db_steps.
Qed.

Lemma qcow2_to_ova_table {E} (O : Oracle E) (w w' : World E)
      qcow2_path output_ova vm_name res :
  qcow2_to_ova O qcow2_path output_ova vm_name w = (res, w') ->
  match res with
  | Ret _ =>
      exists t1 t2,
        w_db w' = upsert t2 (lit "last_ova_output") (resolve O output_ova)
                    (upsert t1 (lit "last_qcow2_input") (resolve O qcow2_path) (w_db w))
  | Raise e =>
      w_db w' = w_db w
      \/ (e = OtherError (lit "UnicodeEncodeError")
          /\ encodable (resolve O qcow2_path) = true
          /\ encodable (resolve O output_ova) = false
          /\ exists t1, w_db w' = upsert t1 (lit "last_qcow2_input")
                                     (resolve O qcow2_path) (w_db w))
  end.
Proof.
  unfold qcow2_to_ova. apply two_sets_table; [|reflexivity|reflexivity].
  unfold stat_size, tar_add. keeps_db_steps.
Qed.





(** A resolved output path that cannot be encoded: the conversion is
    done, the input path is stored, and the call raises. *)
Example second_path_is_not_stored :
  let O := {| exec := exec test_oracle;
              current_timestamp := current_timestamp test_oracle;
              mkdtemp := mkdtemp test_oracle;
              token_hex := token_hex test_oracle;
              uuid4 := uuid4 test_oracle;
              json_loads := json_loads test_oracle;
              int_of_str := int_of_str test_oracle;
              tar_pack := tar_pack test_oracle;
              tar_unpack := tar_unpack test_oracle;
              resolve := fun p => if str_eqb p (lit "out.qcow2")
                                  then lit "/home/" ++ [56497%N] ++ lit "/out.qcow2"
                                  else p;
              scan_rank := scan_rank test_oracle;
              home := home test_oracle |} in
  let w := test_world [(completed 0 [] [], [])]
                      [(lit "/in.ova", File (lit "ova-with-disk"))] [] in
  let r := ova_to_qcow2 O (lit "/in.ova") (lit "out.qcow2") w in
  fst r = Raise (OtherError (lit "UnicodeEncodeError"))
  /\ select_value (lit "last_ova_input") (w_db (snd r)) = Some (lit "/in.ova")
  /\ select_value (lit "last_qcow2_output") (w_db (snd r)) = None.
Proof. vm_compute. repeat split. Qed.

(** ** Saved paths on the command line *)

Lemma resolved_given v k hint db :
  v <> [] -> resolved (Some v) k hint db = Ret v.
Proof. intros Hv. unfold resolved. destruct v; [congruence | reflexivity]. Qed.

Lemma resolved_saved v k hint db :
  select_value k db = Some v -> v <> [] -> resolved None k hint db = Ret v.
Proof.
  intros Hs Hv. unfold resolved. rewrite Hs.
  destruct v; [congruence | reflexivity].
Qed.

(** X11.  After a successful [ova_to_qcow2], as long as the table is not
    changed, the command [ova-to-qcow2] without [--ova] and [--out] does
    what it does with the resolved paths of that conversion as
    arguments. *)
Theorem X11_ova_to_qcow2_repeats_with_saved_paths :
  forall (E : Type) (O : Oracle E) (w w1 w2 : World E)
         (ova_path output_qcow2 : str),
    ova_to_qcow2 O ova_path output_qcow2 w = (Ret tt, w1) ->
    resolve O ova_path <> [] -> resolve O output_qcow2 <> [] ->
    w_db w2 = w_db w1 ->
    dispatch O (ArgsOvaToQcow2 None None) w2
    = dispatch O (ArgsOvaToQcow2 (Some (resolve O ova_path))
                                 (Some (resolve O output_qcow2))) w2.
Proof.
  intros E O w w1 w2 ova_path output_qcow2 Hrun Hin Hout Hdb.
  apply ova_to_qcow2_table in Hrun as (t1 & t2 & Ht).
  destruct (@select_after_two_sets t1 t2 (lit "last_ova_input")
              (lit "last_qcow2_output") (resolve O ova_path)
              (resolve O output_qcow2) (w_db w))
    as (H1 & H2 & _); [vm_compute; discriminate|].
  rewrite <- Ht, <- Hdb in H1, H2.
  cbn [dispatch]. unfold bind.
  repeat first [ rewrite resolve_with_saved_pure by reflexivity
               | erewrite resolved_saved by eassumption
               | erewrite resolved_given by eassumption ].
  reflexivity.
Qed.

(** X12.  After a successful [qcow2_to_ova], as long as the table is not
    changed, the command [qcow2-to-ova] without [--qcow2] and [--out] does
    what it does with the resolved paths of that conversion as
    arguments. *)
Theorem X12_qcow2_to_ova_repeats_with_saved_paths :
  forall (E : Type) (O : Oracle E) (w w1 w2 : World E)
         (qcow2_path output_ova vm_name name : str),
    qcow2_to_ova O qcow2_path output_ova vm_name w = (Ret tt, w1) ->
    resolve O qcow2_path <> [] -> resolve O output_ova <> [] ->
    w_db w2 = w_db w1 ->
    dispatch O (ArgsQcow2ToOva None None name) w2
    = dispatch O (ArgsQcow2ToOva (Some (resolve O qcow2_path))
                                 (Some (resolve O output_ova)) name) w2.
Proof.
  intros E O w w1 w2 qcow2_path output_ova vm_name name Hrun Hin Hout Hdb.
  apply qcow2_to_ova_table in Hrun as (t1 & t2 & Ht).
  destruct (@select_after_two_sets t1 t2 (lit "last_qcow2_input")
              (lit "last_ova_output") (resolve O qcow2_path)
              (resolve O output_ova) (w_db w))
    as (H1 & H2 & _); [vm_compute; discriminate|].
  rewrite <- Ht, <- Hdb in H1, H2.
  cbn [dispatch]. unfold bind.
  repeat first [ rewrite resolve_with_saved_pure by reflexivity
               | erewrite resolved_saved by eassumption
               | erewrite resolved_given by eassumption ].
  reflexivity.
Qed.

(** X13.  The two conversions do not feed each other: [ova_to_qcow2]
    saves its output under [last_qcow2_output], which [qcow2-to-ova] does
    not read.  So when no QCOW2 input was saved before, [qcow2-to-ova]
    without [--qcow2] fails for want of a path even right after a
    successful [ova_to_qcow2], and runs nothing. *)
Theorem X13_conversions_are_not_chained :
  forall (E : Type) (O : Oracle E) (w w1 : World E)
         (ova_path output_qcow2 name : str) (out : option str),
    ova_to_qcow2 O ova_path output_qcow2 w = (Ret tt, w1) ->
    falsy (select_value (lit "last_qcow2_input") (w_db w)) = true ->
    dispatch O (ArgsQcow2ToOva None out name) w1
    = (Raise (CommandError (no_saved_message (lit "entrada QCOW2"))), w1).
Proof.
  intros E O w w1 ova_path output_qcow2 name out Hrun Hfalsy.
  apply ova_to_qcow2_table in Hrun as (t1 & t2 & Ht).
  destruct (@select_after_two_sets t1 t2 (lit "last_ova_input")
              (lit "last_qcow2_output") (resolve O ova_path)
              (resolve O output_qcow2) (w_db w))
    as (_ & _ & H3); [vm_compute; discriminate|].
  specialize (H3 (lit "last_qcow2_input")). rewrite <- Ht in H3.
  cbn [dispatch]. unfold bind. rewrite resolve_with_saved_pure by reflexivity.
  unfold resolved. cbn [falsy negb].
  rewrite H3 by (vm_compute; discriminate). now rewrite Hfalsy.
Qed.

Lemma X11_ova_to_qcow2_repeats_with_saved_paths_witness :
  let w := test_world [(completed 0 [] [], [])]
                      [(lit "/in.ova", File (lit "ova-with-disk"))] [] in
  let w1 := snd (ova_to_qcow2 test_oracle (lit "/in.ova") (lit "/out/d.qcow2") w) in
  dispatch test_oracle (ArgsOvaToQcow2 None None) w1
  = dispatch test_oracle (ArgsOvaToQcow2 (Some (lit "/in.ova"))
                                         (Some (lit "/out/d.qcow2"))) w1.
Proof.
  intros w w1.
  assert (Hrun : ova_to_qcow2 test_oracle (lit "/in.ova") (lit "/out/d.qcow2") w
                 = (Ret tt, w1)) by (vm_compute; reflexivity).
  assert (Hin : resolve test_oracle (lit "/in.ova") <> [])
    by (vm_compute; discriminate).
  assert (Hout : resolve test_oracle (lit "/out/d.qcow2") <> [])
    by (vm_compute; discriminate).
  exact (@X11_ova_to_qcow2_repeats_with_saved_paths TestEnv test_oracle w w1 w1
           (lit "/in.ova") (lit "/out/d.qcow2") Hrun Hin Hout eq_refl).
Defined.

Lemma X12_qcow2_to_ova_repeats_with_saved_paths_witness :
  let w := test_world
             [(completed 0 [] [], [(lit "/tmp/tmpvm/vm.vmdk", lit "VMDKDATA")]);
              (completed 0 (lit "{" ++ quoted (lit "virtual-size") ++ lit ": 1024}")
                         [], [])]
             [(lit "/tmp", Dir); (lit "/d.qcow2", File (lit "QCOW"))] [] in
  let w1 := snd (qcow2_to_ova test_oracle (lit "/d.qcow2") (lit "/out/vm.ova")
                              (lit "vm") w) in
  dispatch test_oracle (ArgsQcow2ToOva None None (lit "vm2")) w1
  = dispatch test_oracle (ArgsQcow2ToOva (Some (lit "/d.qcow2"))
                                         (Some (lit "/out/vm.ova")) (lit "vm2")) w1.
Proof.
  intros w w1.
  assert (Hrun : qcow2_to_ova test_oracle (lit "/d.qcow2") (lit "/out/vm.ova")
                              (lit "vm") w = (Ret tt, w1))
    by (vm_compute; reflexivity).
  assert (Hin : resolve test_oracle (lit "/d.qcow2") <> [])
    by (vm_compute; discriminate).
  assert (Hout : resolve test_oracle (lit "/out/vm.ova") <> [])
    by (vm_compute; discriminate).
  exact (@X12_qcow2_to_ova_repeats_with_saved_paths TestEnv test_oracle w w1 w1
           (lit "/d.qcow2") (lit "/out/vm.ova") (lit "vm") (lit "vm2")
           Hrun Hin Hout eq_refl).
Defined.

Lemma X13_conversions_are_not_chained_witness :
  let w := test_world [(completed 0 [] [], [])]
                      [(lit "/in.ova", File (lit "ova-with-disk"))] [] in
  let w1 := snd (ova_to_qcow2 test_oracle (lit "/in.ova") (lit "/out/d.qcow2") w) in
  dispatch test_oracle (ArgsQcow2ToOva None (Some (lit "/out/vm.ova")) (lit "vm")) w1
  = (Raise (CommandError (no_saved_message (lit "entrada QCOW2"))), w1).
Proof.
  intros w w1.
  assert (Hrun : ova_to_qcow2 test_oracle (lit "/in.ova") (lit "/out/d.qcow2") w
                 = (Ret tt, w1)) by (vm_compute; reflexivity).
  assert (Hf : falsy (select_value (lit "last_qcow2_input") (w_db w)) = true)
    by (vm_compute; reflexivity).
  exact (@X13_conversions_are_not_chained TestEnv test_oracle w w1
           (lit "/in.ova") (lit "/out/d.qcow2") (lit "vm")
           (Some (lit "/out/vm.ova")) Hrun Hf).
Defined.

(** ** Failures of the conversions *)



(** X15.  When the conversion to VMDK fails, [qcow2_to_ova] raises the
    [CommandError] of that command at once: it is the only command that
    was run, so the image is not queried and no archive is written by the
    program; the temporary directory is removed. *)
Theorem X15_export_stops_when_conversion_fails :
  forall (E : Type) (O : Oracle E) (w : World E)
         (qcow2_path output_ova vm_name : str),
    let vmdk_path := path_join (tmpdir_of O w) (vm_name ++ lit ".vmdk") in
    let cmd := export_convert_command qcow2_path vmdk_path in
    let conv := after_exec O cmd (enter_tmpdir O w) in
    returncode (fst conv) <> 0%Z ->
    qcow2_to_ova O qcow2_path output_ova vm_name w
    = (Raise (CommandError (run_error_message cmd (fst conv))),
       leave_tmpdir (tmpdir_of O w) (snd conv))
    /\ w_trace (snd (qcow2_to_ova O qcow2_path output_ova vm_name w))
       = w_trace w ++ [cmd].
Proof.
  intros E O w qcow2_path output_ova vm_name vmdk_path cmd conv Hrc.
  assert (Hrun : qcow2_to_ova O qcow2_path output_ova vm_name w
    = (Raise (CommandError (run_error_message cmd (fst conv))),
       leave_tmpdir (tmpdir_of O w) (snd conv))).
  { unfold qcow2_to_ova. unfold bind at 1.
    erewrite with_TemporaryDirectory_result.
    2:{ cbv zeta. unfold bind at 1. fold vmdk_path.
        change [lit "qemu-img"; lit "convert"; lit "-O"; lit "vmdk"; lit "-o";
                lit "subformat=streamOptimized"; qcow2_path; vmdk_path]
          with cmd.
        rewrite run_after_exec. fold conv. cbv zeta.
        apply Z.eqb_neq in Hrc. rewrite Hrc. reflexivity. }
    reflexivity. }
  split; [exact Hrun|].
  rewrite Hrun. cbn [snd]. unfold leave_tmpdir, conv.
  cbn [w_trace set_fs]. rewrite after_exec_trace. reflexivity.
Qed.

Lemma X15_export_stops_when_conversion_fails_witness :
  let w := test_world [(completed 1 [] (lit "qemu-img: Could not open"), [])]
                      [(lit "/tmp", Dir)] [] in
  w_trace (snd (qcow2_to_ova test_oracle (lit "/d.qcow2") (lit "/out/vm.ova")
                             (lit "vm") w))
  = [export_convert_command (lit "/d.qcow2") (lit "/tmp/tmpvm/vm.vmdk")].
Proof.
  intros w.
  assert (Hrc : returncode
                  (fst (after_exec test_oracle
                          (export_convert_command (lit "/d.qcow2")
                             (path_join (tmpdir_of test_oracle w)
                                        (lit "vm" ++ lit ".vmdk")))
                          (enter_tmpdir test_oracle w))) <> 0%Z)
    by (vm_compute; discriminate).
  exact (proj2 (@X15_export_stops_when_conversion_fails TestEnv test_oracle w
                  (lit "/d.qcow2") (lit "/out/vm.ova") (lit "vm") Hrc)).
Defined.

(** ** When the export goes through *)




(* ================================================================== *)
(** * More on [add_network_compat] *)
(* ================================================================== *)

Lemma has_newline_join sep ls :
  has_newline sep = false ->
  forallb (fun l => negb (has_newline l)) ls = true ->
  has_newline (join sep ls) = false.
Proof.
  intros Hsep. induction ls as [|l ls IH]; intros H; [reflexivity|].
  cbn [forallb] in H. apply andb_prop in H as [Hl Hls].
  apply negb_true_iff in Hl.
  destruct ls as [|l' ls']; [exact Hl|].
  change (join sep (l :: l' :: ls')) with (l ++ sep ++ join sep (l' :: ls')).
  now rewrite !has_newline_app, Hl, Hsep, IH.
Qed.

Lemma netplan_static_dedent_lines d ip gw extra :
  dedent_lines
    ([ [];
       sp 12 ++ lit "network:";
       sp 14 ++ lit "version: 2";
       sp 14 ++ lit "renderer: networkd";
       sp 14 ++ lit "ethernets:";
       sp 16 ++ (lit "ens" ++ d) ++ lit ":";
       sp 18 ++ lit "dhcp4: false";
       lit "      addresses: [" ++ ip ++ lit "]";
       lit "      routes:";
       lit "        - to: default";
       lit "          via: " ++ gw ]
     ++ match extra with
        | Some j => [ lit "      nameservers:";
                      lit "        addresses: [" ++ j ++ lit "]" ]
        | None => []
        end
     ++ [ sp 16 ++ (lit "enp0" ++ d) ++ lit ":";
          sp 18 ++ lit "dhcp4: true";
          sp 18 ++ lit "optional: true";
          sp 12 ])
  = [ [];
      lit "      network:";
      lit "        version: 2";
      lit "        renderer: networkd";
      lit "        ethernets:";
      lit "          ens" ++ d ++ lit ":";
      lit "            dhcp4: false";
      lit "addresses: [" ++ ip ++ lit "]";
      lit "routes:";
      lit "  - to: default";
      lit "    via: " ++ gw ]
    ++ match extra with
       | Some j => [ lit "nameservers:"; lit "  addresses: [" ++ j ++ lit "]" ]
       | None => []
       end
    ++ [ lit "          enp0" ++ d ++ lit ":";
         lit "            dhcp4: true";
         lit "            optional: true";
         [] ].
Proof. destruct extra; reflexivity. Qed.

Lemma netplan_static_text d ip gw extra :
  has_newline d = false -> has_newline ip = false -> has_newline gw = false ->
  match extra with Some j => has_newline j = false | None => True end ->
  strip (dedent (join [NL]
    [ [];
      sp 12 ++ lit "network:";
      sp 14 ++ lit "version: 2";
      sp 14 ++ lit "renderer: networkd";
      sp 14 ++ lit "ethernets:";
      sp 16 ++ (lit "ens" ++ d) ++ lit ":";
      sp 18 ++ (lit "dhcp4: false" ++ [NL] ++ lit "      addresses: [" ++ ip
                ++ lit "]" ++ [NL] ++ lit "      routes:" ++ [NL]
                ++ lit "        - to: default" ++ [NL] ++ lit "          via: "
                ++ gw
                ++ match extra with
                   | Some j => [NL] ++ lit "      nameservers:" ++ [NL]
                               ++ lit "        addresses: [" ++ j ++ lit "]"
                   | None => []
                   end);
      sp 16 ++ (lit "enp0" ++ d) ++ lit ":";
      sp 18 ++ lit "dhcp4: true";
      sp 18 ++ lit "optional: true";
      sp 12 ])) ++ [NL]
  = lit "network:" ++ [NL]
    ++ lit "        version: 2" ++ [NL]
    ++ lit "        renderer: networkd" ++ [NL]
    ++ lit "        ethernets:" ++ [NL]
    ++ lit "          ens" ++ d ++ lit ":" ++ [NL]
    ++ lit "            dhcp4: false" ++ [NL]
    ++ lit "addresses: [" ++ ip ++ lit "]" ++ [NL]
    ++ lit "routes:" ++ [NL]
    ++ lit "  - to: default" ++ [NL]
    ++ lit "    via: " ++ gw ++ [NL]
    ++ match extra with
       | Some j => lit "nameservers:" ++ [NL]
                   ++ lit "  addresses: [" ++ j ++ lit "]" ++ [NL]
       | None => []
       end
    ++ lit "          enp0" ++ d ++ lit ":" ++ [NL]
    ++ lit "            dhcp4: true" ++ [NL]
    ++ lit "            optional: true" ++ [NL].
Proof.
  intros Hd Hip Hgw Hextra.
  match goal with
  | |- strip (dedent ?t) ++ _ = _ =>
      replace t with
        (join [NL]
           ([ [];
              sp 12 ++ lit "network:";
              sp 14 ++ lit "version: 2";
              sp 14 ++ lit "renderer: networkd";
              sp 14 ++ lit "ethernets:";
              sp 16 ++ (lit "ens" ++ d) ++ lit ":";
              sp 18 ++ lit "dhcp4: false";
              lit "      addresses: [" ++ ip ++ lit "]";
              lit "      routes:";
              lit "        - to: default";
              lit "          via: " ++ gw ]
            ++ match extra with
               | Some j => [ lit "      nameservers:";
                             lit "        addresses: [" ++ j ++ lit "]" ]
               | None => []
               end
            ++ [ sp 16 ++ (lit "enp0" ++ d) ++ lit ":";
                 sp 18 ++ lit "dhcp4: true";
                 sp 18 ++ lit "optional: true";
                 sp 12 ]))
        by (destruct extra; cbn [join app];
            repeat (rewrite <- app_assoc || rewrite <- app_comm_cons);
            rewrite ?app_nil_r; reflexivity)
  end.
  unfold dedent. rewrite split_nl_join.
  2:{ destruct extra; discriminate. }
  2:{ apply no_newline_lines.
      destruct extra; cbn [forallb app];
        rewrite ?has_newline_app, ?Hd, ?Hip, ?Hgw, ?Hextra; reflexivity. }
  rewrite netplan_static_dedent_lines.
  unfold strip.
  set (A := lit "etwork:" ++ [NL]
        ++ lit "        version: 2" ++ [NL]
        ++ lit "        renderer: networkd" ++ [NL]
        ++ lit "        ethernets:" ++ [NL]
        ++ lit "          ens" ++ d ++ lit ":" ++ [NL]
        ++ lit "            dhcp4: false" ++ [NL]
        ++ lit "addresses: [" ++ ip ++ lit "]" ++ [NL]
        ++ lit "routes:" ++ [NL]
        ++ lit "  - to: default" ++ [NL]
        ++ lit "    via: " ++ gw ++ [NL]
        ++ match extra with
           | Some j => lit "nameservers:" ++ [NL]
                       ++ lit "  addresses: [" ++ j ++ lit "]" ++ [NL]
           | None => []
           end
        ++ lit "          enp0" ++ d).
  set (T := lit ":" ++ [NL] ++ lit "            dhcp4: true" ++ [NL]
            ++ lit "            optional: true" ++ [NL]).
  match goal with
  | |- rstrip (lstrip ?x) ++ _ = _ =>
      replace x with ((NL :: lit "      n") ++ A ++ T)
        by (unfold A, T; destruct extra; cbn [join app];
            repeat (rewrite <- app_assoc || rewrite <- app_comm_cons);
            reflexivity)
  end.
  change (lstrip ((NL :: lit "      n") ++ A ++ T)) with ((110%N :: A) ++ T).
  rewrite rstrip_app by (vm_compute; intros Hx; discriminate Hx).
  change (rstrip T)
    with (lit ":" ++ [NL] ++ lit "            dhcp4: true" ++ [NL]
          ++ lit "            optional: true").
  unfold A. destruct extra;
    repeat (rewrite <- app_assoc || rewrite <- app_comm_cons); reflexivity.
Qed.

Lemma netplan_content_static index ip gw l :
  has_newline ip = false -> has_newline gw = false ->
  forallb (fun x => negb (has_newline x)) l = true ->
  netplan_content index (static_yaml ip gw (nameservers_yaml_of l))
  = netplan_static_document (str_of_Z index) ip gw l.
Proof.
  intros Hip Hgw Hl.
  unfold netplan_content, netplan_template, static_yaml, interface_name_of,
    legacy_name_of, netplan_static_document.
  destruct (str_of_Z_decimal index) as [Hd _].
  pose proof (decimal_no_newline _ Hd) as Hnl.
  destruct l as [|x l'].
  - exact (@netplan_static_text (str_of_Z index) ip gw None Hnl Hip Hgw I).
  - apply (@netplan_static_text (str_of_Z index) ip gw
             (Some (join (lit ", ") (x :: l'))) Hnl Hip Hgw).
    apply has_newline_join; [reflexivity | exact Hl].
Qed.

Lemma dns_list_no_newline dns :
  has_newline (opt_str dns) = false ->
  forallb (fun x => negb (has_newline x)) (dns_list_of dns) = true.
Proof.
  intros H. apply forallb_forall. intros x Hx.
  unfold dns_list_of in Hx. apply in_map_iff in Hx as (raw & <- & Hraw).
  apply filter_In in Hraw as [Hraw _].
  apply negb_true_iff. unfold has_newline.
  destruct (existsb (N.eqb NL) (strip raw)) eqn:Ee; [|reflexivity].
  apply existsb_exists in Ee as (c & Hin & Hc). apply N.eqb_eq in Hc. subst c.
  exfalso. apply (has_newline_false _ H).
  eapply split_char_incl; [exact Hraw | now apply strip_incl].
Qed.

(** ** Text that can be encoded *)

Lemma encodable_incl (a b : str) :
  (forall c, In c a -> In c b) -> encodable b = true -> encodable a = true.
Proof.
  unfold encodable. rewrite !forallb_forall. intros Hincl Hb c Hc.
  now apply Hb, Hincl.
Qed.

Lemma encodable_join sep ls :
  encodable sep = true -> forallb encodable ls = true ->
  encodable (join sep ls) = true.
Proof.
  intros Hsep. induction ls as [|l ls IH]; intros H; [reflexivity|].
  cbn [forallb] in H. apply andb_prop in H as [Hl Hls].
  destruct ls as [|l' ls']; [exact Hl|].
  change (join sep (l :: l' :: ls')) with (l ++ sep ++ join sep (l' :: ls')).
  now rewrite !encodable_app, Hl, Hsep, IH.
Qed.

Lemma dns_list_encodable dns :
  encodable (opt_str dns) = true -> forallb encodable (dns_list_of dns) = true.
Proof.
  intros H. apply forallb_forall. intros x Hx.
  unfold dns_list_of in Hx. apply in_map_iff in Hx as (raw & <- & Hraw).
  apply filter_In in Hraw as [Hraw _].
  apply (@encodable_incl _ (opt_str dns)); [|exact H].
  intros c Hc. eapply split_char_incl; [exact Hraw | now apply strip_incl].
Qed.

Lemma netplan_static_document_encodable d ip gw l :
  encodable d = true -> encodable ip = true -> encodable gw = true ->
  forallb encodable l = true ->
  encodable (netplan_static_document d ip gw l) = true.
Proof.
  intros Hd Hip Hgw Hl. unfold netplan_static_document.
  assert (Hj : encodable (join (lit ", ") l) = true)
    by (apply encodable_join; [reflexivity | exact Hl]).
  destruct l; rewrite !encodable_app, ?Hd, ?Hip, ?Hgw, ?Hj; reflexivity.
Qed.


(** X16.  In the netplan family and static mode, with an address and a
    gateway (no line break in them or in [dns], and nothing UTF-8 cannot
    encode), a configuration directory named by a path text that can be
    made, and a file that can be opened there under a name that is a path
    text, the call writes that file, records it as [last_netplan_file] and
    returns its path.  The document is not the nested YAML of the
    template: [dedent] removes only six blanks, the margin of the address
    block, so the lines of the template keep six blanks too many and
    [addresses], [routes] and [nameservers] start in the first column.
    The name servers are the non-blank items of [dns], stripped; without
    any, there is no [nameservers] block. *)
Theorem X16_static_netplan_document :
  forall (E : Type) (O : Oracle E) (w : World E) (distro mode : str)
         (index : Z) (ip_cidr gateway : str) (dns : option str)
         (hosts_path netplan_dir : str) (fs1 : FS),
    distro <> lit "debian" -> mode <> lit "dhcp" ->
    ip_cidr <> [] -> gateway <> [] ->
    has_newline ip_cidr = false -> has_newline gateway = false ->
    has_newline (opt_str dns) = false ->
    encodable ip_cidr = true -> encodable gateway = true ->
    encodable (opt_str dns) = true ->
    let out := path_join netplan_dir
                 (lit "99-vmcompat-" ++ fst (token_hex O (w_env w)) ++ lit ".yaml") in
    let document :=
      netplan_static_document (str_of_Z index) ip_cidr gateway (dns_list_of dns) in
    path_text netplan_dir = true ->
    path_text out = true ->
    mkdir_p netplan_dir (w_fs w) = Some fs1 ->
    can_open_for_writing out fs1 = true ->
    exists w',
      add_network_compat O distro mode index (Some ip_cidr) (Some gateway) dns
                         hosts_path netplan_dir w
      = (Ret out, w')
      /\ w_fs w' = fs_put out document fs1
      /\ fs_read out (w_fs w') = Some document
      /\ select_value (lit "last_netplan_file") (w_db w') = Some out.
Proof.
  intros E O w distro mode index ip_cidr gateway dns hosts_path netplan_dir fs1
         Hdistro Hmode Hip Hgw Hipnl Hgwnl Hdns Hipe Hgwe Hdnse out document
         _ Hout Hmk Hopen.
  apply path_text_encodable in Hout.
  assert (Hdoc : encodable document = true).
  { apply netplan_static_document_encodable; try assumption.
    - apply decimal_encodable, str_of_Z_decimal.
    - now apply dns_list_encodable. }
  unfold add_network_compat.
  apply str_eqb_neq in Hdistro. rewrite Hdistro.
  apply str_eqb_neq in Hmode. rewrite Hmode.
  assert (Hf : falsy (Some ip_cidr) || falsy (Some gateway) = false).
  { destruct ip_cidr; [congruence|]. destruct gateway; [congruence|]. reflexivity. }
  rewrite Hf. cbn [opt_str].
  unfold bind at 1. unfold ask. unfold out in *.
  destruct (token_hex O (w_env w)) as [tok e]. cbn [fst] in *.
  unfold bind at 1.
  rewrite (@mkdir_parents_run _ netplan_dir fs1 (set_env e w)) by exact Hmk.
  unfold bind at 1. unfold ret at 1. cbv beta iota.
  rewrite netplan_content_static
    by (try assumption; now apply dns_list_no_newline).
  fold document.
  unfold bind at 1. rewrite write_text_run by assumption.
  unfold bind, ret. rewrite PathStore_set_run by (assumption || reflexivity).
  eexists. split; [reflexivity|].
  unfold after_set. cbn [w_fs w_db set_db set_fs set_env].
  split; [reflexivity|]. split; [apply fs_read_put_same|].
  apply select_upsert_same.
Qed.

Lemma X16_static_netplan_document_witness :
  let w := test_world [] [(lit "/etc", Dir)] [] in
  let r := add_network_compat test_oracle (lit "ubuntu") (lit "static") 3
             (Some (lit "10.0.0.5/24")) (Some (lit "10.0.0.1"))
             (Some (lit "8.8.8.8, ,1.1.1.1"))
             (lit "/etc/hosts") (lit "/etc/netplan") w in
  fst r = Ret (lit "/etc/netplan/99-vmcompat-a1b2c3.yaml")
  /\ fs_read (lit "/etc/netplan/99-vmcompat-a1b2c3.yaml") (w_fs (snd r))
     = Some (lit "network:" ++ [NL]
             ++ lit "        version: 2" ++ [NL]
             ++ lit "        renderer: networkd" ++ [NL]
             ++ lit "        ethernets:" ++ [NL]
             ++ lit "          ens3:" ++ [NL]
             ++ lit "            dhcp4: false" ++ [NL]
             ++ lit "addresses: [10.0.0.5/24]" ++ [NL]
             ++ lit "routes:" ++ [NL]
             ++ lit "  - to: default" ++ [NL]
             ++ lit "    via: 10.0.0.1" ++ [NL]
             ++ lit "nameservers:" ++ [NL]
             ++ lit "  addresses: [8.8.8.8, 1.1.1.1]" ++ [NL]
             ++ lit "          enp03:" ++ [NL]
             ++ lit "            dhcp4: true" ++ [NL]
             ++ lit "            optional: true" ++ [NL]).
Proof.
  intros w r.
  destruct (@X16_static_netplan_document TestEnv test_oracle w (lit "ubuntu")
              (lit "static") 3 (lit "10.0.0.5/24") (lit "10.0.0.1")
              (Some (lit "8.8.8.8, ,1.1.1.1")) (lit "/etc/hosts")
              (lit "/etc/netplan")
              [(lit "/etc", Dir); (lit "/etc/netplan", Dir)])
    as (w' & Hrun & _ & Hread & _);
    [discriminate | discriminate | discriminate | discriminate
    | reflexivity | reflexivity | reflexivity | reflexivity | reflexivity
    | reflexivity | reflexivity | reflexivity | reflexivity | reflexivity |].
  unfold r. rewrite Hrun. cbn [fst snd].
  split; [reflexivity|]. vm_compute in Hread. vm_compute. exact Hread.
Defined.

(** ** The hosts family *)



(** X18.  The hosts family checks nothing about the network settings: the
    mode is only text for the comment line, and the address, the gateway,
    the name servers and the netplan directory play no part.  So static
    mode without an address is accepted there; the call never raises a
    [CommandError], and it leaves every path but the hosts path alone (the
    netplan directory is not created). *)
Theorem X18_hosts_family_ignores_network_settings :
  forall (E : Type) (O : Oracle E) (w : World E) (mode : str) (index : Z)
         (ip_cidr gateway dns : option str) (hosts_path netplan_dir : str),
    let r := add_network_compat O (lit "debian") mode index ip_cidr gateway
                                dns hosts_path netplan_dir w in
    (fst r = Ret hosts_path \/ fst r = Raise (OtherError (lit "OSError"))
     \/ fst r = Raise (OtherError (lit "UnicodeEncodeError")))
    /\ (forall ip_cidr' gateway' dns' netplan_dir',
          add_network_compat O (lit "debian") mode index ip_cidr' gateway'
                             dns' hosts_path netplan_dir' w = r)
    /\ (forall p, p <> hosts_path ->
                  fs_lookup p (w_fs (snd r)) = fs_lookup p (w_fs w)).
Proof.
  intros E O w mode index ip_cidr gateway dns hosts_path netplan_dir r.
  pose proof (hosts_call_cases O w mode index ip_cidr gateway dns hosts_path
                               netplan_dir) as H.
  cbv zeta in H. fold r in H.
  assert (Hcases :
    forall rest : outcome str * World E,
      rest = (if contains (hosts_snippet mode index)
                          (universal_newlines (hosts_text hosts_path w))
              then (Ret hosts_path, w)
              else if can_open_for_writing hosts_path (w_fs w)
              then if encodable (hosts_snippet mode index)
                   then if encodable hosts_path
                        then (Ret hosts_path,
                              after_set O (lit "last_hosts_update") hosts_path
                                (set_fs (fs_put hosts_path
                                           (hosts_text hosts_path w
                                            ++ NL :: hosts_snippet mode index)
                                           (w_fs w)) w))
                        else (Raise (OtherError (lit "UnicodeEncodeError")),
                              set_fs (fs_put hosts_path
                                        (hosts_text hosts_path w
                                         ++ NL :: hosts_snippet mode index)
                                        (w_fs w)) w)
                   else (Raise (OtherError (lit "UnicodeEncodeError")),
                         set_fs (fs_put hosts_path (hosts_text hosts_path w)
                                        (w_fs w)) w)
              else (Raise (OtherError (lit "OSError")), w)) ->
      (fst rest = Ret hosts_path \/ fst rest = Raise (OtherError (lit "OSError"))
       \/ fst rest = Raise (OtherError (lit "UnicodeEncodeError")))
      /\ (forall p, p <> hosts_path ->
                    fs_lookup p (w_fs (snd rest)) = fs_lookup p (w_fs w))).
  { intros rest ->.
    destruct (contains _ _); [split; [now left | reflexivity]|].
    destruct (can_open_for_writing _ _); [|split; [right; now left | reflexivity]].
    destruct (encodable (hosts_snippet mode index)).
    - destruct (encodable hosts_path); unfold after_set;
        cbn [fst snd w_fs set_db set_env set_fs];
        (split; [tauto | intros p Hp; now apply fs_lookup_put_other]).
    - cbn [fst snd w_fs set_fs].
      split; [tauto | intros p Hp; now apply fs_lookup_put_other]. }
  assert (Hall :
    (fst r = Ret hosts_path \/ fst r = Raise (OtherError (lit "OSError"))
     \/ fst r = Raise (OtherError (lit "UnicodeEncodeError")))
    /\ (forall p, p <> hosts_path ->
                  fs_lookup p (w_fs (snd r)) = fs_lookup p (w_fs w))).
  { destruct (fs_lookup hosts_path (w_fs w)) as [[text|]|].
    - now apply Hcases.
    - rewrite H. split; [right; now left | reflexivity].
    - now apply Hcases. }
  split; [exact (proj1 Hall)|]. split; [|exact (proj2 Hall)].
  intros. reflexivity.
Qed.

(** A mode that UTF-8 cannot encode: the hosts file is opened, which
    creates it, and the write raises. *)
Example hosts_mode_not_encodable :
  let w := test_world [] [(lit "/etc", Dir)] [] in
  let r := add_network_compat test_oracle (lit "debian") [55296%N] 3
             None None None (lit "/etc/hosts") (lit "/etc/netplan") w in
  fst r = Raise (OtherError (lit "UnicodeEncodeError"))
  /\ fs_read (lit "/etc/hosts") (w_fs (snd r)) = Some []
  /\ w_db (snd r) = [].
Proof. vm_compute. repeat split. Qed.
(* ================================================================== *)
(** * More on the Path Store *)
(* ================================================================== *)

Lemma select_none_iff k t :
  select_value k t = None <-> ~ In k (List.map key t).
Proof.
  induction t as [|r t IH]; simpl.
  - split; [intros _ [] | reflexivity].
  - destruct (str_eqb (key r) k) eqn:Ek.
    + apply str_eqb_eq in Ek. split; [discriminate|]. intros H. exfalso.
      apply H. now left.
    + apply str_eqb_neq in Ek. rewrite IH. split.
      * intros H [H1|H1]; [congruence | now apply H].
      * intros H H1. apply H. now right.
Qed.

Lemma upsert_keeps_keys now k v t x :
  In x (List.map key t) -> In x (List.map key (upsert now k v t)).
Proof.
  induction t as [|r t IH]; simpl; [intros []|].
  destruct (str_eqb (key r) k) eqn:Ek; simpl.
  - apply str_eqb_eq in Ek. intros [H|H]; [left; congruence | now right].
  - intros [H|H]; [now left | right; now apply IH].
Qed.

Lemma upsert_length now k v t :
  length (upsert now k v t)
  = if existsb (fun r => str_eqb (key r) k) t then length t else S (length t).
Proof.
  induction t as [|r t IH]; simpl; [reflexivity|].
  destruct (str_eqb (key r) k); simpl; [reflexivity|].
  rewrite IH. destruct (existsb _ t); reflexivity.
Qed.

(** X19.  The keys of the Path Store do not interfere.  For texts that
    UTF-8 can encode: [set] on one key leaves what [get] answers for every
    other key; [get] answers [None] exactly for a key without a row; [set]
    removes no row, and adds one exactly when its key had none.  For a key
    or a value that cannot be encoded, [set] raises UnicodeEncodeError and
    changes nothing, and so does [get] for such a key. *)
Theorem X19_path_store_keys_are_independent :
  forall (E : Type) (O : Oracle E) (w : World E) (k v k' : str),
    let w' := snd (PathStore_set O k v w) in
    (encodable k = true -> encodable v = true -> encodable k' = true ->
     fst (PathStore_set O k v w) = Ret tt
     /\ (k' <> k -> PathStore_get k' w' = (fst (PathStore_get k' w), w'))
     /\ (fst (PathStore_get k' w) = Ret None <-> ~ In k' (List.map key (w_db w)))
     /\ (In k' (List.map key (w_db w)) -> In k' (List.map key (w_db w')))
     /\ length (w_db w')
        = if existsb (fun r => str_eqb (key r) k) (w_db w)
          then length (w_db w) else S (length (w_db w)))
    /\ (encodable k && encodable v = false ->
        PathStore_set O k v w
        = (Raise (OtherError (lit "UnicodeEncodeError")), w))
    /\ (encodable k' = false ->
        PathStore_get k' w
        = (Raise (OtherError (lit "UnicodeEncodeError")), w)).
Proof.
  intros E O w k v k' w'. unfold w'. split; [|split].
  - intros Hk Hv Hk'. rewrite PathStore_set_run by assumption.
    rewrite !PathStore_get_run by assumption.
    unfold after_set. cbn [fst snd w_db set_db set_env].
    split; [reflexivity|]. split; [|split; [|split]].
    + intros Hne. now rewrite select_upsert_other.
    + rewrite <- select_none_iff. split; [congruence | now intros ->].
    + apply upsert_keeps_keys.
    + apply upsert_length.
  - intros H. rewrite PathStore_set_cases, H. reflexivity.
  - intros H. unfold PathStore_get. rewrite H. reflexivity.
Qed.

Lemma X19_path_store_keys_are_independent_witness :
  let w := test_world [] []
             [{| key := lit "last_ova_input"; value := lit "/a.ova";
                 updated_at := 7 |}] in
  let w' := snd (PathStore_set test_oracle (lit "last_qcow2_output")
                               (lit "/a.qcow2") w) in
  fst (PathStore_get (lit "last_ova_input") w') = Ret (Some (lit "/a.ova"))
  /\ length (w_db w') = 2.
Proof.
  intros w w'.
  destruct (@X19_path_store_keys_are_independent TestEnv test_oracle w
              (lit "last_qcow2_output") (lit "/a.qcow2") (lit "last_ova_input"))
    as (Hgood & _).
  destruct (Hgood eq_refl eq_refl eq_refl) as (_ & Hother & _ & _ & Hlen).
  fold w' in Hother, Hlen. split.
  - rewrite Hother by discriminate. reflexivity.
  - rewrite Hlen. reflexivity.
Defined.

(** ** The order of [all()] after a [set] *)

(** X20.  When the clock has passed the time of every stored row, the row
    that [set] writes (key and value being texts that can be encoded) is
    the first that [all()] returns, with the text of that time. *)
Theorem X20_all_lists_the_row_just_set_first :
  forall (E : Type) (O : Oracle E) (w : World E) (k v : str),
    let now := fst (current_timestamp O (w_env w)) in
    encodable k = true -> encodable v = true ->
    four_digit_year now ->
    (forall r, In r (w_db w) -> (updated_at r < now)%Z) ->
    exists w' rest,
      PathStore_set O k v w = (Ret tt, w')
      /\ fst (PathStore_all w') = Ret ((k, v, sqlite_datetime now) :: rest).
Proof.
  intros E O w k v now Hk Hv _ Hold.
  destruct (upsert_split now k v (w_db w)) as (l1 & l2 & Hu & Hin & _).
  exists (after_set O k v w),
         (List.map row_tuple (order_by_updated_desc (l1 ++ l2))).
  split; [now apply PathStore_set_run|].
  unfold PathStore_all, after_set. cbn [fst snd w_db set_db set_env]. fold now.
  rewrite Hu, order_by_newest; [reflexivity|].
  intros x Hx. cbn [updated_at]. apply Hold. now apply Hin.
Qed.

Lemma X20_all_lists_the_row_just_set_first_witness :
  let w := test_world [] []
             [{| key := lit "last_ova_input"; value := lit "/a.ova";
                 updated_at := 7 |};
              {| key := lit "last_hosts_update"; value := lit "/etc/hosts";
                 updated_at := 99 |};
              {| key := lit "last_qcow2_output"; value := lit "/a.qcow2";
                 updated_at := 8 |}] in
  exists w' rest,
    PathStore_set test_oracle (lit "last_ova_input") (lit "/b.ova") w
    = (Ret tt, w')
    /\ fst (PathStore_all w')
       = Ret ((lit "last_ova_input", lit "/b.ova", lit "1970-01-01 00:01:40")
              :: rest).
Proof.
  intros w.
  apply (@X20_all_lists_the_row_just_set_first TestEnv test_oracle w
           (lit "last_ova_input") (lit "/b.ova") eq_refl eq_refl).
  - vm_compute. split; [discriminate | reflexivity].
  - intros r Hr. cbn [w_db w test_world] in Hr.
    destruct Hr as [<-|[<-|[<-|[]]]]; vm_compute; reflexivity.
Defined.

(** ** Opening the store *)

(** X21.  When opening the Path Store returns, the directory of the store
    is there and a file is at the path of its database; every other file
    reads as before and no entry is lost; an existing database keeps its
    rows, a new one has none; and opening the store again changes
    nothing.  Opening does not return when the directory cannot be made
    (OSError), when a directory is in the place of the database
    (sqlite3.OperationalError) or when the file there is no database
    (sqlite3.DatabaseError). *)
Theorem X21_opening_the_store_is_idempotent :
  forall (E : Type) (O : Oracle E) (w : World E),
    (forall w1,
        PathStore_init O w = (Ret tt, w1) ->
        PathStore_init O w1 = (Ret tt, w1)
        /\ is_dir (APP_DIR O) (w_fs w1) = true
        /\ (exists content, fs_lookup (DB_PATH O) (w_fs w1) = Some (File content))
        /\ (forall p, p <> DB_PATH O -> fs_read p (w_fs w1) = fs_read p (w_fs w))
        /\ (forall p, In p (List.map fst (w_fs w)) ->
                      In p (List.map fst (w_fs w1)))
        /\ (fs_lookup (DB_PATH O) (w_fs w) <> None -> w_db w1 = w_db w)
        /\ (fs_lookup (DB_PATH O) (w_fs w) = None -> w_db w1 = [])
        /\ w_trace w1 = w_trace w)
    /\ (mkdir_p (APP_DIR O) (w_fs w) = None ->
        PathStore_init O w = (Raise (OtherError (lit "OSError")), w))
    /\ (forall fs1,
          mkdir_p (APP_DIR O) (w_fs w) = Some fs1 ->
          (fs_lookup (DB_PATH O) fs1 = Some Dir ->
           fst (PathStore_init O w) = Raise (OtherError (lit "OperationalError")))
          /\ (forall content,
                fs_lookup (DB_PATH O) fs1 = Some (File content) ->
                is_database content = false ->
                fst (PathStore_init O w)
                = Raise (OtherError (lit "DatabaseError")))).
Proof.
  intros E O w. split; [|split].
  - intros w1 Hinit.
    destruct (@PathStore_init_ret_inv _ O w w1 tt Hinit)
      as (Htrace & _ & Hdir & Hdb & Hfiles & Hkeep & Hrows & Hnew & _).
    assert (Hl : fs_lookup (DB_PATH O) (w_fs w1) = Some (File [])).
    { unfold fs_read in Hdb.
      destruct (fs_lookup (DB_PATH O) (w_fs w1)) as [[c|]|]; try discriminate.
      now injection Hdb as ->. }
    split.
    { rewrite PathStore_init_cases.
      rewrite mkdir_p_noop by exact Hdir. rewrite Hl.
      change (is_database []) with true. cbv iota. now rewrite set_fs_same. }
    split; [exact Hdir|]. split; [now exists []|].
    split; [exact Hfiles|]. split; [exact Hkeep|].
    split; [exact Hrows|]. split; [exact Hnew | exact Htrace].
  - intros Hmk. rewrite PathStore_init_cases, Hmk. reflexivity.
  - intros fs1 Hmk. rewrite PathStore_init_cases, Hmk. split.
    + intros ->. reflexivity.
    + intros content -> ->. reflexivity.
Qed.

(** A first run, then a second one. *)
Lemma X21_opening_the_store_is_idempotent_witness :
  let w := test_world [] [(lit "/home/user", Dir)] [] in
  let w1 := snd (PathStore_init test_oracle w) in
  PathStore_init test_oracle w1 = (Ret tt, w1)
  /\ is_dir (lit "/home/user/.local/share/vm_manager") (w_fs w1) = true
  /\ fs_lookup (lit "/home/user/.local/share/vm_manager/paths.db") (w_fs w1)
     = Some (File []).
Proof.
  intros w w1.
  destruct (@X21_opening_the_store_is_idempotent TestEnv test_oracle w)
    as (Hret & _).
  destruct (Hret w1) as (Hagain & Hdir & _); [vm_compute; reflexivity|].
  split; [exact Hagain|]. split; [exact Hdir|]. vm_compute. reflexivity.
Defined.

(** A file that is no database in the place of the store. *)
Example store_that_is_no_database :
  let w := test_world []
             [(lit "/home/user/.local/share/vm_manager", Dir);
              (lit "/home/user/.local/share/vm_manager/paths.db",
               File (lit "not a database"))] [] in
  main test_oracle ArgsPaths w
  = (Raise (OtherError (lit "DatabaseError")), w).
Proof. vm_compute. reflexivity. Qed.
(* ================================================================== *)
(** * More on the command line *)
(* ================================================================== *)

(** X22.  [os_details] ends with a mapping or with the [CommandError] of
    the first query that fails: once both queries have exited with 0,
    whatever they printed, the call returns a mapping with the keys
    [Guest OS] and [Architecture]; the scan of the dump, with its
    [split(">", 1)[1]], raises nothing. *)
Theorem X22_os_details_parsing_cannot_fail :
  forall (E : Type) (O : Oracle E) (w : World E) (name : str),
    let p1 := fst (after_exec O (dominfo_command name) w) in
    let wa := snd (after_exec O (dominfo_command name) w) in
    let p2 := fst (after_exec O (dumpxml_command name) wa) in
    let wb := snd (after_exec O (dumpxml_command name) wa) in
    (returncode p1 = 0%Z -> returncode p2 = 0%Z ->
     exists info,
       os_details O name w = (Ret info, wb)
       /\ dict_get (lit "Guest OS") info <> None
       /\ dict_get (lit "Architecture") info <> None)
    /\ (returncode p1 <> 0%Z ->
        os_details O name w
        = (Raise (CommandError (run_error_message (dominfo_command name) p1)), wa))
    /\ (returncode p1 = 0%Z -> returncode p2 <> 0%Z ->
        os_details O name w
        = (Raise (CommandError (run_error_message (dumpxml_command name) p2)), wb)).
Proof.
  intros E O w name p1 wa p2 wb. split; [|split].
  - intros H1 H2.
    destruct (@os_details_run _ O name w H1 H2) as (os_type & arch & _ & Hrun).
    eexists. split; [exact Hrun|]. split.
    + rewrite dict_get_set_other by (vm_compute; discriminate).
      rewrite dict_get_set_same. discriminate.
    + rewrite dict_get_set_same. discriminate.
  - intros H1. unfold os_details, bind.
    change [lit "virsh"; lit "dominfo"; name] with (dominfo_command name).
    rewrite run_after_exec. fold p1 wa. cbv zeta.
    apply Z.eqb_neq in H1. now rewrite H1.
  - intros H1 H2. unfold os_details, bind.
    change [lit "virsh"; lit "dominfo"; name] with (dominfo_command name).
    change [lit "virsh"; lit "dumpxml"; name] with (dumpxml_command name).
    rewrite run_after_exec. fold p1 wa. cbv zeta. rewrite H1.
    change (0 =? 0)%Z with true. cbv iota beta.
    rewrite run_after_exec. fold p2 wb. cbv zeta.
    apply Z.eqb_neq in H2. now rewrite H2.
Qed.

Lemma X22_os_details_parsing_cannot_fail_witness :
  let w := test_world
             [(completed 0 (lit "Name: vm1" ++ [NL]) [], []);
              (completed 0 (lit "<type") [], [])] [] [] in
  exists info w',
    os_details test_oracle (lit "vm1") w = (Ret info, w')
    /\ dict_get (lit "Guest OS") info <> None.
Proof.
  intros w.
  destruct (@X22_os_details_parsing_cannot_fail TestEnv test_oracle w (lit "vm1"))
    as (Hgood & _).
  destruct (Hgood eq_refl eq_refl) as (info & Hrun & Hos & _).
  eexists. eexists. split; [exact Hrun | exact Hos].
Defined.

(** ** What [paths] and [validate] print *)

Lemma for_each_print {E A} (f : A -> str) xs : forall (w : World E),
  for_each (fun x => print (f x)) xs w
  = (Ret (List.map (fun _ => tt) xs), printed_all (List.map f xs) w).
Proof.
  induction xs as [|x xs IH]; intros w; cbn [for_each List.map].
  - unfold ret, printed_all. rewrite app_nil_r. destruct w; reflexivity.
  - unfold bind at 1. unfold print at 1. unfold bind at 1. rewrite IH.
    unfold ret, printed_all. cbn [w_fs w_db w_trace w_out w_env].
    rewrite <- app_assoc. reflexivity.
Qed.

(** X23.  On a table of rows as [set] writes them, [paths] changes
    nothing: it ends with status 0 after printing one line
    [key = value (actualizado: YYYY-MM-DD HH:MM:SS)] per row, in the order
    of [all()], with the text SQLite keeps for the time of the row, or the
    line that says no path is saved yet when the table is empty. *)
Theorem X23_paths_prints_every_row :
  forall (E : Type) (O : Oracle E) (w : World E),
    Forall stored_row (w_db w) ->
    run_command O ArgsPaths w
    = (Ret 0%Z,
       printed_all (match w_db w with
                    | [] => [no_paths_line]
                    | _ => List.map paths_line (order_by_updated_desc (w_db w))
                    end) w).
Proof.
  intros E O w _.
  assert (Hfmt : forall rows (w0 : World E),
    for_each (fun r : str * str * str =>
                let (p, t) := r in
                let (k, v) := p in
                print (k ++ lit " = " ++ v ++ lit " (actualizado: "
                       ++ t ++ lit ")"))
             (List.map row_tuple rows) w0
    = (Ret (List.map (fun _ => tt) rows),
       printed_all (List.map paths_line rows) w0)).
  { induction rows as [|r rows IH]; intros w0; cbn [for_each List.map].
    - unfold ret, printed_all. rewrite app_nil_r. destruct w0; reflexivity.
    - unfold bind at 1. unfold row_tuple at 1. unfold print at 1.
      unfold bind at 1. rewrite IH.
      unfold ret, printed_all, paths_line. cbn [w_fs w_db w_trace w_out w_env].
      rewrite <- app_assoc. reflexivity. }
  unfold run_command. cbn [dispatch].
  unfold bind at 1. unfold PathStore_all.
  destruct (w_db w) as [|r t] eqn:Edb.
  - cbn [order_by_updated_desc fold_right List.map].
    unfold bind, print, ret. cbn [for_each]. unfold ret, printed_all, no_paths_line.
    reflexivity.
  - assert (Hne : exists x rows, order_by_updated_desc (r :: t) = x :: rows).
    { destruct (order_by_updated_desc (r :: t)) as [|x rows] eqn:Eo.
      - pose proof (order_by_perm (r :: t)) as Hp. rewrite Eo in Hp.
        apply Permutation_nil in Hp. discriminate.
      - now exists x, rows. }
    destruct Hne as (x & rows & Eo). rewrite Eo.
    unfold bind at 1. cbn [List.map]. unfold ret at 1.
    unfold bind at 1.
    change (row_tuple x :: List.map row_tuple rows)
      with (List.map row_tuple (x :: rows)).
    rewrite (Hfmt (x :: rows)). reflexivity.
Qed.

Lemma X23_paths_prints_every_row_witness :
  let w := test_world [] []
             [{| key := lit "last_ova_input"; value := lit "/a.ova";
                 updated_at := 1700000000 |};
              {| key := lit "last_qcow2_output"; value := lit "/a.qcow2";
                 updated_at := 1700000060 |}] in
  run_command test_oracle ArgsPaths w
  = (Ret 0%Z,
     printed_all
       [lit "last_qcow2_output = /a.qcow2 (actualizado: 2023-11-14 22:14:20)";
        lit "last_ova_input = /a.ova (actualizado: 2023-11-14 22:13:20)"] w).
Proof.
  intros w.
  rewrite (@X23_paths_prints_every_row TestEnv test_oracle w).
  - vm_compute. reflexivity.
  - repeat constructor; vm_compute; discriminate.
Defined.

(** X24.  The exit status of [validate] does not tell whether the
    configuration is valid: whenever the dump succeeds and can be written
    to the temporary file (the path of that file is a path text, nothing
    but a file is there, its directory is there, UTF-8 can encode the
    dump), the command ends with status 0, whatever the validator
    answered.  What it found shows only in the printed lines: a heading
    and one line [- diagnostic] per diagnostic, or the line that says no
    error was detected when the list of diagnostics is empty. *)
Theorem X24_validate_status_ignores_the_validator :
  forall (E : Type) (O : Oracle E) (w : World E) (name : str),
    let dump := validate_dump O name w in
    let p := fst (validator_run O name w) in
    let issues :=
      if (returncode p =? 0)%Z then []
      else stripped_lines (proc_stderr p) ++ stripped_lines (proc_stdout p) in
    returncode (fst dump) = 0%Z ->
    path_text (validate_xml_path O name w) = true ->
    can_open_for_writing (validate_xml_path O name w) (w_fs (snd dump)) = true ->
    encodable (proc_stdout (fst dump)) = true ->
    run_command O (ArgsValidate name) w
    = (Ret 0%Z,
       printed_all (validate_lines issues)
                   (leave_tmpdir (tmpdir_of O w) (snd (validator_run O name w)))).
Proof.
  intros E O w name dump p issues Hdump _ Hopen Henc.
  unfold run_command. cbn [dispatch]. unfold bind at 1.
  rewrite validate_vm_config_run by assumption. fold p. fold issues.
  destruct issues as [|i rest].
  - unfold print, validate_lines, printed_all. reflexivity.
  - unfold bind at 1. unfold print at 1. unfold bind at 1.
    rewrite for_each_print. unfold ret, validate_lines, printed_all.
    cbn [w_fs w_db w_trace w_out w_env]. rewrite <- app_assoc. reflexivity.
Qed.

Lemma X24_validate_status_ignores_the_validator_witness :
  let w := test_world
             [(completed 0 (lit "<domain/>") [], []);
              (completed 1 [] (lit "error: Extra element devices" ++ [NL]
                               ++ lit "error: invalid" ++ [NL]), [])] [] [] in
  let r := run_command test_oracle (ArgsValidate (lit "vm1")) w in
  fst r = Ret 0%Z
  /\ w_out (snd r)
     = [lit "Errores/advertencias detectados:";
        lit "- error: Extra element devices";
        lit "- error: invalid"].
Proof.
  intros w r.
  pose proof (@X24_validate_status_ignores_the_validator TestEnv test_oracle w
                (lit "vm1") eq_refl eq_refl eq_refl eq_refl) as Hrun.
  unfold r. rewrite Hrun. cbn [fst snd]. split; [reflexivity|].
  vm_compute. reflexivity.
Defined.
